(** * Engagement decision and timing engine of the Discord account manager

    A shallow embedding of the decision functions and message handlers of
    [src/discordManager.ts], with the constants of [src/constants.ts], the
    account configuration types ([AccountConfig], [UserConfig]) and the
    clamping of the interaction rate in [src/index.ts], followed by the
    properties of the specification that were checked against it.  The
    reply phase of the two handlers, the Reddit settings of the loader and
    the retries and URL decoding of [src/redditAPI.ts] are embedded as well,
    with further properties read off the code.

    Conventions of the embedding.

    - JavaScript numbers.  Quantities the program keeps integral (counters,
      timestamps and delays in milliseconds, engagement levels produced by
      [parseInt]) are [Z]; fractional quantities (probabilities, scaling
      factors, values returned by [Math.random]) are exact rationals [Q].
      The rounding of IEEE-754 doubles (to nearest, ties to even:
      [toDouble]) is applied where it decides an integer result: in the
      scaled bounds of the delay range ([Math.floor(180 * 0.7)] is 125) and
      in the roll of the target count ([Math.floor(r * n + min)] reaches
      [min + n] at the largest draws).  Elsewhere arithmetic is exact (so
      [0.05 + 0.10] is [0.15], where doubles give 0.15000000000000002).
    - Strings are [string]s of 8-bit characters; [length] counts characters,
      and case-insensitive matching folds the ASCII letters only.
    - The module-level [Map]s are finite maps [gmap string _] collected in a
      [State] record; functions that read or write them run in the state
      monad [M].  Objects stored in a [Map] are mutated in place by the
      program; the embedding writes such a mutation back to the map at the
      point where it happens.
    - Everything the program obtains from outside ([Math.random], [Date.now],
      the Reddit fetch) is read from an [Oracle], one entry per call, with a
      cursor per source kept in the [State].
    - The calls of the reply phase that leave the module (the conversation
      fetch, the AI call and the send) and the requests that are retried are
      given by their outcome: resolved with a value, or thrown.  So is the
      [sendTyping] that the emergency bypass awaits ([channel_typing]). *)

From Stdlib Require Import ZArith QArith Qround Qminmax Lqa String Ascii List Bool.
From stdpp Require Import gmap strings list fin_maps.

Set Default Proof Using "Type".

(* ===================================================================== *)
(** ** Numbers *)
(* ===================================================================== *)

(** [a < b] on fractional numbers, as a boolean. *)
Definition Qltb (a b : Q) : bool := negb (Qle_bool b a).
(** [Math.floor] of a fractional number. *)
Definition Math_floor (x : Q) : Z := Qfloor x.

(** The integer nearest to [x], the even one of the two when [x] lies
    halfway between them. *)
Definition roundHalfEven (x : Q) : Z :=
  let f := Qfloor x in
  match (x - inject_Z f ?= 1 # 2)%Q with
  | Lt => f
  | Gt => f + 1
  | Eq => if Z.even f then f else f + 1
  end.

(** The exponent [e] of the spacing [2^e] of the doubles around a number
    that is not negative: 52 binary places below its leading bit, and
    [-1074] in the subnormal range. *)
Definition doubleExponent (x : Q) : Z :=
  Z.max (Z.log2 (Qfloor (x * inject_Z (2 ^ 1074))) - 52) 0 - 1074.

(** The double nearest to a number that is not negative: the nearest
    multiple of the spacing. *)
Definition roundPositive (x : Q) : Q :=
  let e := doubleExponent x in
  let up := inject_Z (2 ^ Z.max 0 e) in
  let down := inject_Z (2 ^ Z.max 0 (- e)) in
  (inject_Z (roundHalfEven (x * down / up)) * up / down)%Q.

(** The double nearest to a number (IEEE-754 binary64, round to nearest,
    ties to even), for numbers below the overflow threshold: the value of a
    decimal literal, and of a sum or product of doubles. *)
Definition toDouble (x : Q) : Q :=
  if Qle_bool 0 x then roundPositive x else (- roundPositive (- x))%Q.

(* ===================================================================== *)
(** ** Strings and the regular expressions of the program *)
(* ===================================================================== *)

(** [hay.includes(needle)]. *)
Fixpoint includes (needle hay : string) : bool :=
  String.prefix needle hay ||
  match hay with
  | EmptyString => false
  | String _ rest => includes needle rest
  end.

Definition lower_ascii (c : ascii) : ascii :=
  let n := N_of_ascii c in
  if (65 <=? n)%N && (n <=? 90)%N then ascii_of_N (n + 32) else c.

(** [s.toLowerCase()], on the ASCII letters. *)
Fixpoint toLowerCase (s : string) : string :=
  match s with
  | EmptyString => EmptyString
  | String c rest => String (lower_ascii c) (toLowerCase rest)
  end.

(** [/(a|b|...)/.test(s)] for literal alternatives. *)
Definition regex_test (alternatives : list string) (s : string) : bool :=
  existsb (fun a => includes a s) alternatives.

(** [/(a|b|...)/i.test(s)] for lower-case literal alternatives. *)
Definition regex_test_i (alternatives : list string) (s : string) : bool :=
  regex_test alternatives (toLowerCase s).

(* ===================================================================== *)
(** ** Constants ([src/constants.ts]) *)
(* ===================================================================== *)

Definition MAX_BOT_CHAIN : Z := 3.
Definition BOT_CHAIN_INACTIVITY_RESET_MS : Z := 600000.
Definition RECENTLY_SENT_IMAGE_CACHE_SIZE : nat := 30.
Definition MAX_UNIQUE_IMAGE_FETCH_ATTEMPTS : nat := 5.
Definition INTERACTION_TRACKING_CLEANUP_THRESHOLD : nat := 1000.
Definition INTERACTION_TRACKING_RETENTION_MS : Z := 24 * 60 * 60 * 1000.
Definition MAX_RESPONSE_DELAY_MS : Z := 15 * 60 * 1000.
Definition MIN_RESPONSE_DELAY_MS : Z := 2000.
Definition TYPING_INDICATOR_MIN_PERCENTAGE : Q := 0.2.
Definition TYPING_INDICATOR_MAX_PERCENTAGE : Q := 0.6.

(* ===================================================================== *)
(** ** Configuration and message types *)
(* ===================================================================== *)

Inductive AccountType := bot | user.

Inductive MessageFrequency := high | medium | low.
Inductive MessageBehavior := normal | aggressive | passive.

Record RedditImageConfig := {
  subreddits : list string;
  minMessages : Z;
  maxMessages : Z;
  nsfw : bool
}.

(** [AccountConfig = BotConfig | UserConfig].  The legacy fields exist on
    user accounts only; a field that is absent (or holds a string the
    [switch] does not list) is [None]. *)
Record AccountConfig := {
  id : string;
  accountType : AccountType;
  interactionRate : option Z;
  redditConfig : option RedditImageConfig;
  messageFrequency : option MessageFrequency;
  messageBehavior : option MessageBehavior
}.

Record RedditImageData := {
  image_id : string;
  filename : string;
  title : string;
  subreddit : string
}.

Inductive ChannelKind :=
  | DMChannel             (* ChannelType.DM *)
  | BaseGuildTextChannel  (* guild text channels *)
  | OtherChannel.         (* any other channel, e.g. a thread *)

#[global] Instance ChannelKind_eq_dec : EqDecision ChannelKind.
Proof. solve_decision. Defined.

Record Channel := {
  channel_id : string;
  channel_kind : ChannelKind;
  (** what [canRespondToChannel] finds for a guild channel *)
  channel_permitted : bool;
  (** whether an awaited [sendTyping()] on the channel resolves ([false]:
      it rejects, for instance because the channel is unavailable) *)
  channel_typing : bool
}.

Record Message := {
  author_id : string;
  author_bot : bool;
  channel : Channel;
  content : string;
  (** ids in [message.mentions.users] *)
  mentions : list string
}.

(** [client.user] *)
Record ClientUser := {
  user_id : string;
  username : string
}.

(* ===================================================================== *)
(** ** Module state, oracle and the monad *)
(* ===================================================================== *)

Record AccountConversationChain := {
  chainCount : Z;
  lastAccountId : string;
  lastActivity : Z
}.

Record DMConversationCount := {
  count : Z;
  lastMessageTime : Z
}.

Record ChannelMessageTracker := {
  messageCount : Z;
  targetMessageCount : Z;
  lastImageTime : Z
}.

Record State := {
  accountToAccountChains : gmap string AccountConversationChain;
  dmConversationCounts : gmap string DMConversationCount;
  channelMessageTrackers : gmap string ChannelMessageTracker;
  recentlySentRedditImagesByChannel : gmap string (list string);
  lastInteractionTimes : gmap string Z;
  (** number of calls made so far to each outside source *)
  randomCalls : nat;
  clockCalls : nat;
  redditCalls : nat
}.

Record Oracle := {
  (** the value of the n-th call of [Math.random()] *)
  random_at : nat -> Q;
  (** the value of the n-th call of [Date.now()] *)
  now_at : nat -> Z;
  (** the result of the n-th call of [getRandomRedditImage] *)
  reddit_at : nat -> option RedditImageData
}.

Definition M (A : Type) : Type := Oracle -> State -> A * State.

Definition ret {A} (a : A) : M A := fun _ s => (a, s).

Definition bind {A B} (c : M A) (k : A -> M B) : M B :=
  fun o s => let '(a, s') := c o s in k a o s'.

Notation "'do' x <- c ; k" := (bind c (fun x => k))
  (at level 10, x name, c at level 100, k at level 200).

Definition gets {A} (f : State -> A) : M A := fun _ s => (f s, s).
Definition modify (f : State -> State) : M unit := fun _ s => (tt, f s).

Definition set_accountToAccountChains (f : gmap string AccountConversationChain -> gmap string AccountConversationChain) (s : State) : State :=
  {| accountToAccountChains := f (accountToAccountChains s);
     dmConversationCounts := dmConversationCounts s;
     channelMessageTrackers := channelMessageTrackers s;
     recentlySentRedditImagesByChannel := recentlySentRedditImagesByChannel s;
     lastInteractionTimes := lastInteractionTimes s;
     randomCalls := randomCalls s;
     clockCalls := clockCalls s;
     redditCalls := redditCalls s |}.

Definition set_dmConversationCounts (f : gmap string DMConversationCount -> gmap string DMConversationCount) (s : State) : State :=
  {| accountToAccountChains := accountToAccountChains s;
     dmConversationCounts := f (dmConversationCounts s);
     channelMessageTrackers := channelMessageTrackers s;
     recentlySentRedditImagesByChannel := recentlySentRedditImagesByChannel s;
     lastInteractionTimes := lastInteractionTimes s;
     randomCalls := randomCalls s;
     clockCalls := clockCalls s;
     redditCalls := redditCalls s |}.

Definition set_channelMessageTrackers (f : gmap string ChannelMessageTracker -> gmap string ChannelMessageTracker) (s : State) : State :=
  {| accountToAccountChains := accountToAccountChains s;
     dmConversationCounts := dmConversationCounts s;
     channelMessageTrackers := f (channelMessageTrackers s);
     recentlySentRedditImagesByChannel := recentlySentRedditImagesByChannel s;
     lastInteractionTimes := lastInteractionTimes s;
     randomCalls := randomCalls s;
     clockCalls := clockCalls s;
     redditCalls := redditCalls s |}.

Definition set_recentlySentRedditImagesByChannel (f : gmap string (list string) -> gmap string (list string)) (s : State) : State :=
  {| accountToAccountChains := accountToAccountChains s;
     dmConversationCounts := dmConversationCounts s;
     channelMessageTrackers := channelMessageTrackers s;
     recentlySentRedditImagesByChannel := f (recentlySentRedditImagesByChannel s);
     lastInteractionTimes := lastInteractionTimes s;
     randomCalls := randomCalls s;
     clockCalls := clockCalls s;
     redditCalls := redditCalls s |}.

Definition set_lastInteractionTimes (f : gmap string Z -> gmap string Z) (s : State) : State :=
  {| accountToAccountChains := accountToAccountChains s;
     dmConversationCounts := dmConversationCounts s;
     channelMessageTrackers := channelMessageTrackers s;
     recentlySentRedditImagesByChannel := recentlySentRedditImagesByChannel s;
     lastInteractionTimes := f (lastInteractionTimes s);
     randomCalls := randomCalls s;
     clockCalls := clockCalls s;
     redditCalls := redditCalls s |}.

(** [Math.random()] *)
Definition Math_random : M Q := fun o s =>
  (random_at o (randomCalls s),
   {| accountToAccountChains := accountToAccountChains s;
      dmConversationCounts := dmConversationCounts s;
      channelMessageTrackers := channelMessageTrackers s;
      recentlySentRedditImagesByChannel := recentlySentRedditImagesByChannel s;
      lastInteractionTimes := lastInteractionTimes s;
      randomCalls := S (randomCalls s);
      clockCalls := clockCalls s;
      redditCalls := redditCalls s |}).

(** [Date.now()] *)
Definition Date_now : M Z := fun o s =>
  (now_at o (clockCalls s),
   {| accountToAccountChains := accountToAccountChains s;
      dmConversationCounts := dmConversationCounts s;
      channelMessageTrackers := channelMessageTrackers s;
      recentlySentRedditImagesByChannel := recentlySentRedditImagesByChannel s;
      lastInteractionTimes := lastInteractionTimes s;
      randomCalls := randomCalls s;
      clockCalls := S (clockCalls s);
      redditCalls := redditCalls s |}).

(** [await getRandomRedditImage(config)] ([src/redditAPI.ts]): the function
    catches its own errors and resolves to an image or to [null]. *)
Definition getRandomRedditImage (config : RedditImageConfig) : M (option RedditImageData) :=
  fun o s =>
  (reddit_at o (redditCalls s),
   {| accountToAccountChains := accountToAccountChains s;
      dmConversationCounts := dmConversationCounts s;
      channelMessageTrackers := channelMessageTrackers s;
      recentlySentRedditImagesByChannel := recentlySentRedditImagesByChannel s;
      lastInteractionTimes := lastInteractionTimes s;
      randomCalls := randomCalls s;
      clockCalls := clockCalls s;
      redditCalls := S (redditCalls s) |}).

(* ===================================================================== *)
(** ** Probability model: [shouldAccountRespond] *)
(* ===================================================================== *)

Open Scope Q_scope.

(** [/\?/.test(content)] *)
Definition isQuestionText (content : string) : bool :=
  regex_test ["?"] content.

(** [/!/.test(content)] *)
Definition isExclamationText (content : string) : bool :=
  regex_test ["!"] content.

(** [content.length > 100] *)
Definition isLongText (content : string) : bool :=
  (100 <? Z.of_nat (String.length content))%Z.

(** The emotion pattern of [shouldAccountRespond]. *)
Definition containsEmotionsText (content : string) : bool :=
  regex_test_i ["!"; "?"; "wow"; "amazing"; "great"; "terrible"; "awful";
                "love"; "hate"; "awesome"; "fantastic"; "horrible"] content.

(** The emotion pattern of [shouldLegacyUserAccountRespond]. *)
Definition containsLegacyEmotionsText (content : string) : bool :=
  regex_test_i ["!"; "?"; "wow"; "amazing"; "great"; "terrible"; "awful";
                "love"; "hate"] content.

(** [baseResponseChance] of [shouldAccountRespond] after the conversion of
    the interaction rate, before the boosts. *)
Definition interactionRateBaseChance (interactionRate : Z) : Q :=
  if (interactionRate <=? 20)%Z then
    (inject_Z interactionRate / 20) * 0.05
  else if (interactionRate <=? 40)%Z then
    0.05 + ((inject_Z interactionRate - 20) / 20) * 0.10
  else if (interactionRate <=? 60)%Z then
    0.15 + ((inject_Z interactionRate - 40) / 20) * 0.15
  else if (interactionRate <=? 80)%Z then
    0.30 + ((inject_Z interactionRate - 60) / 20) * 0.20
  else
    0.50 + ((inject_Z interactionRate - 80) / 20) * 0.20.

(** [baseResponseChance] of [shouldAccountRespond] where it is compared with
    [Math.random()]: the base chance, the boosts, the cap. *)
Definition accountResponseChance (interactionRate : Z) (content : string) : Q :=
  let baseResponseChance := interactionRateBaseChance interactionRate in
  let isQuestion := isQuestionText content in
  let baseResponseChance :=
    if isQuestion then baseResponseChance * 1.8 else baseResponseChance in
  let isLongMessage := isLongText content in
  let containsEmotions := containsEmotionsText content in
  let isExclamation := isExclamationText content in
  let baseResponseChance :=
    if isLongMessage then baseResponseChance * 1.3 else baseResponseChance in
  let baseResponseChance :=
    if containsEmotions then baseResponseChance * 1.4 else baseResponseChance in
  let baseResponseChance :=
    if isExclamation && negb isQuestion then baseResponseChance * 1.2
    else baseResponseChance in
  Qmin baseResponseChance 0.8.

(** [questionResponseChance] of [shouldLegacyUserAccountRespond]. *)
Definition questionResponseChance (userConfig : AccountConfig) : Q :=
  match messageBehavior userConfig with
  | Some aggressive => 0.7
  | Some passive => 0.2
  | _ => 0.4
  end.

(** [baseResponseChance] of [shouldLegacyUserAccountRespond] after the two
    [switch]es. *)
Definition legacyTierChance (userConfig : AccountConfig) : Q :=
  let baseResponseChance :=
    match messageFrequency userConfig with
    | Some high => 0.3
    | Some medium => 0.15
    | Some low => 0.05
    | None => 0.1
    end in
  match messageBehavior userConfig with
  | Some aggressive => baseResponseChance * 1.5
  | Some passive => baseResponseChance * 0.5
  | _ => baseResponseChance
  end.

(** [baseResponseChance] of [shouldLegacyUserAccountRespond] where it is
    compared with [Math.random()]: the tiers, the cap, then the boosts. *)
Definition legacyResponseChance (userConfig : AccountConfig) (content : string) : Q :=
  let baseResponseChance := legacyTierChance userConfig in
  let baseResponseChance := Qmin baseResponseChance 0.5 in
  let isLongMessage := isLongText content in
  let containsEmotions := containsLegacyEmotionsText content in
  let baseResponseChance :=
    if isLongMessage then baseResponseChance * 1.2 else baseResponseChance in
  let baseResponseChance :=
    if containsEmotions then baseResponseChance * 1.3 else baseResponseChance in
  baseResponseChance.

Definition shouldLegacyUserAccountRespond (message : Message)
    (userConfig : AccountConfig) (isMentioned containsAccountName : bool) : M bool :=
  if isMentioned || containsAccountName then ret true
  else
    let isQuestion := isQuestionText (content message) in
    do answered <-
      (if isQuestion then
         do r <- Math_random;
         ret (Qltb r (questionResponseChance userConfig))
       else ret false);
    if (answered : bool) then ret true
    else
      do r <- Math_random;
      ret (Qltb r (legacyResponseChance userConfig (content message))).

Definition shouldAccountRespond (message : Message)
    (accountConfig : AccountConfig) (isMentioned containsAccountName : bool) : M bool :=
  if isMentioned || containsAccountName then ret true
  else
    match interactionRate accountConfig, accountType accountConfig with
    | None, bot => ret false
    | None, user =>
        shouldLegacyUserAccountRespond message accountConfig isMentioned containsAccountName
    | Some rate, _ =>
        do r <- Math_random;
        ret (Qltb r (accountResponseChance rate (content message)))
    end.

(** The configuration loader ([src/index.ts]): [INTERACTION_RATE_n] is read
    with [parseInt] and clamped. *)
Definition clampInteractionRate (rate : Z) : Z := Z.max 1 (Z.min 100 rate).

Close Scope Q_scope.

(* ===================================================================== *)
(** ** Chain guard: [shouldAllowAccountResponse] *)
(* ===================================================================== *)

Open Scope Z_scope.

(** The object [accountToAccountChains.get(channelId) || {...}] is either
    the object stored in the map ([stored = true]) or a fresh one.  An
    assignment to a field of the stored object changes the map. *)
Definition assignChainData (stored : bool) (channelId : string)
    (chainData : AccountConversationChain) : M unit :=
  if stored then modify (set_accountToAccountChains (<[channelId := chainData]>))
  else ret tt.

Definition shouldAllowAccountResponse (channelId ourAccountId : string) : M bool :=
  if String.eqb channelId "" then ret true
  else
    do entry <- gets (fun s => accountToAccountChains s !! channelId);
    let stored := bool_decide (is_Some entry) in
    let chainData :=
      default {| chainCount := 0; lastAccountId := ""; lastActivity := 0 |} entry in
    do now <- Date_now;
    let timeSinceLast := now - lastActivity chainData in
    do chainData <-
      (if BOT_CHAIN_INACTIVITY_RESET_MS <? timeSinceLast then
         let chainData :=
           {| chainCount := 0; lastAccountId := "";
              lastActivity := lastActivity chainData |} in
         do _ <- assignChainData stored channelId chainData;
         ret chainData
       else ret chainData);
    let proceed (chainCount' : Z) : M bool :=
      let chainData :=
        {| chainCount := chainCount'; lastAccountId := ourAccountId;
           lastActivity := now |} in
      do _ <- modify (set_accountToAccountChains (<[channelId := chainData]>));
      do entries <- gets (fun s => size (accountToAccountChains s));
      do _ <-
        (if (1000 <? entries)%nat then
           let oldestAllowed := now - BOT_CHAIN_INACTIVITY_RESET_MS * 2 in
           modify (set_accountToAccountChains
                     (filter (fun kv => ¬ (lastActivity kv.2 < oldestAllowed))))
         else ret tt);
      ret true in
    if negb (String.eqb (lastAccountId chainData) "")
       && String.eqb (lastAccountId chainData) ourAccountId then
      if MAX_BOT_CHAIN <=? chainCount chainData then ret false
      else proceed (chainCount chainData + 1)
    else proceed 1.

(** The handler's reaction to a message of a real user in a guild channel. *)
Definition resetChain (channelId : string) : M unit :=
  modify (set_accountToAccountChains (delete channelId)).

(* ===================================================================== *)
(** ** Media cadence and recency cache *)
(* ===================================================================== *)

(** [!accountConfig.redditConfig || subreddits.length === 0] *)
Definition activeRedditConfig (accountConfig : AccountConfig) : option RedditImageConfig :=
  match redditConfig accountConfig with
  | Some config =>
      if (length (subreddits config) =? 0)%nat then None else Some config
  | None => None
  end.

(** [Math.floor(Math.random() * (maxMessages - minMessages + 1) + minMessages)]:
    the product and the sum are rounded to doubles before the floor is
    taken. *)
Definition rollTargetCount (config : RedditImageConfig) : M Z :=
  do r <- Math_random;
  ret (Math_floor
         (toDouble
            (toDouble (r * inject_Z (maxMessages config - minMessages config + 1))
             + inject_Z (minMessages config))%Q)).

(** [value.lastImageTime > 0 && value.lastImageTime < oldestAllowed] *)
Definition staleTracker (oldestAllowed : Z) (tracker : ChannelMessageTracker) : bool :=
  (0 <? lastImageTime tracker) && (lastImageTime tracker <? oldestAllowed).

(** The sweep of [channelMessageTrackers]: every stale tracker is deleted
    together with the image cache of its channel. *)
Definition sweepTrackers (oldestAllowed : Z) (s : State) : State :=
  let trackers := channelMessageTrackers s in
  let staleChannel (channelId : string) : bool :=
    match trackers !! channelId with
    | Some tracker => staleTracker oldestAllowed tracker
    | None => false
    end in
  set_recentlySentRedditImagesByChannel
    (filter (fun kv => staleChannel kv.1 = false))
    (set_channelMessageTrackers
       (filter (fun kv => staleTracker oldestAllowed kv.2 = false)) s).

Definition shouldAttachRedditImage (channelId : string)
    (accountConfig : AccountConfig) (forceImage : bool) : M bool :=
  match activeRedditConfig accountConfig with
  | None => ret false
  | Some config =>
      if forceImage then ret true
      else
        do now <- Date_now;
        do entry <- gets (fun s => channelMessageTrackers s !! channelId);
        match entry with
        | None =>
            do targetCount <- rollTargetCount config;
            do _ <- modify (set_channelMessageTrackers
                      (<[channelId := {| messageCount := 1;
                                         targetMessageCount := targetCount;
                                         lastImageTime := 0 |}]>));
            do entries <- gets (fun s => size (channelMessageTrackers s));
            do _ <-
              (if (1000 <? entries)%nat then
                 let oldestAllowed := now - 30 * 24 * 60 * 60 * 1000 in
                 modify (sweepTrackers oldestAllowed)
               else ret tt);
            ret false
        | Some tracker =>
            let messageCount' := messageCount tracker + 1 in
            if targetMessageCount tracker <=? messageCount' then
              do targetCount <- rollTargetCount config;
              do _ <- modify (set_channelMessageTrackers
                        (<[channelId := {| messageCount := 0;
                                           targetMessageCount := targetCount;
                                           lastImageTime := now |}]>));
              ret true
            else
              do _ <- modify (set_channelMessageTrackers
                        (<[channelId := {| messageCount := messageCount';
                                           targetMessageCount := targetMessageCount tracker;
                                           lastImageTime := lastImageTime tracker |}]>));
              ret false
        end
  end.

(** [[id, ...recentlySentIds].slice(0, RECENTLY_SENT_IMAGE_CACHE_SIZE)],
    stored for the channel. *)
Definition rememberImage (channelId : string) (recentlySentIds : list string)
    (image : RedditImageData) : M unit :=
  let updatedSentIds :=
    take RECENTLY_SENT_IMAGE_CACHE_SIZE (image_id image :: recentlySentIds) in
  modify (set_recentlySentRedditImagesByChannel (<[channelId := updatedSentIds]>)).

(** The [for] loop of [getUnseenRandomRedditImage] with [attempts] rounds
    left; [None] when the loop ends without a [return]. *)
Fixpoint fetchUnseenLoop (attempts : nat) (config : RedditImageConfig)
    (channelId : string) (recentlySentIds : list string)
    : M (option RedditImageData) :=
  match attempts with
  | O => ret None
  | S attempts' =>
      do image <- getRandomRedditImage config;
      match image with
      | None => fetchUnseenLoop attempts' config channelId recentlySentIds
      | Some image =>
          if negb (bool_decide (image_id image ∈ recentlySentIds)) then
            do _ <- rememberImage channelId recentlySentIds image;
            ret (Some image)
          else fetchUnseenLoop attempts' config channelId recentlySentIds
      end
  end.

Definition getUnseenRandomRedditImage (accountConfig : AccountConfig)
    (channelId : string) : M (option RedditImageData) :=
  match activeRedditConfig accountConfig with
  | None => ret None
  | Some config =>
      do entry <- gets (fun s => recentlySentRedditImagesByChannel s !! channelId);
      let recentlySentIds := default [] entry in
      do found <- fetchUnseenLoop MAX_UNIQUE_IMAGE_FETCH_ATTEMPTS config
                    channelId recentlySentIds;
      match found with
      | Some image => ret (Some image)
      | None =>
          do lastAttemptImage <- getRandomRedditImage config;
          match lastAttemptImage with
          | Some lastAttemptImage =>
              do _ <- rememberImage channelId recentlySentIds lastAttemptImage;
              ret (Some lastAttemptImage)
          | None => ret None
          end
      end
  end.

(* ===================================================================== *)
(** ** Timing model and the message handlers *)
(* ===================================================================== *)

(** What a handler does with timers while it waits before it replies. *)
Inductive Action :=
  | Sleep (ms : Z)            (* await new Promise(r => setTimeout(r, ms)) *)
  | ScheduleTyping (ms : Z)   (* typingTimeout = setTimeout(sendTyping, ms) *)
  | SendTyping                (* await message.channel.sendTyping() *)
  | TypingFailed.             (* that call rejected: the [catch] block follows *)

#[global] Instance Action_eq_dec : EqDecision Action.
Proof. solve_decision. Defined.

(** The time a handler spends in awaited timers; a timer set to a negative
    delay fires at once. *)
Fixpoint totalWait (actions : list Action) : Z :=
  match actions with
  | [] => 0
  | Sleep ms :: rest => Z.max 0 ms + totalWait rest
  | _ :: rest => totalWait rest
  end.

Record DebugCheats := {
  forceImage : bool;
  instantResponse : bool
}.

Definition checkDebugCheats (content : string) : DebugCheats :=
  {| forceImage := includes "''" content;
     instantResponse := includes "`" content |}.

Definition isMessageUrgent (content : string) (isMentioned : bool) : bool :=
  if isMentioned then true
  else regex_test ["?"] content
       || regex_test_i ["help"; "urgent"; "quick"; "asap"; "emergency"] content.

Definition getInteractionKey (channelId userId botId : string) : string :=
  channelId +:+ ":" +:+ userId +:+ ":" +:+ botId.

Definition updateLastInteractionTime (channelId userId botId : string) : M unit :=
  let key := getInteractionKey channelId userId botId in
  do now <- Date_now;
  do _ <- modify (set_lastInteractionTimes (<[key := now]>));
  do entries <- gets (fun s => size (lastInteractionTimes s));
  if (INTERACTION_TRACKING_CLEANUP_THRESHOLD <? entries)%nat then
    let oldestAllowed := now - INTERACTION_TRACKING_RETENTION_MS in
    modify (set_lastInteractionTimes (filter (fun kv => ¬ (kv.2 < oldestAllowed))))
  else ret tt.

(** [canRespondToChannel]: a direct channel can always be answered; for any
    other channel the permission query decides ([channel_permitted], false
    too when the channel takes no messages or the query throws). *)
Definition canRespondToChannel (c : Channel) : bool :=
  match channel_kind c with
  | DMChannel => true
  | _ => channel_permitted c
  end.

(** [lastInteractionTime ? Date.now() - lastInteractionTime : 30000] *)
Definition timeSinceLastInteraction (interactionKey : string) : M Z :=
  do lastInteractionTime <- gets (fun s => lastInteractionTimes s !! interactionKey);
  match lastInteractionTime with
  | Some t =>
      if t =? 0 then ret 30000
      else do now <- Date_now; ret (now - t)
  | None => ret 30000
  end.

Section Engine.

(** [DEVELOPMENT_MODE] and [DEVELOPMENT_MAX_DELAY_MS] are imported from
    [./constants] by [discordManager.ts]; their values are not fixed here. *)
Variable DEVELOPMENT_MODE : bool.
Variable DEVELOPMENT_MAX_DELAY_MS : Z.

Definition hardMaxDelay : Z :=
  if DEVELOPMENT_MODE then DEVELOPMENT_MAX_DELAY_MS else MAX_RESPONSE_DELAY_MS.

(** [Math.floor(seconds * factor)] for a whole number of seconds and a
    decimal literal: the literal and the product are doubles. *)
Definition scaleSeconds (seconds : Z) (factor : Q) : Z :=
  Math_floor (toDouble (inject_Z seconds * toDouble factor)).

(** [baseDelayRange] of [calculateRealisticDelay], in seconds, before the
    random draw. *)
Definition delayRange (timeSinceLastMs : Z) (isDM isUrgent : bool) : Z * Z :=
  let safeSinceLastMs := Z.max 0 timeSinceLastMs in
  let minutesSinceLast : Q := (inject_Z safeSinceLastMs / inject_Z (60 * 1000))%Q in
  let baseDelayRange : Z * Z :=
    if Qltb minutesSinceLast 1 then (3, 25)
    else if Qltb minutesSinceLast 10 then (15, 120)
    else if Qltb minutesSinceLast 30 then (30, 240)
    else if Qltb minutesSinceLast 120 then (60, 480)
    else (180, 900) in
  let baseDelayRange :=
    if isDM then
      (Z.max 2 (scaleSeconds (fst baseDelayRange) 0.7),
       scaleSeconds (snd baseDelayRange) 0.8)
    else baseDelayRange in
  let baseDelayRange :=
    if isUrgent then
      (Z.max 2 (scaleSeconds (fst baseDelayRange) 0.8),
       scaleSeconds (snd baseDelayRange) 0.9)
    else baseDelayRange in
  baseDelayRange.

Definition calculateRealisticDelay (timeSinceLastMs : Z) (isDM isUrgent : bool) : M Z :=
  let '(minDelay, maxDelay) := delayRange timeSinceLastMs isDM isUrgent in
  do r <- Math_random;
  let randomDelay := Math_floor (r * inject_Z (maxDelay - minDelay + 1))%Q + minDelay in
  let delayMs := randomDelay * 1000 in
  ret (Z.min (Z.max delayMs MIN_RESPONSE_DELAY_MS) hardMaxDelay).

Definition calculateTypingDelay (totalDelayMs : Z) : M Z :=
  do r <- Math_random;
  let typingPercentage :=
    (TYPING_INDICATOR_MIN_PERCENTAGE
     + r * (TYPING_INDICATOR_MAX_PERCENTAGE - TYPING_INDICATOR_MIN_PERCENTAGE))%Q in
  ret (Math_floor (inject_Z totalDelayMs * typingPercentage)%Q).

(** The timing block of both handlers (from [checkDebugCheats] to
    [typingDelayMs]): the pair [(responseDelayMs, typingDelayMs)]. *)
Definition computeResponseTiming (message : Message) (accountConfig : AccountConfig)
    (isDM isUrgent : bool) : M (Z * Z) :=
  let debugCheats := checkDebugCheats (content message) in
  let interactionKey :=
    getInteractionKey (channel_id (channel message)) (author_id message)
      (id accountConfig) in
  do timeSinceLastMs <- timeSinceLastInteraction interactionKey;
  do responseDelayMs <-
    (if instantResponse debugCheats then ret 1000
     else calculateRealisticDelay timeSinceLastMs isDM isUrgent);
  do typingDelayMs <-
    (if instantResponse debugCheats then ret 200
     else calculateTypingDelay responseDelayMs);
  ret (responseDelayMs, typingDelayMs).

(** The waiting block of both handlers (the "emergency bypass" and the
    normal timing flow).  [canType] says whether the channel passes the
    [instanceof] test that guards [sendTyping], [typingResolves] whether
    that call resolves.  In the bypass the call is awaited inside the [try]
    block of the handler: when it rejects, the second sleep and the reply
    are skipped and the list ends in [TypingFailed].  In the normal flow
    the call is made by a timer whose callback catches what it throws. *)
Definition waitBeforeReply (responseDelayMs typingDelayMs : Z)
    (canType typingResolves : bool) : M (list Action) :=
  if 30000 <? responseDelayMs then
    let safeDelayMs := 10000 in
    do safeTypingDelayMs <- calculateTypingDelay safeDelayMs;
    if canType && negb typingResolves then
      ret [Sleep safeTypingDelayMs; SendTyping; TypingFailed]
    else
      ret ([Sleep safeTypingDelayMs]
           ++ (if canType then [SendTyping] else [])
           ++ [Sleep (safeDelayMs - safeTypingDelayMs)])
  else
    ret [ScheduleTyping typingDelayMs; Sleep responseDelayMs].

Definition awaitResponseDelay (message : Message) (accountConfig : AccountConfig)
    (isDM isUrgent canType : bool) : M (list Action) :=
  do timing <- computeResponseTiming message accountConfig isDM isUrgent;
  waitBeforeReply timing.1 timing.2 canType (channel_typing (channel message)).

(** [handleDirectMessage] up to the end of the response delay; the result
    is the timer actions performed before the conversation is fetched, or
    before the awaited typing call rejected. *)
Definition handleDirectMessage (message : Message) (accountConfig : AccountConfig)
    : M (list Action) :=
  let userId := author_id message in
  let dmKey := id accountConfig +:+ "-" +:+ userId in
  do entry <- gets (fun s => dmConversationCounts s !! dmKey);
  let currentData := default {| count := 0; lastMessageTime := 0 |} entry in
  let newCount := count currentData + 1 in
  do now <- Date_now;
  do _ <- modify (set_dmConversationCounts
            (<[dmKey := {| count := newCount; lastMessageTime := now |}]>));
  do entries <- gets (fun s => size (dmConversationCounts s));
  do _ <-
    (if (1000 <? entries)%nat then
       let oldestAllowed := now - 7 * 24 * 60 * 60 * 1000 in
       modify (set_dmConversationCounts
                 (filter (fun kv => ¬ (lastMessageTime kv.2 < oldestAllowed))))
     else ret tt);
  let isUrgent := isMessageUrgent (content message) true in
  awaitResponseDelay message accountConfig true isUrgent
    (bool_decide (channel_kind (channel message) = DMChannel)).

(** The [messageCreate] handler up to the end of the response delay:
    [None] when the handler returns without replying, [Some actions] when it
    goes on to fetch the conversation and reply, after the timer [actions];
    when these end in [TypingFailed] the [catch] block follows instead. *)
Definition messageCreate (clientUser : option ClientUser)
    (accountConfig : AccountConfig) (message : Message) : M (option (list Action)) :=
  if bool_decide (Some (author_id message) = user_id <$> clientUser) then ret None
  else if negb (canRespondToChannel (channel message)) then ret None
  else
    let isDirect := bool_decide (channel_kind (channel message) = DMChannel) in
    do _ <-
      (if negb (author_bot message) && negb isDirect then
         resetChain (channel_id (channel message))
       else ret tt);
    if isDirect then
      do actions <- handleDirectMessage message accountConfig;
      ret (Some actions)
    else
      match clientUser with
      | None => ret None
      | Some accountUser =>
          let accountUsername := toLowerCase (username accountUser) in
          let isMentioned := bool_decide (user_id accountUser ∈ mentions message) in
          let containsAccountName :=
            includes accountUsername (toLowerCase (content message)) in
          do shouldRespond <-
            shouldAccountRespond message accountConfig isMentioned containsAccountName;
          if negb shouldRespond then ret None
          else
            do allowed <-
              shouldAllowAccountResponse (channel_id (channel message))
                (id accountConfig);
            if negb allowed then ret None
            else
              let isUrgent := isMessageUrgent (content message) isMentioned in
              do actions <-
                awaitResponseDelay message accountConfig false isUrgent
                  (bool_decide (channel_kind (channel message) = BaseGuildTextChannel));
              ret (Some actions)
      end.

(* ===================================================================== *)
(** ** Notions used in the statements *)
(* ===================================================================== *)

(** The decision of [shouldAllowAccountResponse] read off the stored entry,
    used to state its properties: [None] when the reply is blocked,
    [Some n] when it is allowed and the entry is stored with count [n]. *)
Definition chainVerdict (entry : option AccountConversationChain) (now : Z)
    (ourAccountId : string) : option Z :=
  let chainData :=
    default {| chainCount := 0; lastAccountId := ""; lastActivity := 0 |} entry in
  let expired := BOT_CHAIN_INACTIVITY_RESET_MS <? now - lastActivity chainData in
  let last := if expired then "" else lastAccountId chainData in
  let n := if expired then 0 else chainCount chainData in
  if negb (String.eqb last "") && String.eqb last ourAccountId then
    if MAX_BOT_CHAIN <=? n then None else Some (n + 1)
  else Some 1.

(** Every value of [Math.random()] lies in the interval from 0 (included)
    to 1 (excluded). *)
Definition unitDraws (o : Oracle) : Prop :=
  forall n, (0 <= random_at o n /\ random_at o n < 1)%Q.

(** Counts of at most [2^31]: sums and products of such counts are exact
    in doubles. *)
Definition countsBounded (config : RedditImageConfig) : Prop :=
  Z.abs (minMessages config) <= 2147483648
  /\ Z.abs (maxMessages config) <= 2147483648.

(** The same account with other settings of the probability model. *)
Definition withProbabilitySettings (accountConfig : AccountConfig)
    (rate : option Z) (frequency : option MessageFrequency)
    (behavior : option MessageBehavior) : AccountConfig :=
  {| id := id accountConfig;
     accountType := accountType accountConfig;
     interactionRate := rate;
     redditConfig := redditConfig accountConfig;
     messageFrequency := frequency;
     messageBehavior := behavior |}.

(** A computation that leaves the chain map as it found it. *)
Definition keepsChains {A : Type} (c : M A) : Prop :=
  forall o s, accountToAccountChains (c o s).2 = accountToAccountChains s.

(** The state after [n] more Reddit fetches that changed nothing else. *)
Definition afterFetches (n : nat) (s : State) : State :=
  {| accountToAccountChains := accountToAccountChains s;
     dmConversationCounts := dmConversationCounts s;
     channelMessageTrackers := channelMessageTrackers s;
     recentlySentRedditImagesByChannel := recentlySentRedditImagesByChannel s;
     lastInteractionTimes := lastInteractionTimes s;
     randomCalls := randomCalls s;
     clockCalls := clockCalls s;
     redditCalls := n + redditCalls s |}.

(* ===================================================================== *)
(** ** The reply phase of the two handlers *)
(* ===================================================================== *)

(** [KindroidAIResult] ([src/types.ts]): what [callKindroidAI] resolves to. *)
Inductive KindroidAIResult :=
  | rate_limited
  | success (reply : string).

(** The calls of a reply phase that leave the module: the conversation
    fetch and the AI call resolve or throw, and so does the send. *)
Record ReplyOutcomes := {
  (** [false]: [ephemeralFetchConversation] throws *)
  conversationFetched : bool;
  (** [None]: [callKindroidAI] throws *)
  aiResult : option KindroidAIResult;
  (** [false]: [message.reply] or [message.channel.send] throws *)
  replyDelivered : bool
}.

(** [MessageCreateOptions]: the text and the attached image, if any. *)
Record MessageOptions := {
  options_content : string;
  options_files : option RedditImageData
}.

(** A call of [message.reply] or of [message.channel.send]. *)
Inductive SendCall :=
  | MessageReply (options : MessageOptions)
  | ChannelSend (options : MessageOptions).

Definition errorMessage : MessageOptions :=
  {| options_content :=
       "Beep boop, something went wrong. Please contact the Kindroid owner if this keeps up!";
     options_files := None |}.

(** [if (isMentioned) message.reply(..) else if (channel instanceof ..)
    message.channel.send(..)] *)
Definition sendCalls (message : Message) (isMentioned : bool)
    (options : MessageOptions) : list SendCall :=
  if isMentioned then [MessageReply options]
  else if bool_decide (channel_kind (channel message) = BaseGuildTextChannel)
          || bool_decide (channel_kind (channel message) = DMChannel)
       then [ChannelSend options]
       else [].

Definition callOptions (call : SendCall) : MessageOptions :=
  match call with
  | MessageReply options => options
  | ChannelSend options => options
  end.

(** From [shouldAttachRedditImage] to [imageAttachment]. *)
Definition prepareImageAttachment (message : Message) (accountConfig : AccountConfig)
    : M (option RedditImageData) :=
  let debugCheats := checkDebugCheats (content message) in
  do shouldAttachImage <-
    shouldAttachRedditImage (channel_id (channel message)) accountConfig
      (forceImage debugCheats);
  if shouldAttachImage && bool_decide (is_Some (redditConfig accountConfig)) then
    getUnseenRandomRedditImage accountConfig (channel_id (channel message))
  else ret None.

(** The [messageCreate] handler from the end of the response delay on: the
    result is the list of the send calls made, the error notice of the
    [catch] block included. *)
Definition replyInChannel (message : Message) (accountConfig : AccountConfig)
    (isMentioned : bool) (outcomes : ReplyOutcomes) : M (list SendCall) :=
  let notice := sendCalls message isMentioned errorMessage in
  if negb (conversationFetched outcomes) then ret notice
  else
    match aiResult outcomes with
    | None => ret notice
    | Some rate_limited => ret []
    | Some (success reply) =>
        do imageAttachment <- prepareImageAttachment message accountConfig;
        let messageOptions :=
          {| options_content := reply; options_files := imageAttachment |} in
        let calls := sendCalls message isMentioned messageOptions in
        if negb (bool_decide (calls = [])) && negb (replyDelivered outcomes) then
          ret (calls ++ notice)
        else
          do _ <- updateLastInteractionTime (channel_id (channel message))
                    (author_id message) (id accountConfig);
          ret calls
    end.

(** [handleDirectMessage] from the end of the response delay on. *)
Definition replyToDirectMessage (message : Message) (accountConfig : AccountConfig)
    (outcomes : ReplyOutcomes) : M (list SendCall) :=
  let notice := [MessageReply errorMessage] in
  if negb (bool_decide (channel_kind (channel message) = DMChannel)) then ret []
  else if negb (conversationFetched outcomes) then ret notice
  else
    match aiResult outcomes with
    | None => ret notice
    | Some rate_limited => ret []
    | Some (success reply) =>
        do imageAttachment <- prepareImageAttachment message accountConfig;
        let messageOptions :=
          {| options_content := reply; options_files := imageAttachment |} in
        if negb (replyDelivered outcomes) then
          ret ([MessageReply messageOptions] ++ notice)
        else
          do _ <- updateLastInteractionTime (channel_id (channel message))
                    (author_id message) (id accountConfig);
          ret [MessageReply messageOptions]
    end.

(** The whole [messageCreate] handler: [None] when it returns without
    reaching its [try] block, otherwise the timer actions and the send
    calls: those of the reply phase, or the error notice of the [catch]
    block when the awaited typing call rejected. *)
Definition messageCreateHandler (clientUser : option ClientUser)
    (accountConfig : AccountConfig) (message : Message) (outcomes : ReplyOutcomes)
    : M (option (list Action * list SendCall)) :=
  do waited <- messageCreate clientUser accountConfig message;
  match waited with
  | None => ret None
  | Some actions =>
      let isDirect := bool_decide (channel_kind (channel message) = DMChannel) in
      let isMentioned :=
        match clientUser with
        | Some accountUser => bool_decide (user_id accountUser ∈ mentions message)
        | None => false
        end in
      do calls <-
        (if bool_decide (TypingFailed ∈ actions) then
           ret (if isDirect then [MessageReply errorMessage]
                else sendCalls message isMentioned errorMessage)
         else if isDirect then
           replyToDirectMessage message accountConfig outcomes
         else
           replyInChannel message accountConfig isMentioned outcomes);
      ret (Some (actions, calls))
  end.

(* ===================================================================== *)
(** ** Retries of the Reddit requests ([src/redditAPI.ts]) *)
(* ===================================================================== *)

Definition REDDIT_MAX_RETRIES : nat := 3.
Definition REDDIT_RETRY_DELAY_MS : Z := 2000.

(** A thrown value, with the result of the test
    [axios.isAxiosError(error) && error.response?.status === 404]. *)
Record ThrownError := {
  error_message : string;
  isNotFound : bool
}.

(** What a promise settles to. *)
Inductive Settled (T : Type) :=
  | Fulfilled (value : T)
  | Rejected (error : ThrownError).

Arguments Fulfilled {T} value.
Arguments Rejected {T} error.

(** The [for] loop of [retryWithBackoff] from [attempt] on, with
    [remaining = maxRetries - attempt] rounds left; [fn n] is what the call
    number [n] of the retried function settles to.  The result is the value,
    or what is thrown ([None] for [null]), with the timers awaited. *)
Fixpoint retryLoop {T : Type} (fn : nat -> Settled T) (remaining attempt : nat)
    (lastError : option ThrownError) : (T + option ThrownError) * list Action :=
  match remaining with
  | O => (inr lastError, [])
  | S remaining' =>
      match fn attempt with
      | Fulfilled value => (inl value, [])
      | Rejected error =>
          if isNotFound error then (inr (Some error), [])
          else
            let waitTime := REDDIT_RETRY_DELAY_MS * 2 ^ Z.of_nat attempt in
            let rest := retryLoop fn remaining' (S attempt) (Some error) in
            (rest.1, Sleep waitTime :: rest.2)
      end
  end.

Definition retryWithBackoff {T : Type} (fn : nat -> Settled T) (maxRetries : nat)
    : (T + option ThrownError) * list Action :=
  retryLoop fn maxRetries 0 None.

(** The function that [fetchSubredditImages] hands to [retryWithBackoff]:
    whatever is thrown inside its [try] block is logged and replaced by a
    new [Error]. *)
Definition fetchAttempt {T : Type} (subreddit : string) (request : Settled T)
    : Settled T :=
  match request with
  | Fulfilled imagePosts => Fulfilled imagePosts
  | Rejected _ =>
      Rejected {| error_message := "Failed to fetch images from r/" +:+ subreddit;
                  isNotFound := false |}
  end.

(** [fetchSubredditImages] after [enforceRateLimit]; [request n] is what the
    request number [n] and the filtering of its posts come to. *)
Definition fetchSubredditImages {T : Type} (subreddit : string)
    (request : nat -> Settled T) : (T + option ThrownError) * list Action :=
  retryWithBackoff (fun n => fetchAttempt subreddit (request n)) REDDIT_MAX_RETRIES.

(** The loop of [getRandomRedditImage] over the subreddits, with
    [remaining] rounds left.  [picks a] is the index
    [Math.floor(Math.random() * availableSubreddits.length)] drawn in round
    [a]; [requests a n] is what request number [n] of that round comes to:
    rejected, or resolved with the image that its posts lead to ([None]: no
    post, none left by the NSFW filter, or none of the first ten whose image
    could be downloaded).  A round whose requests are all rejected is left
    through the [catch] block.  The result is the image or [null], with the
    timers that the retries awaited (the waits of [enforceRateLimit], at
    most a second before each round, come on top). *)
Fixpoint trySubreddits (remaining attempt : nat)
    (subredditNames triedSubreddits : list string) (picks : nat -> nat)
    (requests : nat -> nat -> Settled (option RedditImageData))
    : option RedditImageData * list Action :=
  match remaining with
  | O => (None, [])
  | S remaining' =>
      let availableSubreddits :=
        filter (fun s => s ∉ triedSubreddits) subredditNames in
      if (length availableSubreddits =? 0)%nat then (None, [])
      else
        let randomSubreddit :=
          default "undefined" (availableSubreddits !! picks attempt) in
        let fetched := fetchSubredditImages randomSubreddit (requests attempt) in
        match fetched.1 with
        | inl (Some image) => (Some image, fetched.2)
        | _ =>
            let rest :=
              trySubreddits remaining' (S attempt) subredditNames
                (randomSubreddit :: triedSubreddits) picks requests in
            (rest.1, fetched.2 ++ rest.2)
        end
  end.

(** One call of [getRandomRedditImage]. *)
Definition getRandomRedditImageRun (config : RedditImageConfig)
    (picks : nat -> nat) (requests : nat -> nat -> Settled (option RedditImageData))
    : option RedditImageData * list Action :=
  if (length (subreddits config) =? 0)%nat then (None, [])
  else
    let maxSubredditAttempts := Nat.min 3 (length (subreddits config)) in
    trySubreddits maxSubredditAttempts 0 (subreddits config) [] picks requests.

(* ===================================================================== *)
(** ** Decoding of the URLs of the posts ([src/redditAPI.ts]) *)
(* ===================================================================== *)

(** [s.replace(/pattern/g, replacement)] for a pattern of plain characters:
    the occurrences are replaced from the left, and the search goes on
    behind each of them.  [skip] characters are still part of the
    occurrence just replaced. *)
Fixpoint replaceFrom (skip : nat) (pattern replacement s : string) : string :=
  match s with
  | EmptyString => EmptyString
  | String c rest =>
      match skip with
      | S skip' => replaceFrom skip' pattern replacement rest
      | O =>
          if String.prefix pattern (String c rest) then
            replacement +:+ replaceFrom (String.length pattern - 1) pattern replacement rest
          else String c (replaceFrom 0 pattern replacement rest)
      end
  end.

Definition replaceAll (pattern replacement s : string) : string :=
  replaceFrom 0 pattern replacement s.

Definition decodeHtmlEntities (encodedString : string) : string :=
  replaceAll "&#x2F;" "/"
    (replaceAll "&#x27;" "'"
       (replaceAll "&#039;" "'"
          (replaceAll "&quot;" (String (ascii_of_nat 34) "")
             (replaceAll "&gt;" ">"
                (replaceAll "&lt;" "<"
                   (replaceAll "&amp;" "&" encodedString)))))).

(* ===================================================================== *)
(** ** The Reddit settings of the configuration loader ([src/index.ts]) *)
(* ===================================================================== *)

(** The Reddit settings as [loadUserConfigs] and [loadBotConfigs]
    ([src/index.ts]) store them, from the list of subreddit names and the
    two numbers read with [parseInt]. *)
Definition loadRedditConfig (subredditNames : list string)
    (parsedMin parsedMax : Z) (redditNSFW : bool) : RedditImageConfig :=
  {| subreddits := subredditNames;
     minMessages := Z.max 1 parsedMin;
     maxMessages := Z.max parsedMin parsedMax;
     nsfw := redditNSFW |}.

(* ===================================================================== *)
(** ** Further notions used in the statements *)
(* ===================================================================== *)

(** Every stored chain counts between 1 and [MAX_BOT_CHAIN] replies. *)
Definition chainsBounded (chains : gmap string AccountConversationChain) : Prop :=
  forall channelId chainData,
    chains !! channelId = Some chainData ->
    1 <= chainCount chainData <= MAX_BOT_CHAIN.

(** The number of entries of a map once [key] is in it. *)
Definition sizeWith {V : Type} (key : string) (m : gmap string V) : nat :=
  match m !! key with
  | Some _ => size m
  | None => S (size m)
  end.

(** The product of the boosts that a text earns on the unified path. *)
Definition boostFactor (text : string) : Q :=
  ((if isQuestionText text then 1.8 else 1)
   * (if isLongText text then 1.3 else 1)
   * (if containsEmotionsText text then 1.4 else 1)
   * (if isExclamationText text && negb (isQuestionText text) then 1.2 else 1))%Q.


(** The decisions of [shouldAttachRedditImage] on [n] consecutive messages
    of a channel, without the force override. *)
Fixpoint attachDecisions (n : nat) (channelId : string)
    (accountConfig : AccountConfig) : M (list bool) :=
  match n with
  | O => ret []
  | S n' =>
      do attach <- shouldAttachRedditImage channelId accountConfig false;
      do rest <- attachDecisions n' channelId accountConfig;
      ret (attach :: rest)
  end.

(** A fetch that the loop of [getUnseenRandomRedditImage] does not return:
    it failed, or its image is in the list of the channel. *)
Definition rejectedFetch (o : Oracle) (recentlySentIds : list string) (n : nat) : Prop :=
  match reddit_at o n with
  | Some image => image_id image ∈ recentlySentIds
  | None => True
  end.

(** A computation that neither reads nor writes the direct-message counts:
    it runs the same whatever is done to them before. *)
Definition ignoresCounts {A : Type} (c : M A) : Prop :=
  forall f o s,
    c o (set_dmConversationCounts f s)
    = ((c o s).1, set_dmConversationCounts f (c o s).2).

(** A computation that leaves a part of the state, given by [part], as it
    found it. *)
Definition keeps {T A : Type} (part : State -> T) (c : M A) : Prop :=
  forall o s, part (c o s).2 = part s.

(** The tables of the media cadence and the interaction ledger. *)
Definition mediaAndLedger (s : State)
    : gmap string ChannelMessageTracker * gmap string (list string) * gmap string Z :=
  (channelMessageTrackers s, recentlySentRedditImagesByChannel s,
   lastInteractionTimes s).
(* ===================================================================== *)
(** ** Inputs used in the examples *)
(* ===================================================================== *)

Definition emptyState : State :=
  {| accountToAccountChains := ∅;
     dmConversationCounts := ∅;
     channelMessageTrackers := ∅;
     recentlySentRedditImagesByChannel := ∅;
     lastInteractionTimes := ∅;
     randomCalls := 0;
     clockCalls := 0;
     redditCalls := 0 |}.

(** Every [Math.random()] is [r], the clock starts at [start] and advances
    by one second per reading, and every Reddit fetch gives [image]. *)
Definition steadyOracle (r : Q) (start : Z) (image : option RedditImageData) : Oracle :=
  {| random_at := fun _ => r;
     now_at := fun n => start + 1000 * Z.of_nat n;
     reddit_at := fun _ => image |}.

Definition guildChannel : Channel :=
  {| channel_id := "general"; channel_kind := BaseGuildTextChannel;
     channel_permitted := true; channel_typing := true |}.

Definition directChannel : Channel :=
  {| channel_id := "dm-alice"; channel_kind := DMChannel;
     channel_permitted := true; channel_typing := true |}.

(** A message of the human user [alice] that mentions nobody. *)
Definition messageIn (c : Channel) (text : string) : Message :=
  {| author_id := "alice"; author_bot := false; channel := c;
     content := text; mentions := [] |}.

Definition accountOf (kind : AccountType) (name : string) (rate : option Z)
    (frequency : option MessageFrequency) (behavior : option MessageBehavior)
    : AccountConfig :=
  {| id := name; accountType := kind; interactionRate := rate;
     redditConfig := None; messageFrequency := frequency;
     messageBehavior := behavior |}.

Definition legacyAggressiveUser : AccountConfig :=
  accountOf user "user1" None (Some high) (Some aggressive).

Definition bareUser : AccountConfig := accountOf user "user1" None None None.
Definition bareBot : AccountConfig := accountOf bot "bot1" None None None.

Definition botUser : ClientUser := {| user_id := "1001"; username := "Kira" |}.

(** 119 characters, an emotion keyword, no question mark. *)
Definition longEmotionalText : string :=
  "wow, nobody in this channel was going to tell me that the new release finally shipped last night after all these months".

(** The channel "general" after three consecutive replies of "bot1". *)
Definition chainedState : State :=
  set_accountToAccountChains
    (fun _ => {[ "general" := {| chainCount := 3; lastAccountId := "bot1";
                                 lastActivity := 5000 |} ]})
    emptyState.

Definition catImage : RedditImageData :=
  {| image_id := "1abcde"; filename := "r-aww_1abcde.jpg";
     title := "A cat"; subreddit := "aww" |}.

(** A bot with an interaction rate of 50 that attaches an image from r/aww
    every third message. *)
Definition mediaBot : AccountConfig :=
  {| id := "bot1"; accountType := bot; interactionRate := Some 50;
     redditConfig := Some {| subreddits := ["aww"]; minMessages := 3;
                             maxMessages := 3; nsfw := false |};
     messageFrequency := None; messageBehavior := None |}.

(** The largest value of [Math.random()] that is a multiple of [2^-52]. *)
Definition topDraw : Q := 4503599627370495 # 4503599627370496.

(** Reddit cannot be reached: every request is rejected. *)
Definition unreachableReddit : nat -> nat -> Settled (option RedditImageData) :=
  fun _ _ =>
    Rejected {| error_message := "Request failed with status code 503";
                isNotFound := false |}.

(** The image [catImage] was sent on "general" before. *)
Definition seenState : State :=
  set_recentlySentRedditImagesByChannel
    (fun _ => {[ "general" := ["1abcde"] ]}) emptyState.

(** "bot1" last answered "alice" on "general" at time 1000000. *)
Definition answeredState : State :=
  set_lastInteractionTimes (fun _ => {[ "general:alice:bot1" := 1000000 ]})
    emptyState.

(** The channel id of three decimal digits for a number below 1000. *)
Definition channelNumber (n : nat) : string :=
  String (ascii_of_nat (48 + n / 100))
    (String (ascii_of_nat (48 + n / 10 mod 10))
       (String (ascii_of_nat (48 + n mod 10)) EmptyString)).

(** A thousand channels "000" to "999" have a tracker.  Only "000" ever
    got an image, at time 1; the image lists of "000" and "001" hold an
    id. *)
Definition crowdedState : State :=
  set_recentlySentRedditImagesByChannel
    (fun _ => {[ "000" := ["1abcde"]; "001" := ["1fghij"] ]})
    (set_channelMessageTrackers
       (fun _ =>
          list_to_map
            (map (fun n =>
                    (channelNumber n,
                     {| messageCount := 1; targetMessageCount := 5;
                        lastImageTime := if (n =? 0)%nat then 1 else 0 |}))
               (seq 0 1000)))
       emptyState).

(* ===================================================================== *)
(** ** Properties of the rounding to doubles *)
(* ===================================================================== *)

Lemma roundHalfEven_floor (x : Q) :
  roundHalfEven x = Qfloor x
  \/ (roundHalfEven x = Qfloor x + 1 /\ (inject_Z (Qfloor x) < x)%Q).
Proof.
  unfold roundHalfEven.
  destruct (Qcompare_spec (x - inject_Z (Qfloor x)) (1 # 2)) as [Heq | Hlt | Hgt].
  - destruct (Z.even (Qfloor x)); [now left |]. right. split; [reflexivity |].
    assert (H : (x == inject_Z (Qfloor x) + (1 # 2))%Q) by (rewrite <- Heq; ring).
    rewrite H at 2. rewrite <- (Qplus_0_r (inject_Z (Qfloor x))) at 1.
    apply Qplus_lt_r. reflexivity.
  - now left.
  - right. split; [reflexivity |].
    assert (H : (0 < x - inject_Z (Qfloor x))%Q)
      by (eapply Qlt_trans; [| exact Hgt]; reflexivity).
    lra.
Qed.

(** Rounding to an integer does not cross an integer. *)
Lemma roundHalfEven_barrier (x : Q) (k : Z) :
  ((x <= inject_Z k)%Q -> roundHalfEven x <= k)
  /\ ((inject_Z k <= x)%Q -> k <= roundHalfEven x).
Proof.
  split; intros Hk.
  - destruct (roundHalfEven_floor x) as [-> | [-> Hlt]].
    + rewrite <- (Qfloor_Z k). now apply Qfloor_resp_le.
    + assert (H : (inject_Z (Qfloor x) < inject_Z k)%Q)
        by (eapply Qlt_le_trans; eauto).
      rewrite <- Zlt_Qlt in H. lia.
  - assert (H : k <= Qfloor x)
      by (rewrite <- (Qfloor_Z k); now apply Qfloor_resp_le).
    destruct (roundHalfEven_floor x) as [-> | [-> _]]; lia.
Qed.

Lemma doubleExponent_small (x : Q) :
  (0 <= x)%Q -> (x <= inject_Z (2 ^ 52))%Q -> doubleExponent x <= 0.
Proof.
  intros H0 Hx. unfold doubleExponent.
  assert (Hfloor : Qfloor (x * inject_Z (2 ^ 1074)) <= 2 ^ 1126).
  { rewrite <- (Qfloor_Z (2 ^ 1126)). apply Qfloor_resp_le.
    replace (2 ^ 1126) with (2 ^ 52 * 2 ^ 1074) by (rewrite <- Z.pow_add_r; reflexivity || lia).
    rewrite inject_Z_mult. apply Qmult_le_compat_r; [exact Hx |].
    change 0%Q with (inject_Z 0). rewrite <- Zle_Qle. apply Z.pow_nonneg. lia. }
  assert (Hlog : Z.log2 (Qfloor (x * inject_Z (2 ^ 1074))) <= 1126).
  { rewrite <- (Z.log2_pow2 1126) by lia. now apply Z.log2_le_mono. }
  lia.
Qed.

Lemma roundPositive_barrier (x : Q) (z : Z) :
  (0 <= x)%Q -> (x <= inject_Z (2 ^ 52))%Q ->
  ((x <= inject_Z z)%Q -> (roundPositive x <= inject_Z z)%Q)
  /\ ((inject_Z z <= x)%Q -> (inject_Z z <= roundPositive x)%Q).
Proof.
  intros H0 Hx. unfold roundPositive.
  pose proof (doubleExponent_small x H0 Hx) as He.
  set (e := doubleExponent x) in *.
  replace (Z.max 0 e) with 0 by lia. replace (Z.max 0 (- e)) with (- e) by lia.
  change (2 ^ 0) with 1.
  set (N := 2 ^ (- e)).
  assert (HN : 0 < N) by (apply Z.pow_pos_nonneg; lia).
  assert (HNq : (0 < inject_Z N)%Q)
    by (change 0%Q with (inject_Z 0); now rewrite <- Zlt_Qlt).
  set (m := roundHalfEven (x * inject_Z N / inject_Z 1)).
  destruct (roundHalfEven_barrier (x * inject_Z N / inject_Z 1) (z * N))
    as [Hup Hdown]. fold m in Hup, Hdown.
  assert (Hscaled : (x * inject_Z N / inject_Z 1 == x * inject_Z N)%Q)
    by (change (inject_Z 1) with 1%Q; field).
  split; intros Hz.
  - assert (Hm : m <= z * N).
    { apply Hup. rewrite Hscaled, inject_Z_mult.
      apply Qmult_le_compat_r; [exact Hz | now apply Qlt_le_weak]. }
    apply Qle_shift_div_r; [exact HNq |].
    rewrite <- !inject_Z_mult, <- Zle_Qle. lia.
  - assert (Hm : z * N <= m).
    { apply Hdown. rewrite Hscaled, inject_Z_mult.
      apply Qmult_le_compat_r; [exact Hz | now apply Qlt_le_weak]. }
    apply Qle_shift_div_l; [exact HNq |].
    rewrite <- !inject_Z_mult, <- Zle_Qle. lia.
Qed.

(** Rounding to a double does not cross an integer, for numbers of
    magnitude up to [2^52]. *)
Lemma toDouble_barrier (x : Q) (z : Z) :
  (- inject_Z (2 ^ 52) <= x)%Q -> (x <= inject_Z (2 ^ 52))%Q ->
  ((x <= inject_Z z)%Q -> (toDouble x <= inject_Z z)%Q)
  /\ ((inject_Z z <= x)%Q -> (inject_Z z <= toDouble x)%Q).
Proof.
  intros Hlo Hhi. unfold toDouble.
  destruct (Qle_bool 0 x) eqn:Hsign.
  - apply Qle_bool_iff in Hsign. now apply roundPositive_barrier.
  - assert (Hneg : (0 <= - x)%Q).
    { destruct (Qlt_le_dec x 0) as [H | H]; [lra |].
      apply Qle_bool_iff in H. congruence. }
    assert (Hbound : (- x <= inject_Z (2 ^ 52))%Q) by lra.
    destruct (roundPositive_barrier (- x) (- z) Hneg Hbound) as [Hup Hdown].
    rewrite inject_Z_opp in Hup, Hdown.
    split; intros Hz.
    + assert (H : (- inject_Z z <= roundPositive (- x))%Q) by (apply Hdown; lra).
      lra.
    + assert (H : (roundPositive (- x) <= - inject_Z z)%Q) by (apply Hup; lra).
      lra.
Qed.

(* ===================================================================== *)
(** ** Properties of the probability model *)
(* ===================================================================== *)

Lemma Qltb_lt (a b : Q) : Qltb a b = true <-> (a < b)%Q.
Proof.
  unfold Qltb. rewrite negb_true_iff, <- not_true_iff_false, Qle_bool_iff.
  split; [apply Qnot_le_lt | apply Qlt_not_le].
Qed.

(** Closed comparisons of fractional numbers, by evaluation. *)
Ltac Qeval :=
  lazymatch goal with
  | |- (_ <= _)%Q => apply Qle_bool_iff; vm_compute; reflexivity
  | |- (_ < _)%Q => apply Qltb_lt; vm_compute; reflexivity
  | |- (_ == _)%Q => apply Qeq_bool_iff; vm_compute; reflexivity
  end.

(** Unfolds the rational operations down to integer arithmetic. *)
Ltac Qarith_to_Z :=
  unfold Qle, Qlt, Qeq, Qdiv, Qmult, Qplus, Qminus, Qopp, Qinv, inject_Z in *;
  simpl in *.

Open Scope Q_scope.

Lemma interactionRateBaseChance_mono (L1 L2 : Z) :
  (L1 <= L2)%Z -> interactionRateBaseChance L1 <= interactionRateBaseChance L2.
Proof.
  intros H. unfold interactionRateBaseChance.
  repeat match goal with
         | |- context [(?a <=? ?b)%Z] => destruct (Z.leb_spec a b)
         end;
    Qarith_to_Z; lia.
Qed.

Lemma interactionRateBaseChance_le_70 (L : Z) :
  (L <= 100)%Z -> interactionRateBaseChance L <= 0.7.
Proof.
  intros H. apply Qle_trans with (interactionRateBaseChance 100).
  - now apply interactionRateBaseChance_mono.
  - Qeval.
Qed.

(** On the unified path the probability compared with the random draw is at
    most 0.8, whatever the interaction rate and the text. *)
Lemma accountResponseChance_le_cap (rate : Z) (text : string) :
  accountResponseChance rate text <= 0.8.
Proof. unfold accountResponseChance. apply Q.le_min_r. Qed.

(** A text without any boost leaves the base chance as it is. *)
Lemma accountResponseChance_plain (rate : Z) (text : string) :
  (rate <= 100)%Z ->
  isQuestionText text = false -> isExclamationText text = false ->
  isLongText text = false -> containsEmotionsText text = false ->
  accountResponseChance rate text == interactionRateBaseChance rate.
Proof.
  intros Hr Hq He Hl Hm. unfold accountResponseChance.
  rewrite Hq, He, Hl, Hm. simpl. apply Q.min_l.
  apply Qle_trans with 0.7; [now apply interactionRateBaseChance_le_70 | Qeval].
Qed.

(** The tiers of the legacy path never reach its cap of 0.5: the [Math.min]
    of [shouldLegacyUserAccountRespond] has no effect where it stands. *)
Lemma legacyTierChance_below_cap (userConfig : AccountConfig) :
  legacyTierChance userConfig <= 0.45
  /\ Qmin (legacyTierChance userConfig) 0.5 == legacyTierChance userConfig.
Proof.
  assert (H : legacyTierChance userConfig <= 0.45).
  { unfold legacyTierChance.
    destruct (messageFrequency userConfig) as [[]|],
             (messageBehavior userConfig) as [[]|]; Qeval. }
  split; [exact H |].
  apply Q.min_l. apply Qle_trans with 0.45; [exact H | Qeval].
Qed.

(** What the legacy path does guarantee: 0.45 x 1.2 x 1.3. *)
Lemma legacyResponseChance_le (userConfig : AccountConfig) (text : string) :
  legacyResponseChance userConfig text <= 0.702.
Proof.
  unfold legacyResponseChance, legacyTierChance.
  destruct (messageFrequency userConfig) as [[]|],
           (messageBehavior userConfig) as [[]|],
           (isLongText text), (containsLegacyEmotionsText text); Qeval.
Qed.

(** C1 (the legacy half, evaluated on the program).  For the user account
    with frequency [high] and behavior [aggressive], no interaction rate,
    and an unaddressed text of 119 characters with an emotion keyword, the
    probability that [shouldLegacyUserAccountRespond] compares with the
    random draw is 0.702, above the cap of 0.5 that the function applies
    before the boosts; with the draw 0.6 the account responds.  (The bound
    of 0.8 on the unified path holds: [accountResponseChance_le_cap].) *)
Theorem legacy_chance_exceeds_cap :
  legacyResponseChance legacyAggressiveUser longEmotionalText == 0.702
  /\ 0.5 < legacyResponseChance legacyAggressiveUser longEmotionalText
  /\ Qltb 0.6 0.5 = false
  /\ forall s : State,
       (shouldAccountRespond (messageIn guildChannel longEmotionalText)
          legacyAggressiveUser false false (steadyOracle 0.6 0 None) s).1 = true.
Proof.
  split; [Qeval |]. split; [Qeval |]. split; [reflexivity |].
  intros s. reflexivity.
Qed.

(** The loader only produces interaction rates from 1 to 100. *)
Lemma clampInteractionRate_range (rate : Z) :
  (1 <= clampInteractionRate rate <= 100)%Z.
Proof. unfold clampInteractionRate. lia. Qed.

(** With an interaction rate, an unaddressed message is answered exactly
    when the next random draw is below [accountResponseChance]. *)
Lemma shouldAccountRespond_unified (message : Message) (accountConfig : AccountConfig)
    (rate : Z) (o : Oracle) (s : State) :
  interactionRate accountConfig = Some rate ->
  (shouldAccountRespond message accountConfig false false o s).1
  = Qltb (random_at o (randomCalls s)) (accountResponseChance rate (content message)).
Proof.
  intros Hrate. unfold shouldAccountRespond. rewrite Hrate. simpl.
  destruct (accountType accountConfig); reflexivity.
Qed.



(** Without an interaction rate a bot account never answers an unaddressed
    message, and draws no random number for it. *)
Lemma bot_without_rate_is_silent (message : Message) (accountConfig : AccountConfig)
    (o : Oracle) (s : State) :
  accountType accountConfig = bot -> interactionRate accountConfig = None ->
  shouldAccountRespond message accountConfig false false o s = (false, s).
Proof.
  intros Hkind Hrate. unfold shouldAccountRespond. now rewrite Hkind, Hrate.
Qed.

(** C6 as stated fails for user accounts: the user account with no
    interaction rate and no legacy field answers the unaddressed message
    "hello" when the random draw is 0. *)
Lemma bare_user_may_respond :
  ~ (forall (accountConfig : AccountConfig) (message : Message) o s,
        interactionRate accountConfig = None ->
        messageFrequency accountConfig = None ->
        messageBehavior accountConfig = None ->
        (shouldAccountRespond message accountConfig false false o s).1 = false).
Proof.
  intros H.
  specialize (H bareUser (messageIn guildChannel "hello")
                (steadyOracle 0 0 None) emptyState eq_refl eq_refl eq_refl).
  vm_compute in H. discriminate H.
Qed.

(** C6, amended.  For an unaddressed message and an account with no
    interaction rate and no legacy field: a bot account never responds; a
    user account takes the legacy path with its defaults, so that it
    responds when the draw is below 0.1 x (1.2 if the text is long) x (1.3
    if it has an emotion keyword), after a first draw against 0.4 when the
    text has a question mark. *)
Theorem unconfigured_account_response (accountConfig : AccountConfig)
    (message : Message) (o : Oracle) (s : State) :
  interactionRate accountConfig = None ->
  messageFrequency accountConfig = None ->
  messageBehavior accountConfig = None ->
  let text := content message in
  let draw n := random_at o (randomCalls s + n) in
  let chance := 0.1 * (if isLongText text then 1.2 else 1)
                    * (if containsLegacyEmotionsText text then 1.3 else 1) in
  match accountType accountConfig with
  | bot => shouldAccountRespond message accountConfig false false o s = (false, s)
  | user =>
      legacyResponseChance accountConfig text == chance
      /\ 0.1 <= legacyResponseChance accountConfig text
      /\ (shouldAccountRespond message accountConfig false false o s).1
         = if isQuestionText text
           then Qltb (draw 0%nat) 0.4
                || Qltb (draw 1%nat) (legacyResponseChance accountConfig text)
           else Qltb (draw 0%nat) (legacyResponseChance accountConfig text)
  end.
Proof.
  intros Hrate Hfreq Hbeh text draw chance.
  destruct (accountType accountConfig) eqn:Hkind.
  - now apply bot_without_rate_is_silent.
  - assert (Hchance : legacyResponseChance accountConfig text == chance).
    { unfold legacyResponseChance, legacyTierChance, chance.
      rewrite Hfreq, Hbeh.
      destruct (isLongText text), (containsLegacyEmotionsText text); Qeval. }
    split; [exact Hchance |]. split.
    { rewrite Hchance. unfold chance.
      destruct (isLongText text), (containsLegacyEmotionsText text); Qeval. }
    unfold shouldAccountRespond, shouldLegacyUserAccountRespond.
    rewrite Hkind, Hrate. simpl. fold text.
    unfold questionResponseChance. rewrite Hbeh.
    unfold draw. rewrite Nat.add_0_r.
    destruct (isQuestionText text); simpl; [| reflexivity].
    unfold bind, Math_random, ret; simpl.
    destruct (Qltb (random_at o (randomCalls s)) 0.4) eqn:Hfirst; simpl.
    + reflexivity.
    + now rewrite Nat.add_1_r.
Qed.

Lemma unconfigured_account_response_witness :
  (shouldAccountRespond (messageIn guildChannel "hello") bareBot false false
     (steadyOracle 0 0 None) emptyState).1 = false
  /\ (shouldAccountRespond (messageIn guildChannel "hello") bareUser false false
        (steadyOracle 0 0 None) emptyState).1 = true.
Proof.
  split.
  - now rewrite (unconfigured_account_response bareBot (messageIn guildChannel "hello")
                   (steadyOracle 0 0 None) emptyState eq_refl eq_refl eq_refl).
  - destruct (unconfigured_account_response bareUser (messageIn guildChannel "hello")
                (steadyOracle 0 0 None) emptyState eq_refl eq_refl eq_refl)
      as (_ & _ & ->).
    reflexivity.
Defined.

Close Scope Q_scope.

(* ===================================================================== *)
(** ** Properties of the chain guard *)
(* ===================================================================== *)

Ltac allowed_case Hkeep :=
  destruct (1000 <? _)%nat; simpl;
  (split; [reflexivity |]); (split; [reflexivity |]);
  [apply Hkeep | apply lookup_insert_eq].

(** One call of the guard on a guild channel: it reads the clock once; a
    blocked reply changes nothing else, an allowed reply stores the entry
    of the replying account, which survives the sweep. *)
Lemma shouldAllowAccountResponse_spec (channelId ourAccountId : string)
    (o : Oracle) (s : State) :
  channelId <> "" ->
  let now := now_at o (clockCalls s) in
  let result := shouldAllowAccountResponse channelId ourAccountId o s in
  clockCalls result.2 = S (clockCalls s)
  /\ match chainVerdict (accountToAccountChains s !! channelId) now ourAccountId with
     | None => result = (false, (Date_now o s).2)
     | Some n =>
         result.1 = true
         /\ accountToAccountChains result.2 !! channelId
            = Some {| chainCount := n; lastAccountId := ourAccountId;
                      lastActivity := now |}
     end.
Proof.
  intros Hch now result. subst result.
  unfold shouldAllowAccountResponse, chainVerdict.
  destruct (String.eqb_spec channelId ""); [congruence |].
  unfold bind, gets, Date_now, ret, assignChainData, modify. fold now.
  assert (Hkeep : forall (m : gmap string AccountConversationChain) n,
            filter (fun kv => ¬ lastActivity kv.2
                                < now - BOT_CHAIN_INACTIVITY_RESET_MS * 2)
              (<[channelId := {| chainCount := n; lastAccountId := ourAccountId;
                                 lastActivity := now |}]> m)
            !! channelId
            = Some {| chainCount := n; lastAccountId := ourAccountId;
                      lastActivity := now |}).
  { intros m k. apply map_lookup_filter_Some. split.
    - apply lookup_insert_eq.
    - simpl. unfold BOT_CHAIN_INACTIVITY_RESET_MS. lia. }
  destruct (accountToAccountChains s !! channelId) as [e|] eqn:Hentry; simpl.
  - destruct (BOT_CHAIN_INACTIVITY_RESET_MS <? now - lastActivity e) eqn:Hexp;
      simpl; [allowed_case Hkeep |].
    destruct (negb (lastAccountId e =? "")%string
              && (lastAccountId e =? ourAccountId)%string) eqn:Hsame;
      simpl; [| allowed_case Hkeep].
    destruct (MAX_BOT_CHAIN <=? chainCount e) eqn:Hmax; simpl;
      [auto | allowed_case Hkeep].
  - destruct (BOT_CHAIN_INACTIVITY_RESET_MS <? now - 0) eqn:Hexp; simpl;
      allowed_case Hkeep.
Qed.

(** C10.  When [shouldAllowAccountResponse] returns false, the whole state
    is as before except that one clock reading was consumed: the chain map
    (count, last account and last activity of every channel) is unchanged,
    so no sweep took place, and the entry of the channel names the calling
    account with a count at the limit. *)
Theorem blocked_reply_leaves_chains_unchanged (channelId ourAccountId : string)
    (o : Oracle) (s s' : State) :
  shouldAllowAccountResponse channelId ourAccountId o s = (false, s') ->
  s' = (Date_now o s).2
  /\ accountToAccountChains s' = accountToAccountChains s
  /\ exists chainData,
       accountToAccountChains s !! channelId = Some chainData
       /\ lastAccountId chainData = ourAccountId
       /\ MAX_BOT_CHAIN <= chainCount chainData.
Proof.
  intros Hrun.
  destruct (String.eqb_spec channelId "") as [-> | Hch].
  { unfold shouldAllowAccountResponse in Hrun. simpl in Hrun. discriminate Hrun. }
  destruct (shouldAllowAccountResponse_spec channelId ourAccountId o s Hch)
    as [_ Hspec].
  rewrite Hrun in Hspec.
  destruct (chainVerdict _ _ _) eqn:Hverdict.
  { destruct Hspec as [Habs _]. discriminate Habs. }
  injection Hspec as ->. split; [reflexivity |]. split; [reflexivity |].
  unfold chainVerdict in Hverdict.
  destruct (accountToAccountChains s !! channelId) as [e|]; simpl in Hverdict.
  - exists e. split; [reflexivity |].
    destruct (BOT_CHAIN_INACTIVITY_RESET_MS <? _); simpl in Hverdict;
      [discriminate Hverdict |].
    destruct (negb _ && _) eqn:Hsame; [| discriminate Hverdict].
    destruct (MAX_BOT_CHAIN <=? chainCount e) eqn:Hmax; [| discriminate Hverdict].
    apply andb_true_iff in Hsame as [_ Hsame].
    apply String.eqb_eq in Hsame. apply Z.leb_le in Hmax. auto.
  - destruct (BOT_CHAIN_INACTIVITY_RESET_MS <? _); simpl in Hverdict;
      discriminate Hverdict.
Qed.

Lemma blocked_reply_leaves_chains_unchanged_witness :
  accountToAccountChains
    (shouldAllowAccountResponse "general" "bot1" (steadyOracle 0 6000 None)
       chainedState).2
  = accountToAccountChains chainedState.
Proof.
  assert (H : shouldAllowAccountResponse "general" "bot1" (steadyOracle 0 6000 None)
                chainedState
              = (false,
                 (shouldAllowAccountResponse "general" "bot1"
                    (steadyOracle 0 6000 None) chainedState).2))
    by (vm_compute; reflexivity).
  exact (proj1 (proj2 (blocked_reply_leaves_chains_unchanged _ _ _ _ _ H))).
Defined.

(** The verdict for the account that spoke last, within the inactivity
    window. *)
Lemma chainVerdict_same (n last now : Z) (accountId : string) :
  accountId <> "" -> now - last <= BOT_CHAIN_INACTIVITY_RESET_MS ->
  chainVerdict (Some {| chainCount := n; lastAccountId := accountId;
                        lastActivity := last |}) now accountId
  = if MAX_BOT_CHAIN <=? n then None else Some (n + 1).
Proof.
  intros Hne Hgap. unfold chainVerdict. simpl.
  destruct (Z.ltb_spec BOT_CHAIN_INACTIVITY_RESET_MS (now - last)); [lia |].
  rewrite String.eqb_refl.
  destruct (String.eqb_spec accountId ""); [congruence | reflexivity].
Qed.

(** The verdict for another account than the one that spoke last. *)
Lemma chainVerdict_other (n last now : Z) (lastId accountId : string) :
  lastId <> accountId ->
  chainVerdict (Some {| chainCount := n; lastAccountId := lastId;
                        lastActivity := last |}) now accountId
  = Some 1.
Proof.
  intros Hne. unfold chainVerdict. simpl.
  destruct (BOT_CHAIN_INACTIVITY_RESET_MS <? now - last); simpl; [reflexivity |].
  destruct (String.eqb_spec lastId accountId); [congruence |].
  now rewrite andb_false_r.
Qed.

(** The verdict on a channel without entry, or whose entry is older than
    the inactivity window. *)
Lemma chainVerdict_fresh (entry : option AccountConversationChain) (now : Z)
    (accountId : string) :
  match entry with
  | None => True
  | Some chainData => BOT_CHAIN_INACTIVITY_RESET_MS < now - lastActivity chainData
  end ->
  chainVerdict entry now accountId = Some 1.
Proof.
  intros Hfresh. unfold chainVerdict.
  destruct entry as [e|]; simpl.
  - destruct (Z.ltb_spec BOT_CHAIN_INACTIVITY_RESET_MS (now - lastActivity e));
      [reflexivity | lia].
  - destruct (BOT_CHAIN_INACTIVITY_RESET_MS <? now - 0); reflexivity.
Qed.

(** C3.  On a guild channel whose chain entry is absent or older than the
    inactivity window, three consecutive candidate replies of account [A]
    with gaps of at most ten minutes are allowed, the fourth is blocked, and
    a candidate reply of another account [B] is then allowed and stores the
    count 1. *)
Theorem fourth_consecutive_reply_blocked (channelId A B : string)
    (o : Oracle) (s0 : State) :
  channelId <> "" -> A <> "" -> A <> B ->
  let t n := now_at o (n + clockCalls s0) in
  match accountToAccountChains s0 !! channelId with
  | None => True
  | Some chainData =>
      BOT_CHAIN_INACTIVITY_RESET_MS < t 0%nat - lastActivity chainData
  end ->
  t 1%nat - t 0%nat <= BOT_CHAIN_INACTIVITY_RESET_MS ->
  t 2%nat - t 1%nat <= BOT_CHAIN_INACTIVITY_RESET_MS ->
  t 3%nat - t 2%nat <= BOT_CHAIN_INACTIVITY_RESET_MS ->
  let r1 := shouldAllowAccountResponse channelId A o s0 in
  let r2 := shouldAllowAccountResponse channelId A o r1.2 in
  let r3 := shouldAllowAccountResponse channelId A o r2.2 in
  let r4 := shouldAllowAccountResponse channelId A o r3.2 in
  let r5 := shouldAllowAccountResponse channelId B o r4.2 in
  r1.1 = true /\ r2.1 = true /\ r3.1 = true
  /\ accountToAccountChains r3.2 !! channelId
     = Some {| chainCount := 3; lastAccountId := A; lastActivity := t 2%nat |}
  /\ r4.1 = false
  /\ accountToAccountChains r4.2 = accountToAccountChains r3.2
  /\ r5.1 = true
  /\ accountToAccountChains r5.2 !! channelId
     = Some {| chainCount := 1; lastAccountId := B; lastActivity := t 4%nat |}.
Proof.
  intros Hch HA HAB t Hfresh H01 H12 H23 r1 r2 r3 r4 r5.
  unfold t in *. simpl in Hfresh, H01, H12, H23 |- *.
  destruct (shouldAllowAccountResponse_spec channelId A o s0 Hch) as [Hc1 H1].
  fold r1 in Hc1, H1. rewrite chainVerdict_fresh in H1 by exact Hfresh.
  destruct H1 as [Hr1 He1].
  destruct (shouldAllowAccountResponse_spec channelId A o r1.2 Hch) as [Hc2 H2].
  fold r2 in Hc2, H2. rewrite He1, Hc1 in H2.
  rewrite chainVerdict_same in H2 by assumption.
  simpl in H2. destruct H2 as [Hr2 He2].
  destruct (shouldAllowAccountResponse_spec channelId A o r2.2 Hch) as [Hc3 H3].
  fold r3 in Hc3, H3. rewrite He2, Hc2, Hc1 in H3.
  rewrite chainVerdict_same in H3 by assumption.
  simpl in H3. destruct H3 as [Hr3 He3].
  destruct (shouldAllowAccountResponse_spec channelId A o r3.2 Hch) as [Hc4 H4].
  fold r4 in Hc4, H4. rewrite He3, Hc3, Hc2, Hc1 in H4.
  rewrite chainVerdict_same in H4 by assumption.
  simpl in H4.
  assert (He4 : accountToAccountChains r4.2 = accountToAccountChains r3.2)
    by (now rewrite H4).
  destruct (shouldAllowAccountResponse_spec channelId B o r4.2 Hch) as [Hc5 H5].
  fold r5 in Hc5, H5.
  rewrite He4, He3, Hc4, Hc3, Hc2, Hc1 in H5.
  rewrite chainVerdict_other in H5 by assumption.
  destruct H5 as [Hr5 He5].
  repeat split; try assumption.
  now rewrite H4.
Qed.

Lemma fourth_consecutive_reply_blocked_witness :
  let o := steadyOracle 0 1700000000000 None in
  let r1 := shouldAllowAccountResponse "general" "bot1" o emptyState in
  let r2 := shouldAllowAccountResponse "general" "bot1" o r1.2 in
  let r3 := shouldAllowAccountResponse "general" "bot1" o r2.2 in
  let r4 := shouldAllowAccountResponse "general" "bot1" o r3.2 in
  let r5 := shouldAllowAccountResponse "general" "user1" o r4.2 in
  r3.1 = true /\ r4.1 = false /\ r5.1 = true.
Proof.
  intros o r1 r2 r3 r4 r5.
  assert (Hch : "general" <> "") by discriminate.
  assert (HA : "bot1" <> "") by discriminate.
  assert (HAB : "bot1" <> "user1") by discriminate.
  destruct (fourth_consecutive_reply_blocked "general" "bot1" "user1" o emptyState
              Hch HA HAB I) as (_ & _ & H3 & _ & H4 & _ & H5 & _).
  - now vm_compute.
  - now vm_compute.
  - now vm_compute.
  - auto.
Defined.

(* ===================================================================== *)
(** ** Properties of the timing model *)
(* ===================================================================== *)

Lemma delayRange_nonneg_input (timeSinceLastMs : Z) (isDM isUrgent : bool) :
  delayRange timeSinceLastMs isDM isUrgent
  = delayRange (Z.max 0 timeSinceLastMs) isDM isUrgent.
Proof.
  unfold delayRange. now rewrite Z.max_assoc, Z.max_id.
Qed.

(** C5.  Whatever the elapsed time (a negative one counts as 0), the flags
    and the random draw, the delay of [calculateRealisticDelay] is at least
    2000 ms and at most the hard ceiling, provided the ceiling in force
    (15 minutes, or the development ceiling) is not below 2000 ms. *)
Theorem delay_within_hard_limits (timeSinceLastMs : Z) (isDM isUrgent : bool)
    (o : Oracle) (s : State) :
  MIN_RESPONSE_DELAY_MS <= hardMaxDelay ->
  let delay := (calculateRealisticDelay timeSinceLastMs isDM isUrgent o s).1 in
  MIN_RESPONSE_DELAY_MS <= delay /\ delay <= hardMaxDelay
  /\ calculateRealisticDelay timeSinceLastMs isDM isUrgent o s
     = calculateRealisticDelay (Z.max 0 timeSinceLastMs) isDM isUrgent o s.
Proof.
  intros Hceiling delay. subst delay.
  unfold calculateRealisticDelay.
  rewrite <- delayRange_nonneg_input.
  destruct (delayRange timeSinceLastMs isDM isUrgent) as [minDelay maxDelay].
  unfold bind, Math_random, ret. simpl.
  repeat split; lia.
Qed.

(** The ceiling holds without any assumption. *)
Lemma delay_le_hard_ceiling (timeSinceLastMs : Z) (isDM isUrgent : bool)
    (o : Oracle) (s : State) :
  (calculateRealisticDelay timeSinceLastMs isDM isUrgent o s).1 <= hardMaxDelay.
Proof.
  unfold calculateRealisticDelay.
  destruct (delayRange timeSinceLastMs isDM isUrgent) as [minDelay maxDelay].
  unfold bind, Math_random, ret. simpl. lia.
Qed.

(** The typing offset lies between 20% and 60% of the delay. *)
Lemma calculateTypingDelay_bounds (totalDelayMs : Z) (o : Oracle) (s : State) :
  unitDraws o -> 0 <= totalDelayMs ->
  let typing := (calculateTypingDelay totalDelayMs o s).1 in
  totalDelayMs <= 5 * typing + 4 /\ 5 * typing <= 3 * totalDelayMs.
Proof.
  intros Hdraws Htotal typing. subst typing.
  cbv beta iota zeta delta [calculateTypingDelay bind Math_random ret fst].
  destruct (Hdraws (randomCalls s)) as [H0 H1].
  set (r := random_at o (randomCalls s)) in *.
  unfold Math_floor, TYPING_INDICATOR_MIN_PERCENTAGE, TYPING_INDICATOR_MAX_PERCENTAGE.
  set (T := inject_Z totalDelayMs).
  set (x := (T * (0.2 + r * (0.6 - 0.2)))%Q).
  assert (Ht : (0 <= T)%Q)
    by (unfold T; change 0%Q with (inject_Z 0); now rewrite <- Zle_Qle).
  assert (Hlo : (T * 0.2 <= x)%Q) by (unfold x; nra).
  assert (Hhi : (x <= T * 0.6)%Q) by (unfold x; nra).
  pose proof (Qfloor_le x) as Hfl.
  pose proof (Qlt_floor x) as Hfu.
  set (f := Qfloor x) in *.
  assert (Hl : (T * 0.2 < inject_Z (f + 1))%Q) by (eapply Qle_lt_trans; eauto).
  assert (Hu : (inject_Z f <= T * 0.6)%Q) by (eapply Qle_trans; eauto).
  clearbody f. clear - Hl Hu. subst T.
  Qarith_to_Z. lia.
Qed.

(** The bypass: a typing offset drawn for 10000 ms, the typing call, and
    the rest of the 10000 ms unless that call rejects. *)
Lemma waitBeforeReply_emergency (responseDelayMs typingDelayMs : Z)
    (canType typingResolves : bool) (o : Oracle) (s : State) :
  unitDraws o -> 30000 < responseDelayMs ->
  let safeTypingDelayMs := (calculateTypingDelay 10000 o s).1 in
  let actions :=
    (waitBeforeReply responseDelayMs typingDelayMs canType typingResolves o s).1 in
  2000 <= safeTypingDelayMs <= 6000
  /\ actions
     = (if canType && negb typingResolves then
          [Sleep safeTypingDelayMs; SendTyping; TypingFailed]
        else
          Sleep safeTypingDelayMs
            :: (if canType then [SendTyping] else [])
            ++ [Sleep (10000 - safeTypingDelayMs)])
  /\ totalWait actions
     = (if canType && negb typingResolves then safeTypingDelayMs else 10000).
Proof.
  intros Hdraws Hlong st actions.
  pose proof (calculateTypingDelay_bounds 10000 o s Hdraws ltac:(lia)) as Hst.
  fold st in Hst. simpl in Hst.
  split; [lia |].
  assert (Hactions :
            actions
            = (if canType && negb typingResolves then
                 [Sleep st; SendTyping; TypingFailed]
               else
                 Sleep st :: (if canType then [SendTyping] else [])
                   ++ [Sleep (10000 - st)])).
  { subst actions st. unfold waitBeforeReply.
    destruct (Z.ltb_spec 30000 responseDelayMs); [| lia].
    unfold bind, ret.
    destruct (calculateTypingDelay 10000 o s) as [d s1].
    destruct (canType && negb typingResolves); reflexivity. }
  split; [exact Hactions |].
  rewrite Hactions. destruct canType, typingResolves; simpl; lia.
Qed.

Lemma waitBeforeReply_normal (responseDelayMs typingDelayMs : Z)
    (canType typingResolves : bool) (o : Oracle) (s : State) :
  responseDelayMs <= 30000 ->
  waitBeforeReply responseDelayMs typingDelayMs canType typingResolves o s
  = ([ScheduleTyping typingDelayMs; Sleep responseDelayMs], s).
Proof.
  intros Hshort. unfold waitBeforeReply.
  destruct (Z.ltb_spec 30000 responseDelayMs); [lia | reflexivity].
Qed.

Lemma waitBeforeReply_total (responseDelayMs typingDelayMs : Z)
    (canType typingResolves : bool) (o : Oracle) (s : State) :
  unitDraws o ->
  0 <= totalWait
         (waitBeforeReply responseDelayMs typingDelayMs canType typingResolves o s).1
    <= 30000.
Proof.
  intros Hdraws.
  destruct (Z.lt_ge_cases 30000 responseDelayMs) as [Hlong | Hshort].
  - destruct (waitBeforeReply_emergency responseDelayMs typingDelayMs canType
                typingResolves o s Hdraws Hlong) as (Hst & _ & ->).
    cbv zeta in Hst. destruct (canType && negb typingResolves); lia.
  - rewrite waitBeforeReply_normal by exact Hshort. simpl. lia.
Qed.

Lemma awaitResponseDelay_total (message : Message) (accountConfig : AccountConfig)
    (isDM isUrgent canType : bool) (o : Oracle) (s : State) :
  unitDraws o ->
  0 <= totalWait (awaitResponseDelay message accountConfig isDM isUrgent canType o s).1
    <= 30000.
Proof.
  intros Hdraws. unfold awaitResponseDelay, bind.
  destruct (computeResponseTiming message accountConfig isDM isUrgent o s)
    as [[responseDelayMs typingDelayMs] s1].
  now apply waitBeforeReply_total.
Qed.

Lemma handleDirectMessage_total (message : Message) (accountConfig : AccountConfig)
    (o : Oracle) (s : State) :
  unitDraws o ->
  0 <= totalWait (handleDirectMessage message accountConfig o s).1 <= 30000.
Proof.
  intros Hdraws. unfold handleDirectMessage, bind, gets, modify, Date_now, ret.
  destruct (1000 <? _)%nat; now apply awaitResponseDelay_total.
Qed.

Lemma messageCreate_total (clientUser : option ClientUser)
    (accountConfig : AccountConfig) (message : Message) (o : Oracle)
    (s s' : State) (actions : list Action) :
  unitDraws o ->
  messageCreate clientUser accountConfig message o s = (Some actions, s') ->
  0 <= totalWait actions <= 30000.
Proof.
  intros Hdraws Hrun. unfold messageCreate in Hrun.
  destruct (bool_decide (Some (author_id message) = user_id <$> clientUser));
    [discriminate Hrun |].
  destruct (negb (canRespondToChannel (channel message))); [discriminate Hrun |].
  unfold bind in Hrun.
  match type of Hrun with
  | context [(if ?b then resetChain ?c else ret ()) o s] =>
      destruct ((if b then resetChain c else ret ()) o s) as [[] s1]
  end.
  destruct (bool_decide (channel_kind (channel message) = DMChannel)).
  - pose proof (handleDirectMessage_total message accountConfig o s1 Hdraws) as H.
    destruct (handleDirectMessage message accountConfig o s1) as [a s2].
    injection Hrun as <- <-. exact H.
  - destruct clientUser as [accountUser |]; [| discriminate Hrun].
    destruct (shouldAccountRespond _ _ _ _ o s1) as [[] s2];
      [| discriminate Hrun].
    simpl in Hrun.
    destruct (shouldAllowAccountResponse _ _ o s2) as [[] s3];
      [| discriminate Hrun].
    simpl in Hrun.
    match type of Hrun with
    | context [awaitResponseDelay ?m ?c ?d ?u ?t o s3] =>
        pose proof (awaitResponseDelay_total m c d u t o s3 Hdraws) as H;
        destruct (awaitResponseDelay m c d u t o s3) as [a s4]
    end.
    injection Hrun as <- <-. exact H.
Qed.

(** Without the debug override, the waiting block receives the delay of
    [calculateRealisticDelay] and a typing offset drawn for it. *)
Lemma awaitResponseDelay_unfold (message : Message) (accountConfig : AccountConfig)
    (isDM isUrgent canType : bool) (o : Oracle) (s : State) :
  instantResponse (checkDebugCheats (content message)) = false ->
  let elapsed :=
    timeSinceLastInteraction
      (getInteractionKey (channel_id (channel message)) (author_id message)
         (id accountConfig)) o s in
  let computed := calculateRealisticDelay elapsed.1 isDM isUrgent o elapsed.2 in
  let typing := calculateTypingDelay computed.1 o computed.2 in
  awaitResponseDelay message accountConfig isDM isUrgent canType o s
  = waitBeforeReply computed.1 typing.1 canType (channel_typing (channel message))
      o typing.2.
Proof.
  intros Hinstant elapsed computed typing. subst typing computed elapsed.
  unfold awaitResponseDelay, computeResponseTiming, bind. rewrite Hinstant.
  destruct (timeSinceLastInteraction _ o s) as [timeSinceLastMs s1].
  cbn [fst snd].
  destruct (calculateRealisticDelay timeSinceLastMs isDM isUrgent o s1)
    as [responseDelayMs s2].
  cbn [fst snd].
  destruct (calculateTypingDelay responseDelayMs o s2) as [typingDelayMs s3].
  reflexivity.
Qed.

(* ===================================================================== *)
(** ** Properties of the handlers *)
(* ===================================================================== *)

Lemma keepsChains_ret {A : Type} (a : A) : keepsChains (ret a).
Proof. intros o s. reflexivity. Qed.

Lemma keepsChains_bind {A B : Type} (c : M A) (k : A -> M B) :
  keepsChains c -> (forall a, keepsChains (k a)) -> keepsChains (bind c k).
Proof.
  intros Hc Hk o s. unfold bind.
  specialize (Hc o s). destruct (c o s) as [a s1].
  rewrite (Hk a o s1). exact Hc.
Qed.

Lemma keepsChains_gets {A : Type} (f : State -> A) : keepsChains (gets f).
Proof. intros o s. reflexivity. Qed.

Lemma keepsChains_Math_random : keepsChains Math_random.
Proof. intros o s. reflexivity. Qed.

Lemma keepsChains_Date_now : keepsChains Date_now.
Proof. intros o s. reflexivity. Qed.

Lemma keepsChains_modify (f : State -> State) :
  (forall s, accountToAccountChains (f s) = accountToAccountChains s) ->
  keepsChains (modify f).
Proof. intros Hf o s. apply Hf. Qed.

Create HintDb frame.

#[local] Hint Resolve keepsChains_ret keepsChains_gets keepsChains_Math_random
  keepsChains_Date_now : frame.

Ltac keeps_chains :=
  repeat first
    [ solve [auto with frame]
    | progress cbv zeta
    | apply keepsChains_bind; [| intro]
    | apply keepsChains_modify; intro; reflexivity
    | match goal with
      | |- keepsChains (if ?b then _ else _) => destruct b
      | |- keepsChains (match ?x with _ => _ end) => destruct x
      | |- keepsChains (let '(_, _) := ?x in _) => destruct x
      end ].

Lemma keepsChains_calculateTypingDelay (totalDelayMs : Z) :
  keepsChains (calculateTypingDelay totalDelayMs).
Proof. unfold calculateTypingDelay. keeps_chains. Qed.

Lemma keepsChains_calculateRealisticDelay (timeSinceLastMs : Z) (isDM isUrgent : bool) :
  keepsChains (calculateRealisticDelay timeSinceLastMs isDM isUrgent).
Proof. unfold calculateRealisticDelay. keeps_chains. Qed.

#[local] Hint Resolve keepsChains_calculateTypingDelay
  keepsChains_calculateRealisticDelay : frame.

Lemma keepsChains_computeResponseTiming (message : Message)
    (accountConfig : AccountConfig) (isDM isUrgent : bool) :
  keepsChains (computeResponseTiming message accountConfig isDM isUrgent).
Proof. unfold computeResponseTiming, timeSinceLastInteraction. keeps_chains. Qed.

Lemma keepsChains_waitBeforeReply (responseDelayMs typingDelayMs : Z)
    (canType typingResolves : bool) :
  keepsChains (waitBeforeReply responseDelayMs typingDelayMs canType typingResolves).
Proof. unfold waitBeforeReply. keeps_chains. Qed.

#[local] Hint Resolve keepsChains_computeResponseTiming
  keepsChains_waitBeforeReply : frame.

Lemma keepsChains_awaitResponseDelay (message : Message)
    (accountConfig : AccountConfig) (isDM isUrgent canType : bool) :
  keepsChains (awaitResponseDelay message accountConfig isDM isUrgent canType).
Proof. unfold awaitResponseDelay. keeps_chains. Qed.

#[local] Hint Resolve keepsChains_awaitResponseDelay : frame.

(** The direct-message handler leaves the chain map alone. *)
Lemma handleDirectMessage_chains (message : Message) (accountConfig : AccountConfig) :
  keepsChains (handleDirectMessage message accountConfig).
Proof.
  unfold handleDirectMessage. keeps_chains.
Qed.

(** C7, amended.  A message in a direct channel from another author is
    always followed by the reply flow of [handleDirectMessage]: neither the
    chain guard nor the probability model is consulted, the chain map is
    left as it is, and the outcome does not depend on the interaction rate
    or the legacy fields of the account. *)
Theorem direct_message_always_answered (clientUser : option ClientUser)
    (accountConfig : AccountConfig) (message : Message) (o : Oracle) (s : State) :
  channel_kind (channel message) = DMChannel ->
  Some (author_id message) <> user_id <$> clientUser ->
  let handled := handleDirectMessage message accountConfig o s in
  messageCreate clientUser accountConfig message o s = (Some handled.1, handled.2)
  /\ accountToAccountChains handled.2 = accountToAccountChains s
  /\ forall rate frequency behavior,
       messageCreate clientUser
         (withProbabilitySettings accountConfig rate frequency behavior) message o s
       = messageCreate clientUser accountConfig message o s.
Proof.
  intros Hdm Hother handled.
  assert (Hrun : forall config,
            messageCreate clientUser config message o s
            = (Some (handleDirectMessage message config o s).1,
               (handleDirectMessage message config o s).2)).
  { intros config. unfold messageCreate.
    rewrite bool_decide_eq_false_2 by exact Hother.
    unfold canRespondToChannel. rewrite Hdm. simpl.
    rewrite andb_false_r. unfold bind, ret.
    now destruct (handleDirectMessage message config o s). }
  split; [apply Hrun |]. split; [apply handleDirectMessage_chains |].
  intros rate frequency behavior. rewrite !Hrun. reflexivity.
Qed.

(* ===================================================================== *)
(** ** Properties of the media cadence *)
(* ===================================================================== *)

(** Between two integers of moderate size a draw scaled by their distance
    and moved to the first, each step rounded to a double, stays between
    them. *)
Lemma scaled_moved_draw_barrier (r : Q) (n lo : Z) :
  (0 <= r)%Q -> (r < 1)%Q ->
  Z.abs n <= 4294967297 -> Z.abs lo <= 2147483648 ->
  Z.min lo (lo + n)
  <= Math_floor (toDouble (toDouble (r * inject_Z n) + inject_Z lo))
  <= Z.max lo (lo + n).
Proof.
  intros H0 H1 Hn Hlo.
  assert (Hbig : forall k : Z, Z.abs k <= 4503599627370496 ->
            (- inject_Z (2 ^ 52) <= inject_Z k)%Q /\ (inject_Z k <= inject_Z (2 ^ 52))%Q).
  { intros k Hk. change (2 ^ 52) with 4503599627370496.
    rewrite <- inject_Z_opp, <- !Zle_Qle. lia. }
  set (x1 := (r * inject_Z n)%Q).
  assert (Hx1 : (inject_Z (Z.min 0 n) <= x1)%Q /\ (x1 <= inject_Z (Z.max 0 n))%Q).
  { unfold x1. destruct (Z.le_gt_cases 0 n) as [Hpos | Hneg].
    - replace (Z.min 0 n) with 0 by lia. replace (Z.max 0 n) with n by lia.
      assert (Hq : (0 <= inject_Z n)%Q)
        by (change 0%Q with (inject_Z 0); now rewrite <- Zle_Qle).
      change (inject_Z 0) with 0%Q. split; nra.
    - replace (Z.min 0 n) with n by lia. replace (Z.max 0 n) with 0 by lia.
      assert (Hq : (inject_Z n <= 0)%Q)
        by (change 0%Q with (inject_Z 0); rewrite <- Zle_Qle; lia).
      change (inject_Z 0) with 0%Q. split; nra. }
  destruct Hx1 as [Hx1lo Hx1hi].
  destruct (Hbig (Z.min 0 n) ltac:(lia)) as [Hb1 _].
  destruct (Hbig (Z.max 0 n) ltac:(lia)) as [_ Hb2].
  assert (Hp : (inject_Z (Z.min 0 n) <= toDouble x1)%Q
               /\ (toDouble x1 <= inject_Z (Z.max 0 n))%Q).
  { destruct (toDouble_barrier x1 (Z.min 0 n)) as [_ Hdown]; [lra | lra |].
    destruct (toDouble_barrier x1 (Z.max 0 n)) as [Hup _]; [lra | lra |].
    auto. }
  destruct Hp as [Hplo Hphi].
  set (x2 := (toDouble x1 + inject_Z lo)%Q).
  assert (Hx2 : (inject_Z (Z.min lo (lo + n)) <= x2)%Q
                /\ (x2 <= inject_Z (Z.max lo (lo + n)))%Q).
  { unfold x2.
    replace (Z.min lo (lo + n)) with (Z.min 0 n + lo) by lia.
    replace (Z.max lo (lo + n)) with (Z.max 0 n + lo) by lia.
    rewrite !inject_Z_plus. split; lra. }
  destruct Hx2 as [Hx2lo Hx2hi].
  destruct (Hbig (Z.min lo (lo + n)) ltac:(lia)) as [Hb3 _].
  destruct (Hbig (Z.max lo (lo + n)) ltac:(lia)) as [_ Hb4].
  destruct (toDouble_barrier x2 (Z.min lo (lo + n))) as [_ Hdown]; [lra | lra |].
  destruct (toDouble_barrier x2 (Z.max lo (lo + n))) as [Hup _]; [lra | lra |].
  specialize (Hdown Hx2lo). specialize (Hup Hx2hi).
  unfold Math_floor. split.
  - rewrite <- (Qfloor_Z (Z.min lo (lo + n))). now apply Qfloor_resp_le.
  - pose proof (Qfloor_le (toDouble x2)) as Hfl.
    assert (Hle : (inject_Z (Qfloor (toDouble x2)) <= inject_Z (Z.max lo (lo + n)))%Q)
      by (eapply Qle_trans; eauto).
    now rewrite <- Zle_Qle in Hle.
Qed.

(** A rolled target lies between the lower bound and one more than the
    upper bound: the sum inside [Math.floor] can round up to
    [maxMessages + 1]. *)
Lemma rollTargetCount_range (config : RedditImageConfig) (o : Oracle) (s : State) :
  unitDraws o -> countsBounded config ->
  minMessages config <= maxMessages config ->
  let target := (rollTargetCount config o s).1 in
  minMessages config <= target <= maxMessages config + 1.
Proof.
  intros Hdraws [Hmin Hmax] Hle target. subst target.
  cbv beta iota zeta delta [rollTargetCount bind Math_random ret fst].
  destruct (Hdraws (randomCalls s)) as [H0 H1].
  pose proof (scaled_moved_draw_barrier (random_at o (randomCalls s))
                (maxMessages config - minMessages config + 1) (minMessages config)
                H0 H1 ltac:(lia) ltac:(lia)) as Hroll.
  lia.
Qed.

(** The first message seen on a channel creates its tracker. *)
Lemma shouldAttachRedditImage_first (channelId : string)
    (accountConfig : AccountConfig) (config : RedditImageConfig)
    (o : Oracle) (s : State) :
  activeRedditConfig accountConfig = Some config ->
  channelMessageTrackers s !! channelId = None ->
  let result := shouldAttachRedditImage channelId accountConfig false o s in
  let target := (rollTargetCount config o (Date_now o s).2).1 in
  result.1 = false
  /\ channelMessageTrackers result.2 !! channelId
     = Some {| messageCount := 1; targetMessageCount := target; lastImageTime := 0 |}
  /\ clockCalls result.2 = S (clockCalls s)
  /\ randomCalls result.2 = S (randomCalls s).
Proof.
  intros Hconfig Hnone result target. subst result target.
  unfold shouldAttachRedditImage. rewrite Hconfig.
  unfold bind, gets, modify, ret, Date_now, rollTargetCount, Math_random. simpl.
  rewrite Hnone. simpl.
  destruct (1000 <? _)%nat; simpl; (split; [reflexivity |]).
  - split; [| split; reflexivity].
    apply map_lookup_filter_Some. split; [apply lookup_insert_eq | reflexivity].
  - split; [apply lookup_insert_eq | split; reflexivity].
Qed.

(** Each later message counts; when the count reaches the target the
    tracker is reset, with a new target and the time of the attachment. *)
Lemma shouldAttachRedditImage_next (channelId : string)
    (accountConfig : AccountConfig) (config : RedditImageConfig)
    (tracker : ChannelMessageTracker) (o : Oracle) (s : State) :
  activeRedditConfig accountConfig = Some config ->
  channelMessageTrackers s !! channelId = Some tracker ->
  let result := shouldAttachRedditImage channelId accountConfig false o s in
  let now := now_at o (clockCalls s) in
  let target := (rollTargetCount config o (Date_now o s).2).1 in
  clockCalls result.2 = S (clockCalls s)
  /\ if targetMessageCount tracker <=? messageCount tracker + 1 then
       result.1 = true
       /\ channelMessageTrackers result.2 !! channelId
          = Some {| messageCount := 0; targetMessageCount := target;
                    lastImageTime := now |}
       /\ randomCalls result.2 = S (randomCalls s)
     else
       result.1 = false
       /\ channelMessageTrackers result.2 !! channelId
          = Some {| messageCount := messageCount tracker + 1;
                    targetMessageCount := targetMessageCount tracker;
                    lastImageTime := lastImageTime tracker |}
       /\ randomCalls result.2 = randomCalls s.
Proof.
  intros Hconfig Hsome result now target. subst result target.
  unfold shouldAttachRedditImage. rewrite Hconfig.
  unfold bind, gets, modify, ret, Date_now, rollTargetCount, Math_random. simpl.
  rewrite Hsome. simpl.
  destruct (targetMessageCount tracker <=? messageCount tracker + 1); simpl;
    (split; [reflexivity |]); (split; [reflexivity |]);
    (split; [apply lookup_insert_eq | reflexivity]).
Qed.

(** C8.  With [minMessages = maxMessages = 3], a configured subreddit
    list, no force override and no tracker for the channel: the first call
    creates the tracker (count 1, no attachment yet) and returns false, and
    the second returns false.  The target stored by the first call is 3 or
    4: the sum inside [Math.floor] can round up to 4.  When it is 3 the
    third call returns true and leaves the tracker with count 0, a target
    re-rolled from a fresh draw (3 or 4 again) and the time of the call;
    when it is 4 the third call returns false and the fourth returns
    true. *)
Theorem third_message_triggers_iff_target_three (channelId : string)
    (accountConfig : AccountConfig) (config : RedditImageConfig)
    (o : Oracle) (s0 : State) :
  activeRedditConfig accountConfig = Some config ->
  minMessages config = 3 -> maxMessages config = 3 ->
  unitDraws o ->
  channelMessageTrackers s0 !! channelId = None ->
  let r1 := shouldAttachRedditImage channelId accountConfig false o s0 in
  let r2 := shouldAttachRedditImage channelId accountConfig false o r1.2 in
  let r3 := shouldAttachRedditImage channelId accountConfig false o r2.2 in
  let r4 := shouldAttachRedditImage channelId accountConfig false o r3.2 in
  let target := (rollTargetCount config o (Date_now o s0).2).1 in
  let target' := (rollTargetCount config o (Date_now o r2.2).2).1 in
  r1.1 = false
  /\ channelMessageTrackers r1.2 !! channelId
     = Some {| messageCount := 1; targetMessageCount := target; lastImageTime := 0 |}
  /\ (target = 3 \/ target = 4)
  /\ r2.1 = false
  /\ (target = 3 ->
      r3.1 = true
      /\ (target' = 3 \/ target' = 4)
      /\ channelMessageTrackers r3.2 !! channelId
         = Some {| messageCount := 0; targetMessageCount := target';
                   lastImageTime := now_at o (2 + clockCalls s0) |})
  /\ (target = 4 -> r3.1 = false /\ r4.1 = true).
Proof.
  intros Hconfig Hmin Hmax Hdraws Hnone r1 r2 r3 r4 target target'.
  assert (Hroll : forall s, (rollTargetCount config o s).1 = 3
                            \/ (rollTargetCount config o s).1 = 4).
  { intros s.
    assert (Hbounded : countsBounded config)
      by (unfold countsBounded; rewrite Hmin, Hmax; cbn; lia).
    pose proof (rollTargetCount_range config o s Hdraws Hbounded) as H.
    rewrite Hmin, Hmax in H. specialize (H ltac:(lia)). cbv zeta in H. lia. }
  destruct (shouldAttachRedditImage_first channelId accountConfig config o s0
              Hconfig Hnone) as (Hr1 & Ht1 & Hc1 & _).
  fold r1 target in Hr1, Ht1, Hc1.
  destruct (shouldAttachRedditImage_next channelId accountConfig config _ o r1.2
              Hconfig Ht1) as (Hc2 & H2).
  fold r2 in Hc2, H2. cbn [messageCount targetMessageCount lastImageTime] in H2.
  assert (Htarget : target = 3 \/ target = 4) by apply Hroll.
  destruct (Z.leb_spec target (1 + 1)) as [Habs | _]; [lia |].
  destruct H2 as (Hr2 & Ht2 & _).
  destruct (shouldAttachRedditImage_next channelId accountConfig config _ o r2.2
              Hconfig Ht2) as (Hc3 & H3).
  fold r3 target' in Hc3, H3. cbn [messageCount targetMessageCount lastImageTime] in H3.
  split; [exact Hr1 |]. split; [exact Ht1 |]. split; [exact Htarget |].
  split; [exact Hr2 |]. split.
  - intros Hthree. rewrite Hthree in H3. cbn in H3.
    destruct H3 as (Hr3 & Ht3 & _). rewrite Hc2, Hc1 in Ht3.
    split; [exact Hr3 |]. split; [apply Hroll | exact Ht3].
  - intros Hfour. rewrite Hfour in H3. cbn in H3.
    destruct H3 as (Hr3 & Ht3 & _). split; [exact Hr3 |].
    destruct (shouldAttachRedditImage_next channelId accountConfig config _ o r3.2
                Hconfig Ht3) as (_ & H4).
    fold r4 in H4. cbn in H4. apply H4.
Qed.

(* ===================================================================== *)
(** ** Properties of the recency cache *)
(* ===================================================================== *)

(** When every fetch of the loop gives an image that was sent recently, the
    loop ends without a result and without touching the cache. *)
Lemma fetchUnseenLoop_all_seen (attempts : nat) (config : RedditImageConfig)
    (channelId : string) (recentlySentIds : list string) (o : Oracle) (s : State) :
  (forall i, (i < attempts)%nat ->
     exists image, reddit_at o (i + redditCalls s) = Some image
                   /\ image_id image ∈ recentlySentIds) ->
  fetchUnseenLoop attempts config channelId recentlySentIds o s
  = (None, afterFetches attempts s).
Proof.
  revert s. induction attempts as [| n IH]; intros s Hseen.
  - destruct s; reflexivity.
  - simpl. unfold bind, getRandomRedditImage.
    destruct (Hseen 0%nat ltac:(lia)) as (image & Himage & Hin).
    simpl in Himage. rewrite Himage.
    rewrite bool_decide_eq_true_2 by exact Hin. simpl.
    rewrite IH.
    + unfold afterFetches. simpl. f_equal. f_equal. lia.
    + intros i Hi. simpl.
      destruct (Hseen (S i) ltac:(lia)) as (image' & Himage' & Hin').
      exists image'. split; [| exact Hin'].
      rewrite <- Himage'. f_equal. lia.
Qed.

(** The whole run in the situation of the lemma above. *)
Lemma getUnseenRandomRedditImage_all_seen (accountConfig : AccountConfig)
    (config : RedditImageConfig) (channelId : string) (o : Oracle) (s : State) :
  activeRedditConfig accountConfig = Some config ->
  let recentlySentIds :=
    default [] (recentlySentRedditImagesByChannel s !! channelId) in
  (forall i, (i < MAX_UNIQUE_IMAGE_FETCH_ATTEMPTS)%nat ->
     exists image, reddit_at o (i + redditCalls s) = Some image
                   /\ image_id image ∈ recentlySentIds) ->
  getUnseenRandomRedditImage accountConfig channelId o s
  = match reddit_at o (MAX_UNIQUE_IMAGE_FETCH_ATTEMPTS + redditCalls s) with
    | Some image =>
        (Some image,
         set_recentlySentRedditImagesByChannel
           (<[channelId := take RECENTLY_SENT_IMAGE_CACHE_SIZE
                             (image_id image :: recentlySentIds)]>)
           (afterFetches 6 s))
    | None => (None, afterFetches 6 s)
    end.
Proof.
  intros Hconfig recentlySentIds Hseen.
  unfold getUnseenRandomRedditImage. rewrite Hconfig.
  unfold bind, gets. fold recentlySentIds.
  rewrite (fetchUnseenLoop_all_seen _ config channelId recentlySentIds o s Hseen).
  unfold getRandomRedditImage, rememberImage, modify, ret.
  cbn [redditCalls afterFetches].
  destruct (reddit_at o (MAX_UNIQUE_IMAGE_FETCH_ATTEMPTS + redditCalls s));
    reflexivity.
Qed.

(** C9.  With a configured subreddit list: when each of the five attempts
    of the loop gets an image whose id is already in the cache of the
    channel, the function makes a sixth fetch and returns what that fetch
    gives.  If it gives an image, its id is put in front of the cache, cut
    to 30 entries; if it fails, the result is [null] and the cache is as
    before. *)
Theorem repeated_image_still_returned (accountConfig : AccountConfig)
    (config : RedditImageConfig) (channelId : string) (o : Oracle) (s : State) :
  activeRedditConfig accountConfig = Some config ->
  let recentlySentIds :=
    default [] (recentlySentRedditImagesByChannel s !! channelId) in
  (forall i, (i < MAX_UNIQUE_IMAGE_FETCH_ATTEMPTS)%nat ->
     exists image, reddit_at o (i + redditCalls s) = Some image
                   /\ image_id image ∈ recentlySentIds) ->
  let result := getUnseenRandomRedditImage accountConfig channelId o s in
  let lastAttempt := reddit_at o (MAX_UNIQUE_IMAGE_FETCH_ATTEMPTS + redditCalls s) in
  result.1 = lastAttempt
  /\ redditCalls result.2 = (6 + redditCalls s)%nat
  /\ match lastAttempt with
     | Some image =>
         recentlySentRedditImagesByChannel result.2 !! channelId
         = Some (take RECENTLY_SENT_IMAGE_CACHE_SIZE (image_id image :: recentlySentIds))
     | None =>
         recentlySentRedditImagesByChannel result.2
         = recentlySentRedditImagesByChannel s
     end.
Proof.
  intros Hconfig recentlySentIds Hseen result lastAttempt.
  assert (Hrun := getUnseenRandomRedditImage_all_seen accountConfig config
                    channelId o s Hconfig Hseen).
  fold result lastAttempt recentlySentIds in Hrun.
  destruct lastAttempt as [image |]; rewrite Hrun.
  - split; [reflexivity |]. split; [reflexivity |]. apply lookup_insert_eq.
  - auto.
Qed.

Lemma steadyOracle_unitDraws (start : Z) (image : option RedditImageData) :
  unitDraws (steadyOracle 0.9 start image).
Proof. intros n. split; Qeval. Qed.

Lemma steadyOracle_unitDraws_top (start : Z) (image : option RedditImageData) :
  unitDraws (steadyOracle topDraw start image).
Proof. intros n. split; Qeval. Qed.

(** For the counts 5 to 10 the draw [1 - 2^-53] gives the target 11:
    [r * 6] rounds to [6 - 2^-50], and [11 - 2^-50] rounds to 11. *)
Example rollTargetCount_above_max :
  (rollTargetCount
     {| subreddits := ["aww"]; minMessages := 5; maxMessages := 10; nsfw := false |}
     (steadyOracle (9007199254740991 # 9007199254740992) 0 None) emptyState).1
  = 11.
Proof. vm_compute. reflexivity. Qed.

(* ===================================================================== *)
(** ** Further properties of the chain guard *)
(* ===================================================================== *)

Lemma size_insert_sizeWith {V : Type} (key : string) (v : V) (m : gmap string V) :
  size (<[key := v]> m) = sizeWith key m.
Proof.
  unfold sizeWith. destruct (m !! key) as [v0 |] eqn:Hkey.
  - rewrite <- (insert_delete_id m key v0 Hkey) at 2.
    rewrite <- (insert_delete_eq m).
    rewrite !map_size_insert_None by apply lookup_delete_eq. reflexivity.
  - now apply map_size_insert_None.
Qed.

(** The chain map after an allowed reply: the entry of the replying account
    is written, then the sweep runs if the map has more than 1000 entries. *)
Lemma shouldAllowAccountResponse_chains (channelId ourAccountId : string)
    (o : Oracle) (s : State) (n : Z) :
  channelId <> "" ->
  let now := now_at o (clockCalls s) in
  chainVerdict (accountToAccountChains s !! channelId) now ourAccountId = Some n ->
  let written :=
    <[channelId := {| chainCount := n; lastAccountId := ourAccountId;
                      lastActivity := now |}]> (accountToAccountChains s) in
  accountToAccountChains (shouldAllowAccountResponse channelId ourAccountId o s).2
  = if (1000 <? size written)%nat then
      filter (fun kv => ¬ lastActivity kv.2
                          < now - BOT_CHAIN_INACTIVITY_RESET_MS * 2) written
    else written.
Proof.
  intros Hch now Hverdict written. subst written.
  unfold shouldAllowAccountResponse, chainVerdict in *.
  destruct (String.eqb_spec channelId ""); [congruence |].
  unfold bind, gets, Date_now, ret, assignChainData, modify. fold now.
  destruct (accountToAccountChains s !! channelId) as [e |] eqn:Hentry;
    simpl in Hverdict |- *.
  - destruct (BOT_CHAIN_INACTIVITY_RESET_MS <? now - lastActivity e) eqn:Hexp;
      simpl in Hverdict |- *.
    + injection Hverdict as <-.
      destruct (1000 <? size (<[channelId := _]> (<[channelId := _]> _)))%nat
        eqn:Hsize; simpl; rewrite insert_insert_eq in Hsize |- *;
        rewrite Hsize; reflexivity.
    + destruct (negb (lastAccountId e =? "")%string
                && (lastAccountId e =? ourAccountId)%string) eqn:Hsame;
        simpl in Hverdict |- *.
      * destruct (MAX_BOT_CHAIN <=? chainCount e) eqn:Hmax; [discriminate |].
        injection Hverdict as <-. destruct (1000 <? _)%nat; reflexivity.
      * injection Hverdict as <-. destruct (1000 <? _)%nat; reflexivity.
  - destruct (BOT_CHAIN_INACTIVITY_RESET_MS <? now - 0); simpl in Hverdict |- *;
      injection Hverdict as <-; destruct (1000 <? _)%nat; reflexivity.
Qed.

(** When the verdict is a block. *)
Lemma chainVerdict_None (entry : option AccountConversationChain) (now : Z)
    (ourAccountId : string) :
  chainVerdict entry now ourAccountId = None
  <-> exists chainData,
        entry = Some chainData
        /\ now - lastActivity chainData <= BOT_CHAIN_INACTIVITY_RESET_MS
        /\ lastAccountId chainData = ourAccountId
        /\ ourAccountId <> ""
        /\ MAX_BOT_CHAIN <= chainCount chainData.
Proof.
  unfold chainVerdict. split.
  - destruct entry as [e |]; simpl.
    + destruct (Z.ltb_spec BOT_CHAIN_INACTIVITY_RESET_MS (now - lastActivity e));
        simpl; [discriminate |].
      destruct (String.eqb_spec (lastAccountId e) ""); simpl; [discriminate |].
      destruct (String.eqb_spec (lastAccountId e) ourAccountId); [| discriminate].
      destruct (Z.leb_spec MAX_BOT_CHAIN (chainCount e)); [| discriminate].
      intros _. exists e. repeat split; try assumption. congruence.
    + destruct (BOT_CHAIN_INACTIVITY_RESET_MS <? now - 0); discriminate.
  - intros (e & -> & Hgap & Hlast & Hne & Hmax). simpl.
    destruct (Z.ltb_spec BOT_CHAIN_INACTIVITY_RESET_MS (now - lastActivity e));
      [lia |].
    rewrite Hlast, String.eqb_refl.
    destruct (String.eqb_spec ourAccountId ""); [congruence |]. simpl.
    destruct (Z.leb_spec MAX_BOT_CHAIN (chainCount e)); [reflexivity | lia].
Qed.

(** The count stored by an allowed reply. *)
Lemma chainVerdict_Some_bounds (entry : option AccountConversationChain) (now : Z)
    (ourAccountId : string) (n : Z) :
  chainVerdict entry now ourAccountId = Some n ->
  n = 1 \/ exists chainData,
             entry = Some chainData /\ n = chainCount chainData + 1
             /\ chainCount chainData < MAX_BOT_CHAIN.
Proof.
  unfold chainVerdict. destruct entry as [e |]; simpl.
  - destruct (BOT_CHAIN_INACTIVITY_RESET_MS <? now - lastActivity e); simpl.
    + intros [= <-]. now left.
    + destruct (negb _ && _); [| intros [= <-]; now left].
      destruct (Z.leb_spec MAX_BOT_CHAIN (chainCount e)); [discriminate |].
      intros [= <-]. right. exists e. auto.
  - destruct (BOT_CHAIN_INACTIVITY_RESET_MS <? now - 0); simpl;
      intros [= <-]; now left.
Qed.

(** X1.  [shouldAllowAccountResponse] refuses a reply exactly when the
    channel has an id, its entry is at most ten minutes old and names the
    calling account (whose id is not empty), and the count has reached
    [MAX_BOT_CHAIN]; in every other case it allows the reply. *)
Theorem guard_blocks_exactly_at_limit (channelId ourAccountId : string)
    (o : Oracle) (s : State) :
  (shouldAllowAccountResponse channelId ourAccountId o s).1 = false
  <-> channelId <> ""
      /\ exists chainData,
           accountToAccountChains s !! channelId = Some chainData
           /\ now_at o (clockCalls s) - lastActivity chainData
              <= BOT_CHAIN_INACTIVITY_RESET_MS
           /\ lastAccountId chainData = ourAccountId
           /\ ourAccountId <> ""
           /\ MAX_BOT_CHAIN <= chainCount chainData.
Proof.
  destruct (String.eqb_spec channelId "") as [-> | Hch].
  { unfold shouldAllowAccountResponse. simpl. split; [discriminate |].
    intros [Habs _]. congruence. }
  destruct (shouldAllowAccountResponse_spec channelId ourAccountId o s Hch)
    as [_ Hspec].
  rewrite <- chainVerdict_None.
  destruct (chainVerdict _ _ _) as [n |].
  - destruct Hspec as [-> _]. split; [discriminate | intros [_ Habs]; discriminate].
  - rewrite Hspec. simpl. split; auto.
Qed.

(** X2.  After an allowed reply on a guild channel the entry of the channel
    is the one just written, and any other entry is kept as it was unless
    the map (with the channel in it) holds more than 1000 entries, in which
    case it is kept only if its last activity is at most twenty minutes
    old. *)
Theorem allowed_reply_sweeps_stale_chains (channelId ourAccountId : string)
    (o : Oracle) (s : State) :
  channelId <> "" ->
  let now := now_at o (clockCalls s) in
  let result := shouldAllowAccountResponse channelId ourAccountId o s in
  result.1 = true ->
  (exists n, accountToAccountChains result.2 !! channelId
             = Some {| chainCount := n; lastAccountId := ourAccountId;
                       lastActivity := now |})
  /\ forall other chainData,
       other <> channelId ->
       (accountToAccountChains result.2 !! other = Some chainData
        <-> accountToAccountChains s !! other = Some chainData
            /\ ((1000 < sizeWith channelId (accountToAccountChains s))%nat ->
                now - BOT_CHAIN_INACTIVITY_RESET_MS * 2 <= lastActivity chainData)).
Proof.
  intros Hch now result Hallowed.
  destruct (shouldAllowAccountResponse_spec channelId ourAccountId o s Hch)
    as [_ Hspec]. fold now result in Hspec.
  destruct (chainVerdict _ _ _) as [n |] eqn:Hverdict.
  2: { rewrite Hspec in Hallowed. discriminate Hallowed. }
  destruct Hspec as [_ Hentry]. split; [eauto |].
  intros other chainData Hother.
  pose proof (shouldAllowAccountResponse_chains channelId ourAccountId o s n Hch
                Hverdict) as Hchains.
  fold now result in Hchains. cbv zeta in Hchains. rewrite Hchains.
  rewrite size_insert_sizeWith.
  destruct (Nat.ltb_spec 1000 (sizeWith channelId (accountToAccountChains s))).
  - rewrite map_lookup_filter_Some, lookup_insert_ne by congruence. simpl.
    split; intros [H1 H2]; (split; [exact H1 |]).
    + intros _. lia.
    + specialize (H2 ltac:(lia)). lia.
  - rewrite lookup_insert_ne by congruence. split; [| tauto].
    intros H1. split; [exact H1 | lia].
Qed.

(** The guard keeps the counts of the chain map between 1 and the limit. *)
Lemma shouldAllowAccountResponse_bounded (channelId ourAccountId : string)
    (o : Oracle) (s : State) :
  chainsBounded (accountToAccountChains s) ->
  chainsBounded
    (accountToAccountChains (shouldAllowAccountResponse channelId ourAccountId o s).2).
Proof.
  intros Hbounded.
  destruct (String.eqb_spec channelId "") as [-> | Hch].
  { unfold shouldAllowAccountResponse. simpl. exact Hbounded. }
  destruct (shouldAllowAccountResponse_spec channelId ourAccountId o s Hch)
    as [_ Hspec].
  destruct (chainVerdict _ _ _) as [n |] eqn:Hverdict.
  2: { rewrite Hspec. exact Hbounded. }
  rewrite (shouldAllowAccountResponse_chains channelId ourAccountId o s n Hch
             Hverdict).
  assert (Hn : 1 <= n <= MAX_BOT_CHAIN).
  { destruct (chainVerdict_Some_bounds _ _ _ _ Hverdict)
      as [-> | (e & He & -> & Hlt)].
    - unfold MAX_BOT_CHAIN. lia.
    - specialize (Hbounded channelId e He). lia. }
  assert (Hwritten : chainsBounded
            (<[channelId := {| chainCount := n; lastAccountId := ourAccountId;
                               lastActivity := now_at o (clockCalls s) |}]>
               (accountToAccountChains s))).
  { intros k e. rewrite lookup_insert. case_decide.
    - intros [= <-]. exact Hn.
    - apply Hbounded. }
  destruct (1000 <? _)%nat; [| exact Hwritten].
  intros k e Hk. apply map_lookup_filter_Some in Hk as [Hk _].
  now apply (Hwritten k e).
Qed.

(* ===================================================================== *)
(** ** Further properties of the [messageCreate] handler *)
(* ===================================================================== *)

Lemma keepsChains_shouldLegacyUserAccountRespond (message : Message)
    (userConfig : AccountConfig) (isMentioned containsAccountName : bool) :
  keepsChains (shouldLegacyUserAccountRespond message userConfig isMentioned
                 containsAccountName).
Proof. unfold shouldLegacyUserAccountRespond. keeps_chains. Qed.

#[local] Hint Resolve keepsChains_shouldLegacyUserAccountRespond : frame.

Lemma keepsChains_shouldAccountRespond (message : Message)
    (accountConfig : AccountConfig) (isMentioned containsAccountName : bool) :
  keepsChains (shouldAccountRespond message accountConfig isMentioned
                 containsAccountName).
Proof. unfold shouldAccountRespond. keeps_chains. Qed.

(** The handler on a channel that is not direct, for a message of another
    author that the account may answer: the chain is reset for a human
    author, then the probability model, the chain guard and the delay
    follow. *)
Lemma messageCreate_guild (accountUser : ClientUser) (accountConfig : AccountConfig)
    (message : Message) (o : Oracle) (s : State) :
  channel_kind (channel message) <> DMChannel ->
  author_id message <> user_id accountUser ->
  channel_permitted (channel message) = true ->
  let channelId := channel_id (channel message) in
  let isMentioned := bool_decide (user_id accountUser ∈ mentions message) in
  let containsAccountName :=
    includes (toLowerCase (username accountUser)) (toLowerCase (content message)) in
  let s1 := if author_bot message then s else (resetChain channelId o s).2 in
  let responded :=
    shouldAccountRespond message accountConfig isMentioned containsAccountName o s1 in
  let allowed := shouldAllowAccountResponse channelId (id accountConfig) o responded.2 in
  let waited :=
    awaitResponseDelay message accountConfig false
      (isMessageUrgent (content message) isMentioned)
      (bool_decide (channel_kind (channel message) = BaseGuildTextChannel))
      o allowed.2 in
  messageCreate (Some accountUser) accountConfig message o s
  = if responded.1 then
      if allowed.1 then (Some waited.1, waited.2) else (None, allowed.2)
    else (None, responded.2).
Proof.
  intros Hkind Hother Hperm channelId isMentioned containsAccountName s1
    responded allowed waited.
  subst waited allowed responded s1.
  unfold messageCreate.
  rewrite bool_decide_eq_false_2 by (simpl; congruence).
  unfold canRespondToChannel. rewrite Hperm.
  rewrite (bool_decide_eq_false_2 _ Hkind).
  destruct (channel_kind (channel message)) eqn:Hk; [congruence | |];
    simpl; rewrite andb_true_r; unfold bind;
    fold channelId isMentioned containsAccountName;
    destruct (author_bot message); simpl;
    destruct (shouldAccountRespond _ _ _ _ o _) as [[] s2]; simpl;
    try reflexivity;
    destruct (shouldAllowAccountResponse _ _ o s2) as [[] s3]; simpl;
    try reflexivity;
    destruct (awaitResponseDelay _ _ _ _ _ o s3); reflexivity.
Qed.

Lemma ignoresCounts_bind {A B : Type} (c : M A) (k : A -> M B) :
  ignoresCounts c -> (forall a, ignoresCounts (k a)) -> ignoresCounts (bind c k).
Proof.
  intros Hc Hk f o s. unfold bind. rewrite (Hc f o s).
  destruct (c o s) as [a s1]. cbn [fst snd]. apply Hk.
Qed.

Lemma ignoresCounts_awaitResponseDelay (message : Message)
    (accountConfig : AccountConfig) (isDM isUrgent canType : bool) :
  ignoresCounts (awaitResponseDelay message accountConfig isDM isUrgent canType).
Proof.
  unfold awaitResponseDelay, computeResponseTiming, timeSinceLastInteraction,
    calculateRealisticDelay, calculateTypingDelay, waitBeforeReply.
  repeat first
    [ progress cbv zeta
    | apply ignoresCounts_bind; [| intro]
    | match goal with
      | |- ignoresCounts (if ?b then _ else _) => destruct b
      | |- ignoresCounts (match ?x with _ => _ end) => destruct x
      | |- ignoresCounts (let '(_, _) := ?x in _) => destruct x
      end
    | solve [intros ? ? ?; reflexivity] ].
Qed.

(** The direct-message handler counts the message, reading the clock once,
    and then waits as [awaitResponseDelay] says, for a message that counts
    as urgent. *)
Lemma handleDirectMessage_wait (message : Message) (accountConfig : AccountConfig)
    (o : Oracle) (s : State) :
  (handleDirectMessage message accountConfig o s).1
  = (awaitResponseDelay message accountConfig true true
       (bool_decide (channel_kind (channel message) = DMChannel))
       o (Date_now o s).2).1.
Proof.
  unfold handleDirectMessage, bind, gets, modify, ret. cbn [isMessageUrgent].
  destruct (Date_now o s) as [now s1] eqn:Hnow. cbn [fst snd].
  destruct (1000 <? _)%nat; cbn [fst snd];
    rewrite !ignoresCounts_awaitResponseDelay; reflexivity.
Qed.


(** X3.  If every stored chain counts between 1 and [MAX_BOT_CHAIN]
    replies, this is still so after the handler has processed a message,
    whatever the message, the account and the outside values. *)
Theorem chain_counts_stay_bounded (clientUser : option ClientUser)
    (accountConfig : AccountConfig) (message : Message) (o : Oracle) (s : State) :
  chainsBounded (accountToAccountChains s) ->
  chainsBounded
    (accountToAccountChains (messageCreate clientUser accountConfig message o s).2).
Proof.
  intros Hbounded. unfold messageCreate.
  destruct (bool_decide (Some (author_id message) = user_id <$> clientUser));
    [exact Hbounded |].
  destruct (negb (canRespondToChannel (channel message))); [exact Hbounded |].
  unfold bind at 1.
  match goal with
  | |- context [(if ?b then resetChain ?c else ret ()) o s] =>
      set (reset := (if b then resetChain c else ret ()) o s)
  end.
  assert (Hreset : chainsBounded (accountToAccountChains reset.2)).
  { subst reset. destruct (negb (author_bot message) && _); [| exact Hbounded].
    simpl. intros k e Hk. apply lookup_delete_Some in Hk as [_ Hk].
    now apply (Hbounded k e). }
  destruct reset as [[] s1]. simpl in Hreset.
  destruct (bool_decide (channel_kind (channel message) = DMChannel)).
  - unfold bind.
    pose proof (handleDirectMessage_chains message accountConfig o s1) as Hdm.
    destruct (handleDirectMessage message accountConfig o s1) as [a s2].
    simpl in *. now rewrite Hdm.
  - destruct clientUser as [accountUser |]; [| exact Hreset].
    unfold bind.
    match goal with
    | |- context [shouldAccountRespond ?m ?c ?i ?n o s1] =>
        pose proof (keepsChains_shouldAccountRespond m c i n o s1) as Hresp;
        destruct (shouldAccountRespond m c i n o s1) as [[] s2]
    end; simpl in Hresp |- *; [| now rewrite Hresp].
    pose proof (shouldAllowAccountResponse_bounded (channel_id (channel message))
                  (id accountConfig) o s2) as Hguard.
    rewrite Hresp in Hguard. specialize (Hguard Hreset).
    destruct (shouldAllowAccountResponse _ _ o s2) as [[] s3];
      simpl in Hguard |- *; [| exact Hguard].
    match goal with
    | |- context [awaitResponseDelay ?m ?c ?d ?u ?t o s3] =>
        pose proof (keepsChains_awaitResponseDelay m c d u t o s3) as Hwait;
        destruct (awaitResponseDelay m c d u t o s3) as [a s4]
    end.
    simpl in Hwait |- *. now rewrite Hwait.
Qed.


(* ===================================================================== *)
(** ** Further properties of the probability model *)
(* ===================================================================== *)

Open Scope Q_scope.

Lemma interactionRateBaseChance_nonneg (L : Z) :
  (0 <= L)%Z -> 0 <= interactionRateBaseChance L.
Proof.
  intros H. apply Qle_trans with (interactionRateBaseChance 0).
  - Qeval.
  - now apply interactionRateBaseChance_mono.
Qed.

Lemma boostFactor_ge_1 (text : string) : 1 <= boostFactor text.
Proof.
  unfold boostFactor.
  destruct (isQuestionText text), (isLongText text), (containsEmotionsText text),
           (isExclamationText text); Qeval.
Qed.

Lemma accountResponseChance_boosted (rate : Z) (text : string) :
  accountResponseChance rate text
  == Qmin (interactionRateBaseChance rate * boostFactor text) 0.8.
Proof.
  unfold accountResponseChance, boostFactor.
  apply Q.min_compat; [| reflexivity].
  destruct (isQuestionText text), (isLongText text), (containsEmotionsText text),
           (isExclamationText text); simpl; ring.
Qed.

Lemma accountResponseChance_mono_rate (text : string) (L1 L2 : Z) :
  (L1 <= L2)%Z -> accountResponseChance L1 text <= accountResponseChance L2 text.
Proof.
  intros Hle. rewrite !accountResponseChance_boosted.
  apply Q.min_le_compat_r. apply Qmult_le_compat_r.
  - now apply interactionRateBaseChance_mono.
  - apply Qle_trans with 1; [Qeval | apply boostFactor_ge_1].
Qed.

Lemma accountResponseChance_ge_plain (text : string) (L : Z) :
  (0 <= L)%Z ->
  Qmin (interactionRateBaseChance L) 0.8 <= accountResponseChance L text.
Proof.
  intros H0. rewrite accountResponseChance_boosted.
  apply Q.min_le_compat_r.
  pose proof (interactionRateBaseChance_nonneg L H0) as Hbase.
  pose proof (boostFactor_ge_1 text) as Hboost.
  rewrite <- (Qmult_1_r (interactionRateBaseChance L)) at 1.
  rewrite !(Qmult_comm (interactionRateBaseChance L)).
  now apply Qmult_le_compat_r.
Qed.

(** X5.  For every text the probability of the unified path is
    non-decreasing in the interaction rate, and for a rate that is not
    negative the boosts never lower it below the value for a plain text. *)
Theorem chance_monotone_in_rate_and_boosts (text : string) (L1 L2 : Z) :
  (L1 <= L2)%Z ->
  accountResponseChance L1 text <= accountResponseChance L2 text
  /\ ((0 <= L1)%Z ->
      Qmin (interactionRateBaseChance L1) 0.8 <= accountResponseChance L1 text).
Proof.
  intros Hle. rewrite !accountResponseChance_boosted.
  pose proof (boostFactor_ge_1 text) as Hboost.
  split.
  - apply Q.min_le_compat_r. apply Qmult_le_compat_r.
    + now apply interactionRateBaseChance_mono.
    + apply Qle_trans with 1; [Qeval | exact Hboost].
  - intros H0. apply Q.min_le_compat_r.
    pose proof (interactionRateBaseChance_nonneg L1 H0) as Hbase.
    rewrite <- (Qmult_1_r (interactionRateBaseChance L1)) at 1.
    rewrite !(Qmult_comm (interactionRateBaseChance L1)).
    now apply Qmult_le_compat_r.
Qed.

Lemma chance_monotone_in_rate_and_boosts_witness :
  accountResponseChance 30 "Is anyone here?" <= accountResponseChance 90 "Is anyone here?".
Proof.
  refine (proj1 (chance_monotone_in_rate_and_boosts "Is anyone here?" 30 90 _)). lia.
Defined.

(** X6.  An account whose interaction rate went through the loader answers
    an unaddressed message when the random draw is below 0.0025, whatever
    the text, and never when the draw is 0.8 or more. *)
Theorem configured_rate_response_window (message : Message)
    (accountConfig : AccountConfig) (rawRate : Z) (o : Oracle) (s : State) :
  interactionRate accountConfig = Some (clampInteractionRate rawRate) ->
  let draw := random_at o (randomCalls s) in
  let responds := (shouldAccountRespond message accountConfig false false o s).1 in
  (draw < 0.0025 -> responds = true)
  /\ (0.8 <= draw -> responds = false).
Proof.
  intros Hrate draw responds. subst responds.
  rewrite (shouldAccountRespond_unified message accountConfig _ o s Hrate).
  fold draw.
  pose proof (clampInteractionRate_range rawRate) as Hrange.
  set (rate := clampInteractionRate rawRate) in *.
  split.
  - intros Hdraw. apply Qltb_lt. eapply Qlt_le_trans; [exact Hdraw |].
    eapply Qle_trans;
      [| apply (accountResponseChance_mono_rate (content message) 1 rate); lia].
    eapply Qle_trans;
      [| apply (accountResponseChance_ge_plain (content message) 1); lia].
    Qeval.
  - intros Hdraw. unfold Qltb. apply negb_false_iff. apply Qle_bool_iff.
    eapply Qle_trans; [apply accountResponseChance_le_cap | exact Hdraw].
Qed.

Lemma configured_rate_response_window_witness :
  (shouldAccountRespond (messageIn guildChannel "hello") mediaBot false false
     (steadyOracle 0.9 0 None) emptyState).1 = false.
Proof.
  destruct (configured_rate_response_window (messageIn guildChannel "hello")
              mediaBot 50 (steadyOracle 0.9 0 None) emptyState eq_refl)
    as [_ Hhigh].
  apply Hhigh. Qeval.
Defined.

(** X7.  On the legacy path the probability compared with the random draw
    lies between 0.025 and 0.702 for every configuration and text, and the
    cap of 0.5 never changes it: the tiers stay at or below 0.45. *)
Theorem legacy_chance_range (userConfig : AccountConfig) (text : string) :
  0.025 <= legacyResponseChance userConfig text
  /\ legacyResponseChance userConfig text <= 0.702
  /\ legacyResponseChance userConfig text
     == legacyTierChance userConfig
        * (if isLongText text then 1.2 else 1)
        * (if containsLegacyEmotionsText text then 1.3 else 1).
Proof.
  unfold legacyResponseChance, legacyTierChance.
  destruct (messageFrequency userConfig) as [[] |],
           (messageBehavior userConfig) as [[] |],
           (isLongText text), (containsLegacyEmotionsText text);
    (split; [Qeval | split; Qeval]).
Qed.

Close Scope Q_scope.

(* ===================================================================== *)
(** ** Further properties of the timing model *)
(* ===================================================================== *)

Ltac range_cases :=
  unfold delayRange;
  repeat match goal with
         | |- context [Qltb ?a ?b] => destruct (Qltb a b)
         end.

(** Every delay range has a lower bound of at least 2 s, an upper bound of
    at most 900 s, and is not empty. *)
Lemma delayRange_wellformed (timeSinceLastMs : Z) (isDM isUrgent : bool) :
  2 <= (delayRange timeSinceLastMs isDM isUrgent).1
  /\ (delayRange timeSinceLastMs isDM isUrgent).1
     <= (delayRange timeSinceLastMs isDM isUrgent).2
  /\ (delayRange timeSinceLastMs isDM isUrgent).2 <= 900.
Proof.
  range_cases; destruct isDM, isUrgent; vm_compute; repeat split; discriminate.
Qed.

(** A draw from the unit interval scaled to [n] values falls on one of
    them. *)
Lemma scaled_draw_range (r : Q) (n : Z) :
  (0 <= r)%Q -> (r < 1)%Q -> 1 <= n ->
  0 <= Math_floor (r * inject_Z n)%Q <= n - 1.
Proof.
  intros H0 H1 Hn. unfold Math_floor.
  assert (Hq : (1 <= inject_Z n)%Q)
    by (change 1%Q with (inject_Z 1); rewrite <- Zle_Qle; lia).
  split.
  - rewrite <- (Qfloor_Z 0). apply Qfloor_resp_le.
    change (inject_Z 0) with 0%Q. nra.
  - pose proof (Qfloor_le (r * inject_Z n)) as Hfl.
    assert (Hlt : (inject_Z (Qfloor (r * inject_Z n)) < inject_Z n)%Q)
      by (eapply Qle_lt_trans; [exact Hfl | nra]).
    rewrite <- Zlt_Qlt in Hlt. lia.
Qed.

(** The lower bound for a direct message after two hours or more:
    [180 * 0.7] is 125.99999999999999 in doubles. *)
Example delayRange_long_gap_direct :
  delayRange (3 * 60 * 60 * 1000) true false = (125, 720).
Proof. vm_compute. reflexivity. Qed.


(** X9.  A direct message or an urgent message never widens the range: both
    bounds are at most those of the same elapsed time without the flag. *)
Theorem direct_and_urgent_are_not_slower (timeSinceLastMs : Z) (isDM isUrgent : bool) :
  let plain := delayRange timeSinceLastMs false false in
  let range := delayRange timeSinceLastMs isDM isUrgent in
  range.1 <= plain.1 /\ range.2 <= plain.2
  /\ (delayRange timeSinceLastMs true isUrgent).1
     <= (delayRange timeSinceLastMs false isUrgent).1
  /\ (delayRange timeSinceLastMs true isUrgent).2
     <= (delayRange timeSinceLastMs false isUrgent).2
  /\ (delayRange timeSinceLastMs isDM true).1
     <= (delayRange timeSinceLastMs isDM false).1
  /\ (delayRange timeSinceLastMs isDM true).2
     <= (delayRange timeSinceLastMs isDM false).2.
Proof.
  range_cases; destruct isDM, isUrgent; vm_compute; repeat split; discriminate.
Qed.

(** The comparison of the elapsed minutes with a whole number of minutes. *)
Lemma minutes_lt (ms k : Z) :
  Qltb (inject_Z ms / inject_Z (60 * 1000))%Q (inject_Z k) = (ms <? 60000 * k).
Proof.
  unfold Qltb, Qle_bool, Qdiv, Qmult, Qinv, inject_Z. simpl.
  change (Z.pos (1 * (60 * 1000))) with 60000.
  destruct (Z.leb_spec (k * 60000) (ms * 1 * 1)), (Z.ltb_spec ms (60000 * k));
    simpl; try reflexivity; lia.
Qed.

(** X10.  The longer the time since the last interaction, the later the
    range: both bounds are non-decreasing in the elapsed time. *)
Theorem delay_range_grows_with_elapsed_time (t1 t2 : Z) (isDM isUrgent : bool) :
  t1 <= t2 ->
  (delayRange t1 isDM isUrgent).1 <= (delayRange t2 isDM isUrgent).1
  /\ (delayRange t1 isDM isUrgent).2 <= (delayRange t2 isDM isUrgent).2.
Proof.
  intros Hle. unfold delayRange.
  change 1%Q with (inject_Z 1). change 10%Q with (inject_Z 10).
  change 30%Q with (inject_Z 30). change 120%Q with (inject_Z 120).
  rewrite !minutes_lt.
  repeat match goal with
         | |- context [(?a <? ?b)] => destruct (Z.ltb_spec a b)
         end; try lia;
    destruct isDM, isUrgent; vm_compute; split; discriminate.
Qed.

Lemma delay_range_grows_with_elapsed_time_witness :
  (delayRange 45000 true false).2 <= (delayRange 7200000 true false).2.
Proof.
  refine (proj2 (delay_range_grows_with_elapsed_time 45000 7200000 true false _)).
  lia.
Defined.

(** X11.  With draws in the unit interval the typing indicator is due
    between 20% and 60% of the way through a delay that is not negative
    (rounded down to a millisecond), so never after the reply. *)
Theorem typing_offset_within_delay (totalDelayMs : Z) (o : Oracle) (s : State) :
  unitDraws o -> 0 <= totalDelayMs ->
  let typing := (calculateTypingDelay totalDelayMs o s).1 in
  0 <= typing <= totalDelayMs
  /\ totalDelayMs <= 5 * typing + 4
  /\ 5 * typing <= 3 * totalDelayMs.
Proof.
  intros Hdraws Htotal typing.
  pose proof (calculateTypingDelay_bounds totalDelayMs o s Hdraws Htotal) as H.
  cbv zeta in H. fold typing in H. lia.
Qed.

Lemma typing_offset_within_delay_witness :
  0 <= (calculateTypingDelay 23000 (steadyOracle 0.9 0 None) emptyState).1 <= 23000.
Proof.
  refine (proj1 (typing_offset_within_delay 23000 (steadyOracle 0.9 0 None)
                   emptyState (steadyOracle_unitDraws 0 None) _)).
  lia.
Defined.

(** X12.  The first time an account is about to answer an author on a
    channel (no entry for the three of them in the interaction ledger), and
    without the debug override, the elapsed time counts as 30 s: the delay
    is at most 25 s, so the handler takes the normal timing flow and never
    the ten-second bypass; the ledger and the clock are not touched. *)
Theorem first_contact_takes_normal_flow (message : Message)
    (accountConfig : AccountConfig) (isDM isUrgent canType : bool)
    (o : Oracle) (s : State) :
  unitDraws o ->
  lastInteractionTimes s
    !! getInteractionKey (channel_id (channel message)) (author_id message)
         (id accountConfig) = None ->
  instantResponse (checkDebugCheats (content message)) = false ->
  let waited := awaitResponseDelay message accountConfig isDM isUrgent canType o s in
  let responseDelayMs := (calculateRealisticDelay 30000 isDM isUrgent o s).1 in
  responseDelayMs <= 25000
  /\ (exists typingDelayMs,
        waited.1 = [ScheduleTyping typingDelayMs; Sleep responseDelayMs])
  /\ clockCalls waited.2 = clockCalls s
  /\ lastInteractionTimes waited.2 = lastInteractionTimes s.
Proof.
  intros Hdraws Hnone Hinstant waited responseDelayMs.
  assert (Hdelay : responseDelayMs <= 25000).
  { subst responseDelayMs. unfold calculateRealisticDelay.
    pose proof (delayRange_wellformed 30000 isDM isUrgent) as (Hlo & Hle & _).
    assert (Hhi : (delayRange 30000 isDM isUrgent).2 <= 25)
      by (destruct isDM, isUrgent; vm_compute; discriminate).
    destruct (delayRange 30000 isDM isUrgent) as [minDelay maxDelay].
    cbn [fst snd] in *.
    cbv beta iota zeta delta [bind Math_random ret fst].
    destruct (Hdraws (randomCalls s)) as [H0 H1].
    pose proof (scaled_draw_range (random_at o (randomCalls s))
                  (maxDelay - minDelay + 1) H0 H1 ltac:(lia)) as Hdraw.
    unfold MIN_RESPONSE_DELAY_MS. lia. }
  split; [exact Hdelay |].
  subst waited.
  rewrite awaitResponseDelay_unfold by exact Hinstant.
  assert (Helapsed :
            timeSinceLastInteraction
              (getInteractionKey (channel_id (channel message)) (author_id message)
                 (id accountConfig)) o s = (30000, s)).
  { unfold timeSinceLastInteraction, bind, gets. now rewrite Hnone. }
  rewrite Helapsed. cbn [fst snd]. fold responseDelayMs.
  rewrite waitBeforeReply_normal by lia. cbn [fst snd].
  split; [eauto |].
  unfold calculateRealisticDelay, calculateTypingDelay.
  destruct (delayRange 30000 isDM isUrgent). split; reflexivity.
Qed.

(* ===================================================================== *)
(** ** Properties of the text tests *)
(* ===================================================================== *)

Lemma prefix_empty (hay : string) : String.prefix "" hay = true.
Proof. now destruct hay. Qed.

Lemma prefix_app (needle hay rest : string) :
  String.prefix needle hay = true -> String.prefix needle (hay +:+ rest) = true.
Proof.
  revert hay. induction needle as [| c needle IH]; intros hay H;
    [apply prefix_empty |].
  destruct hay as [| d hay]; [discriminate H |].
  change (String d hay +:+ rest) with (String d (hay +:+ rest)).
  simpl in *. destruct (Ascii.ascii_dec c d); [now apply IH | discriminate H].
Qed.

Lemma includes_app_r (needle hay rest : string) :
  includes needle hay = true -> includes needle (hay +:+ rest) = true.
Proof.
  induction hay as [| d hay IH]; intros H.
  - simpl in H. rewrite orb_false_r in H.
    destruct needle; [| discriminate H].
    change ("" +:+ rest) with rest. destruct rest; simpl; reflexivity.
  - change (String d hay +:+ rest) with (String d (hay +:+ rest)).
    cbn [includes] in H |- *. apply orb_true_iff in H as [H | H];
      apply orb_true_iff; [left | right].
    + now apply (prefix_app needle (String d hay) rest).
    + now apply IH.
Qed.

Lemma includes_app_l (needle front hay : string) :
  includes needle hay = true -> includes needle (front +:+ hay) = true.
Proof.
  intros H. induction front as [| d front IH]; [exact H |].
  change (String d front +:+ hay) with (String d (front +:+ hay)).
  cbn [includes]. apply orb_true_iff. now right.
Qed.

Lemma toLowerCase_app (a b : string) :
  toLowerCase (a +:+ b) = toLowerCase a +:+ toLowerCase b.
Proof.
  induction a as [| c a IH]; [reflexivity |].
  change (String c a +:+ b) with (String c (a +:+ b)). simpl. now rewrite IH.
Qed.

Lemma regex_test_embedded (alternatives : list string) (front text rest : string) :
  regex_test alternatives text = true ->
  regex_test alternatives (front +:+ text +:+ rest) = true.
Proof.
  unfold regex_test. rewrite !existsb_exists.
  intros (a & Hin & Ha). exists a. split; [exact Hin |].
  apply includes_app_l. now apply includes_app_r.
Qed.

Lemma regex_test_i_embedded (alternatives : list string) (front text rest : string) :
  regex_test_i alternatives text = true ->
  regex_test_i alternatives (front +:+ text +:+ rest) = true.
Proof.
  unfold regex_test_i. rewrite !toLowerCase_app. apply regex_test_embedded.
Qed.

(** X13.  The text tests look for substrings: a text that contains, anywhere
    inside it, a text that is urgent, a question, emotional or carries a
    debug code, is itself urgent, a question, emotional or carries that
    code. *)
Theorem text_signals_survive_embedding (front text rest : string) (isMentioned : bool) :
  let embedded := front +:+ text +:+ rest in
  (isMessageUrgent text isMentioned = true ->
   isMessageUrgent embedded isMentioned = true)
  /\ (isQuestionText text = true -> isQuestionText embedded = true)
  /\ (containsEmotionsText text = true -> containsEmotionsText embedded = true)
  /\ (instantResponse (checkDebugCheats text) = true ->
      instantResponse (checkDebugCheats embedded) = true)
  /\ (forceImage (checkDebugCheats text) = true ->
      forceImage (checkDebugCheats embedded) = true).
Proof.
  intros embedded. subst embedded. repeat split.
  - unfold isMessageUrgent. destruct isMentioned; [reflexivity |].
    rewrite !orb_true_iff. intros [H | H]; [left | right].
    + now apply regex_test_embedded.
    + now apply regex_test_i_embedded.
  - apply regex_test_embedded.
  - apply regex_test_i_embedded.
  - simpl. intros H. apply includes_app_l. now apply includes_app_r.
  - simpl. intros H. apply includes_app_l. now apply includes_app_r.
Qed.

Lemma text_signals_survive_embedding_witness :
  isMessageUrgent "That was HELPful, thanks" false = true.
Proof.
  exact (proj1 (text_signals_survive_embedding "That was " "HELP" "ful, thanks" false)
           eq_refl).
Defined.

(* ===================================================================== *)
(** ** Properties of the interaction ledger *)
(* ===================================================================== *)

Lemma updateLastInteractionTime_ledger (channelId userId botId : string)
    (o : Oracle) (s : State) :
  let key := getInteractionKey channelId userId botId in
  let now := now_at o (clockCalls s) in
  lastInteractionTimes (updateLastInteractionTime channelId userId botId o s).2
  = if (INTERACTION_TRACKING_CLEANUP_THRESHOLD
        <? sizeWith key (lastInteractionTimes s))%nat
    then filter (fun kv => ¬ kv.2 < now - INTERACTION_TRACKING_RETENTION_MS)
           (<[key := now]> (lastInteractionTimes s))
    else <[key := now]> (lastInteractionTimes s).
Proof.
  intros key now.
  unfold updateLastInteractionTime, bind, gets, modify, Date_now, ret.
  fold key now. simpl. rewrite size_insert_sizeWith.
  destruct (_ <? _)%nat; reflexivity.
Qed.

(** The entry just written survives the sweep. *)
Lemma ledger_entry_written (channelId userId botId : string)
    (o : Oracle) (s : State) :
  lastInteractionTimes (updateLastInteractionTime channelId userId botId o s).2
    !! getInteractionKey channelId userId botId
  = Some (now_at o (clockCalls s)).
Proof.
  rewrite updateLastInteractionTime_ledger. cbv zeta. destruct (_ <? _)%nat.
  - apply map_lookup_filter_Some. split; [apply lookup_insert_eq |].
    simpl. unfold INTERACTION_TRACKING_RETENTION_MS. lia.
  - apply lookup_insert_eq.
Qed.

(** X14.  After [updateLastInteractionTime] the ledger holds the time of
    the call for the key of the three ids, so that the next timing measures
    the elapsed time from it; any other entry is kept as it was unless the
    ledger (with the key in it) holds more than 1000 entries, in which case
    it is kept only if it is at most 24 hours old. *)
Theorem ledger_records_last_interaction (channelId userId botId : string)
    (o : Oracle) (s : State) :
  let key := getInteractionKey channelId userId botId in
  let now := now_at o (clockCalls s) in
  let s' := (updateLastInteractionTime channelId userId botId o s).2 in
  lastInteractionTimes s' !! key = Some now
  /\ (now <> 0 ->
      (timeSinceLastInteraction key o s').1 = now_at o (S (clockCalls s)) - now)
  /\ forall other t,
       other <> key ->
       (lastInteractionTimes s' !! other = Some t
        <-> lastInteractionTimes s !! other = Some t
            /\ ((INTERACTION_TRACKING_CLEANUP_THRESHOLD
                 < sizeWith key (lastInteractionTimes s))%nat ->
                now - INTERACTION_TRACKING_RETENTION_MS <= t)).
Proof.
  intros key now s'.
  pose proof (updateLastInteractionTime_ledger channelId userId botId o s)
    as Hledger.
  cbv zeta in Hledger. fold key now s' in Hledger.
  assert (Hclock : clockCalls s' = S (clockCalls s)).
  { subst s'. unfold updateLastInteractionTime, bind, gets, modify, Date_now, ret.
    simpl. rewrite size_insert_sizeWith.
    destruct (_ <? sizeWith _ _)%nat; reflexivity. }
  pose proof (ledger_entry_written channelId userId botId o s) as Hkey.
  fold key now s' in Hkey.
  split; [exact Hkey |]. split.
  - intros Hnow. unfold timeSinceLastInteraction, bind, gets. rewrite Hkey.
    destruct (Z.eqb_spec now 0); [congruence |].
    unfold Date_now, ret. simpl. now rewrite Hclock.
  - intros other t Hother. rewrite Hledger.
    destruct (Nat.ltb_spec INTERACTION_TRACKING_CLEANUP_THRESHOLD
                (sizeWith key (lastInteractionTimes s))).
    + rewrite map_lookup_filter_Some, lookup_insert_ne by congruence. simpl.
      split; intros [H1 H2]; (split; [exact H1 |]).
      * intros _. lia.
      * specialize (H2 ltac:(lia)). lia.
    + rewrite lookup_insert_ne by congruence. split; [| tauto].
      intros H1. split; [exact H1 | lia].
Qed.

Lemma includes_head (c : ascii) (rest : string) :
  includes (String c "") (String c rest) = true.
Proof.
  cbn [includes String.prefix]. destruct (ascii_dec c c); [| congruence].
  now rewrite prefix_empty.
Qed.

Lemma colon_free_split (a b x y : string) :
  includes ":" a = false -> includes ":" b = false ->
  a +:+ ":" +:+ x = b +:+ ":" +:+ y -> a = b /\ x = y.
Proof.
  revert b. induction a as [| c a IH]; intros b Ha Hb Heq.
  - destruct b as [| d b].
    + change ("" +:+ ":" +:+ x) with (String ":" x) in Heq.
      change ("" +:+ ":" +:+ y) with (String ":" y) in Heq.
      injection Heq as ->. auto.
    + change ("" +:+ ":" +:+ x) with (String ":" x) in Heq.
      change (String d b +:+ ":" +:+ y) with (String d (b +:+ ":" +:+ y)) in Heq.
      injection Heq as <- _. now rewrite includes_head in Hb.
  - destruct b as [| d b].
    + change (String c a +:+ ":" +:+ x) with (String c (a +:+ ":" +:+ x)) in Heq.
      change ("" +:+ ":" +:+ y) with (String ":" y) in Heq.
      injection Heq as -> _. now rewrite includes_head in Ha.
    + change (String c a +:+ ":" +:+ x) with (String c (a +:+ ":" +:+ x)) in Heq.
      change (String d b +:+ ":" +:+ y) with (String d (b +:+ ":" +:+ y)) in Heq.
      injection Heq as -> Heq.
      cbn [includes] in Ha, Hb.
      apply orb_false_iff in Ha as [_ Ha]. apply orb_false_iff in Hb as [_ Hb].
      destruct (IH b Ha Hb Heq) as [-> ->]. auto.
Qed.

(** X15.  Two interaction keys are equal only for the same channel, author
    and account, as long as the channel ids and the author ids contain no
    colon (Discord ids are digits): ledger entries of different triples
    never collide. *)
Theorem interaction_keys_do_not_collide (c1 u1 b1 c2 u2 b2 : string) :
  includes ":" c1 = false -> includes ":" c2 = false ->
  includes ":" u1 = false -> includes ":" u2 = false ->
  getInteractionKey c1 u1 b1 = getInteractionKey c2 u2 b2 ->
  c1 = c2 /\ u1 = u2 /\ b1 = b2.
Proof.
  intros Hc1 Hc2 Hu1 Hu2 Hkey. unfold getInteractionKey in Hkey.
  destruct (colon_free_split c1 c2 _ _ Hc1 Hc2 Hkey) as [-> Hrest].
  destruct (colon_free_split u1 u2 _ _ Hu1 Hu2 Hrest) as [-> ->]. auto.
Qed.

Lemma interaction_keys_do_not_collide_witness :
  "42" = "42" /\ "alice" = "alice" /\ "bot1" = "bot1".
Proof.
  exact (interaction_keys_do_not_collide "42" "alice" "bot1" "42" "alice" "bot1"
           eq_refl eq_refl eq_refl eq_refl eq_refl).
Defined.

(** Without the condition the keys can collide. *)
Example interaction_keys_with_colons :
  getInteractionKey "1:2" "3" "bot1" = getInteractionKey "1" "2:3" "bot1".
Proof. reflexivity. Qed.

(* ===================================================================== *)
(** ** Further properties of the media cadence *)
(* ===================================================================== *)

Lemma attachDecisions_S (n : nat) (channelId : string)
    (accountConfig : AccountConfig) (o : Oracle) (s : State) :
  let first := shouldAttachRedditImage channelId accountConfig false o s in
  let rest := attachDecisions n channelId accountConfig o first.2 in
  attachDecisions (S n) channelId accountConfig o s = (first.1 :: rest.1, rest.2).
Proof.
  cbn [attachDecisions]. unfold bind, ret.
  destruct (shouldAttachRedditImage channelId accountConfig false o s) as [a s1].
  cbn [fst snd]. destruct (attachDecisions n channelId accountConfig o s1).
  reflexivity.
Qed.

(** From a tracker with count [c] and target [t], the attachment comes with
    the message that brings the count to the target: the next
    [max 1 (t - c)]-th one. *)
Lemma attachDecisions_countdown (k : nat) (channelId : string)
    (accountConfig : AccountConfig) (config : RedditImageConfig) (o : Oracle) :
  unitDraws o -> countsBounded config ->
  minMessages config <= maxMessages config ->
  activeRedditConfig accountConfig = Some config ->
  forall (tracker : ChannelMessageTracker) (s : State),
    channelMessageTrackers s !! channelId = Some tracker ->
    Z.max 1 (targetMessageCount tracker - messageCount tracker) = Z.of_nat (S k) ->
    let run := attachDecisions (S k) channelId accountConfig o s in
    run.1 = replicate k false ++ [true]
    /\ exists target,
         minMessages config <= target <= maxMessages config + 1
         /\ channelMessageTrackers run.2 !! channelId
            = Some {| messageCount := 0; targetMessageCount := target;
                      lastImageTime := now_at o (k + clockCalls s) |}.
Proof.
  intros Hdraws Hbounded Hle Hconfig.
  induction k as [| k IH]; intros tracker s Hsome Hleft run;
    subst run; rewrite attachDecisions_S; cbv zeta;
    destruct (shouldAttachRedditImage_next channelId accountConfig config tracker o s
                Hconfig Hsome) as [Hclock Hnext]; cbv zeta in Hnext.
  - destruct (Z.leb_spec (targetMessageCount tracker) (messageCount tracker + 1));
      [| lia].
    destruct Hnext as (-> & Htracker & _). cbn [attachDecisions ret fst snd].
    split; [reflexivity |]. eexists. split; [| exact Htracker].
    now apply rollTargetCount_range.
  - destruct (Z.leb_spec (targetMessageCount tracker) (messageCount tracker + 1));
      [lia |].
    destruct Hnext as (-> & Htracker & _).
    destruct (IH _ _ Htracker) as (Hrun & target & Hrange & Hlast).
    { cbn [messageCount targetMessageCount]. lia. }
    split; [cbn [fst]; rewrite Hrun; reflexivity |].
    exists target. split; [exact Hrange |]. cbn [snd]. rewrite Hlast, Hclock.
    do 3 f_equal. lia.
Qed.

(** X16.  With draws in [0,1) and bounds [1 <= minMessages <= maxMessages]
    of at most [2^31]: after a message that gets an attachment, the next
    attachment comes with the [target]-th following message of the channel
    and with none before, for a [target] between [minMessages] and
    [maxMessages + 1] (the sum inside [Math.floor] can round up to one more
    than the upper bound). *)
Theorem attachments_are_target_messages_apart (channelId : string)
    (accountConfig : AccountConfig) (config : RedditImageConfig)
    (o : Oracle) (s : State) :
  unitDraws o ->
  countsBounded config ->
  1 <= minMessages config <= maxMessages config ->
  activeRedditConfig accountConfig = Some config ->
  let first := shouldAttachRedditImage channelId accountConfig false o s in
  first.1 = true ->
  exists target,
    minMessages config <= target <= maxMessages config + 1
    /\ (attachDecisions (Z.to_nat target) channelId accountConfig o first.2).1
       = replicate (Z.to_nat target - 1) false ++ [true].
Proof.
  intros Hdraws Hbounded Hbounds Hconfig first Hattach.
  destruct (channelMessageTrackers s !! channelId) as [tracker |] eqn:Hentry.
  2: { destruct (shouldAttachRedditImage_first channelId accountConfig config o s
                   Hconfig Hentry) as [Hfalse _].
       fold first in Hfalse. congruence. }
  destruct (shouldAttachRedditImage_next channelId accountConfig config tracker o s
              Hconfig Hentry) as [_ Hnext].
  cbv zeta in Hnext. fold first in Hnext.
  destruct (targetMessageCount tracker <=? messageCount tracker + 1).
  2: { destruct Hnext as [Hfalse _]. congruence. }
  destruct Hnext as (_ & Htracker & _).
  set (target := (rollTargetCount config o (Date_now o s).2).1) in *.
  assert (Hrange : minMessages config <= target <= maxMessages config + 1)
    by (apply rollTargetCount_range; [exact Hdraws | exact Hbounded | lia]).
  exists target. split; [exact Hrange |].
  destruct (attachDecisions_countdown (Z.to_nat target - 1) channelId accountConfig
              config o Hdraws Hbounded ltac:(lia) Hconfig _ _ Htracker) as [Hrun _].
  { cbn [messageCount targetMessageCount]. lia. }
  replace (S (Z.to_nat target - 1)) with (Z.to_nat target) in Hrun by lia.
  exact Hrun.
Qed.

(** X17.  On a channel without tracker the first message never gets an
    attachment: the first attachment comes with message number [target], or
    with the second message when [target] is 1, for a [target] between
    [minMessages] and [maxMessages + 1]. *)
Theorem first_attachment_on_new_channel (channelId : string)
    (accountConfig : AccountConfig) (config : RedditImageConfig)
    (o : Oracle) (s : State) :
  unitDraws o ->
  countsBounded config ->
  1 <= minMessages config <= maxMessages config ->
  activeRedditConfig accountConfig = Some config ->
  channelMessageTrackers s !! channelId = None ->
  exists target,
    minMessages config <= target <= maxMessages config + 1
    /\ (attachDecisions (Z.to_nat (Z.max 2 target)) channelId accountConfig o s).1
       = replicate (Z.to_nat (Z.max 2 target) - 1) false ++ [true].
Proof.
  intros Hdraws Hbounded Hbounds Hconfig Hnone.
  destruct (shouldAttachRedditImage_first channelId accountConfig config o s
              Hconfig Hnone) as (Hfirst & Htracker & _).
  set (target := (rollTargetCount config o (Date_now o s).2).1) in *.
  assert (Hrange : minMessages config <= target <= maxMessages config + 1)
    by (apply rollTargetCount_range; [exact Hdraws | exact Hbounded | lia]).
  exists target. split; [exact Hrange |].
  replace (Z.to_nat (Z.max 2 target)) with (S (S (Z.to_nat (Z.max 2 target) - 2)))
    at 1 by lia.
  rewrite attachDecisions_S. cbv zeta. cbn [fst]. rewrite Hfirst.
  destruct (attachDecisions_countdown (Z.to_nat (Z.max 2 target) - 2) channelId
              accountConfig config o Hdraws Hbounded ltac:(lia) Hconfig _ _ Htracker)
    as [Hrun _].
  { cbn [messageCount targetMessageCount]. lia. }
  rewrite Hrun.
  replace (Z.to_nat (Z.max 2 target) - 1)%nat
    with (S (Z.to_nat (Z.max 2 target) - 2)) by lia.
  reflexivity.
Qed.

Ltac stale_cases :=
  unfold staleTracker;
  repeat match goal with
         | |- context [?a <? ?b] => destruct (Z.ltb_spec a b)
         end;
  cbn; solve [reflexivity | discriminate | lia].

(** X18.  The sweep that a first message on a channel may start (more than
    1000 trackers) deletes a tracker exactly when its last attachment is
    more than 30 days old, together with the image list of its channel;
    trackers that never led to an attachment, every other image list and
    the list of the calling channel are kept. *)
Theorem tracker_sweep_takes_image_list_along (channelId : string)
    (accountConfig : AccountConfig) (config : RedditImageConfig)
    (o : Oracle) (s : State) :
  activeRedditConfig accountConfig = Some config ->
  channelMessageTrackers s !! channelId = None ->
  let now := now_at o (clockCalls s) in
  let s' := (shouldAttachRedditImage channelId accountConfig false o s).2 in
  let swept (k : string) : Prop :=
    (1000 < S (size (channelMessageTrackers s)))%nat
    /\ exists tracker,
         channelMessageTrackers s !! k = Some tracker
         /\ 0 < lastImageTime tracker < now - 30 * 24 * 60 * 60 * 1000 in
  recentlySentRedditImagesByChannel s' !! channelId
  = recentlySentRedditImagesByChannel s !! channelId
  /\ forall k, k <> channelId ->
       (swept k ->
        channelMessageTrackers s' !! k = None
        /\ recentlySentRedditImagesByChannel s' !! k = None)
       /\ (~ swept k ->
           channelMessageTrackers s' !! k = channelMessageTrackers s !! k
           /\ recentlySentRedditImagesByChannel s' !! k
              = recentlySentRedditImagesByChannel s !! k).
Proof.
  intros Hconfig Hnone now s' swept. subst s'.
  unfold shouldAttachRedditImage. rewrite Hconfig.
  unfold bind, gets, modify, ret, Date_now, rollTargetCount, Math_random. simpl.
  rewrite Hnone. simpl.
  rewrite map_size_insert_None by exact Hnone.
  destruct (Nat.ltb_spec 1000 (S (size (channelMessageTrackers s)))) as [Hbig | Hsmall].
  2: { cbn. split; [reflexivity |]. intros k Hk. split.
       - intros [Habs _]. lia.
       - intros _. now rewrite lookup_insert_ne by congruence. }
  cbn. fold now. split.
  - apply option_eq. intros ids. rewrite map_lookup_filter_Some.
    cbn. rewrite lookup_insert_eq. cbn. tauto.
  - intros k Hk. split.
    + intros (_ & tracker & Htracker & Hold). split.
      * apply map_lookup_filter_None. right. intros tracker'.
        rewrite lookup_insert_ne by congruence. intros Heq.
        rewrite Htracker in Heq. injection Heq as <-. cbn. stale_cases.
      * apply map_lookup_filter_None. right. intros ids _. cbn.
        rewrite lookup_insert_ne by congruence. rewrite Htracker. stale_cases.
    + intros Hkept.
      assert (Hfresh : forall tracker, channelMessageTrackers s !! k = Some tracker ->
                ~ 0 < lastImageTime tracker < now - 30 * 24 * 60 * 60 * 1000).
      { intros tracker Htracker Hold. apply Hkept. split; [exact Hbig |].
        now exists tracker. }
      split; apply option_eq; intros v; rewrite map_lookup_filter_Some; cbn;
        rewrite lookup_insert_ne by congruence.
      * split; [tauto |]. intros Hv. split; [exact Hv |].
        specialize (Hfresh v Hv). stale_cases.
      * split; [tauto |]. intros Hv. split; [exact Hv |].
        destruct (channelMessageTrackers s !! k) as [tracker |] eqn:Htracker;
          [| reflexivity].
        specialize (Hfresh tracker eq_refl). stale_cases.
Qed.

(* ===================================================================== *)
(** ** Further properties of the recency cache *)
(* ===================================================================== *)

Lemma afterFetches_0 (s : State) : afterFetches 0 s = s.
Proof. destruct s; reflexivity. Qed.

Lemma fetchUnseenLoop_S (attempts : nat) (config : RedditImageConfig)
    (channelId : string) (recentlySentIds : list string) (o : Oracle) (s : State) :
  fetchUnseenLoop (S attempts) config channelId recentlySentIds o s
  = match reddit_at o (redditCalls s) with
    | Some image =>
        if bool_decide (image_id image ∈ recentlySentIds) then
          fetchUnseenLoop attempts config channelId recentlySentIds o
            (afterFetches 1 s)
        else
          (Some image,
           set_recentlySentRedditImagesByChannel
             (<[channelId := take RECENTLY_SENT_IMAGE_CACHE_SIZE
                               (image_id image :: recentlySentIds)]>)
             (afterFetches 1 s))
    | None =>
        fetchUnseenLoop attempts config channelId recentlySentIds o
          (afterFetches 1 s)
    end.
Proof.
  cbn [fetchUnseenLoop]. unfold bind at 1. unfold getRandomRedditImage.
  destruct (reddit_at o (redditCalls s)) as [image |]; [| reflexivity].
  destruct (bool_decide (image_id image ∈ recentlySentIds)); reflexivity.
Qed.

(** One run of the loop: after [n] rejected fetches it either returns the
    image of fetch [n], which is not in the list and is put in front of it,
    or it has used up its attempts and changed nothing. *)
Lemma fetchUnseenLoop_run (attempts : nat) (config : RedditImageConfig)
    (channelId : string) (recentlySentIds : list string) (o : Oracle) :
  forall s : State,
    let run := fetchUnseenLoop attempts config channelId recentlySentIds o s in
    exists n,
      (forall i, (i < n)%nat -> rejectedFetch o recentlySentIds (i + redditCalls s))
      /\ match run.1 with
         | Some image =>
             (n < attempts)%nat
             /\ reddit_at o (n + redditCalls s) = Some image
             /\ (image_id image ∉ recentlySentIds)
             /\ run.2
                = set_recentlySentRedditImagesByChannel
                    (<[channelId := take RECENTLY_SENT_IMAGE_CACHE_SIZE
                                      (image_id image :: recentlySentIds)]>)
                    (afterFetches (S n) s)
         | None => n = attempts /\ run.2 = afterFetches attempts s
         end.
Proof.
  induction attempts as [| a IH]; intros s run; subst run.
  - exists 0%nat. split; [intros i Hi; lia |]. cbn. now rewrite afterFetches_0.
  - rewrite fetchUnseenLoop_S.
    assert (Hretry :
              rejectedFetch o recentlySentIds (redditCalls s) ->
              let run :=
                fetchUnseenLoop a config channelId recentlySentIds o
                  (afterFetches 1 s) in
              exists n,
                (forall i, (i < n)%nat ->
                   rejectedFetch o recentlySentIds (i + redditCalls s))
                /\ match run.1 with
                   | Some image =>
                       (n < S a)%nat
                       /\ reddit_at o (n + redditCalls s) = Some image
                       /\ (image_id image ∉ recentlySentIds)
                       /\ run.2
                          = set_recentlySentRedditImagesByChannel
                              (<[channelId := take RECENTLY_SENT_IMAGE_CACHE_SIZE
                                                (image_id image :: recentlySentIds)]>)
                              (afterFetches (S n) s)
                   | None => n = S a /\ run.2 = afterFetches (S a) s
                   end).
    { intros Hrejected run. subst run.
      destruct (IH (afterFetches 1 s)) as (n & Hbefore & Hrun).
      exists (S n). split.
      - intros [| i] Hi; [exact Hrejected |].
        specialize (Hbefore i ltac:(lia)). cbn [redditCalls afterFetches] in Hbefore.
        now replace (S i + redditCalls s)%nat
          with (i + (1 + redditCalls s))%nat by lia.
      - cbv zeta in Hrun.
        destruct (fetchUnseenLoop a config channelId recentlySentIds o
                    (afterFetches 1 s)).1 as [image |].
        + destruct Hrun as (Hlt & Himage & Hnew & Hstate).
          cbn [redditCalls afterFetches] in Himage.
          replace (n + (1 + redditCalls s))%nat with (S n + redditCalls s)%nat
            in Himage by lia.
          repeat split; [lia | exact Himage | exact Hnew |].
          rewrite Hstate. unfold afterFetches, set_recentlySentRedditImagesByChannel.
          cbn. do 2 f_equal. lia.
        + destruct Hrun as [-> Hstate]. split; [reflexivity |].
          rewrite Hstate. unfold afterFetches. cbn. f_equal. lia. }
    destruct (reddit_at o (redditCalls s)) as [image |] eqn:Hfetch.
    + destruct (decide (image_id image ∈ recentlySentIds)) as [Hin | Hnew].
      * rewrite bool_decide_eq_true_2 by exact Hin.
        apply Hretry. unfold rejectedFetch. now rewrite Hfetch.
      * rewrite bool_decide_eq_false_2 by exact Hnew.
        exists 0%nat. split; [intros i Hi; lia |]. cbn [fst snd].
        repeat split; [lia | exact Hfetch | exact Hnew].
    + apply Hretry. unfold rejectedFetch. now rewrite Hfetch.
Qed.

Lemma getUnseenRandomRedditImage_unfold (accountConfig : AccountConfig)
    (config : RedditImageConfig) (channelId : string) (o : Oracle) (s : State) :
  activeRedditConfig accountConfig = Some config ->
  let recentlySentIds :=
    default [] (recentlySentRedditImagesByChannel s !! channelId) in
  let loop :=
    fetchUnseenLoop MAX_UNIQUE_IMAGE_FETCH_ATTEMPTS config channelId
      recentlySentIds o s in
  getUnseenRandomRedditImage accountConfig channelId o s
  = match loop.1 with
    | Some image => (Some image, loop.2)
    | None =>
        match reddit_at o (redditCalls loop.2) with
        | Some image =>
            (Some image,
             set_recentlySentRedditImagesByChannel
               (<[channelId := take RECENTLY_SENT_IMAGE_CACHE_SIZE
                                 (image_id image :: recentlySentIds)]>)
               (afterFetches 1 loop.2))
        | None => (None, afterFetches 1 loop.2)
        end
    end.
Proof.
  intros Hconfig recentlySentIds loop. subst loop.
  unfold getUnseenRandomRedditImage. rewrite Hconfig.
  unfold bind at 1. unfold gets at 1. fold recentlySentIds. unfold bind at 1.
  destruct (fetchUnseenLoop MAX_UNIQUE_IMAGE_FETCH_ATTEMPTS config channelId
              recentlySentIds o s) as [[image |] s1]; cbn [fst snd]; [reflexivity |].
  unfold bind, getRandomRedditImage, rememberImage, modify, ret.
  destruct (reddit_at o (redditCalls s1)); reflexivity.
Qed.

Lemma getUnseenRandomRedditImage_lists (accountConfig : AccountConfig)
    (channelId : string) (o : Oracle) (s : State) :
  let run := getUnseenRandomRedditImage accountConfig channelId o s in
  let recentlySentIds :=
    default [] (recentlySentRedditImagesByChannel s !! channelId) in
  recentlySentRedditImagesByChannel run.2
  = match run.1 with
    | Some image =>
        <[channelId := take RECENTLY_SENT_IMAGE_CACHE_SIZE
                         (image_id image :: recentlySentIds)]>
          (recentlySentRedditImagesByChannel s)
    | None => recentlySentRedditImagesByChannel s
    end
  /\ channelMessageTrackers run.2 = channelMessageTrackers s
  /\ lastInteractionTimes run.2 = lastInteractionTimes s.
Proof.
  intros run recentlySentIds. subst run.
  destruct (activeRedditConfig accountConfig) as [config |] eqn:Hconfig.
  2: { unfold getUnseenRandomRedditImage. rewrite Hconfig. now split. }
  rewrite (getUnseenRandomRedditImage_unfold _ _ _ o s Hconfig).
  cbv zeta. fold recentlySentIds.
  destruct (fetchUnseenLoop_run MAX_UNIQUE_IMAGE_FETCH_ATTEMPTS config channelId
              recentlySentIds o s) as (n & _ & Hloop).
  cbv zeta in Hloop.
  destruct (fetchUnseenLoop MAX_UNIQUE_IMAGE_FETCH_ATTEMPTS config channelId
              recentlySentIds o s) as [[image |] s1]; cbn [fst snd] in Hloop |- *.
  - destruct Hloop as (_ & _ & _ & ->). now split.
  - destruct Hloop as [_ ->]. cbn [redditCalls afterFetches].
    destruct (reddit_at o _); now split.
Qed.

(** X19.  Whatever the fetches give, [getUnseenRandomRedditImage] leaves the
    image lists as they were when it returns no image, and when it returns
    one it puts its id in front of the list of the channel, cut to
    [RECENTLY_SENT_IMAGE_CACHE_SIZE] ids; the lists of the other channels
    and the message trackers are never touched, and lists of at most that
    many ids stay so. *)
Theorem returned_image_is_remembered (accountConfig : AccountConfig)
    (channelId : string) (o : Oracle) (s : State) :
  let run := getUnseenRandomRedditImage accountConfig channelId o s in
  let recentlySentIds :=
    default [] (recentlySentRedditImagesByChannel s !! channelId) in
  recentlySentRedditImagesByChannel run.2
  = match run.1 with
    | Some image =>
        <[channelId := take RECENTLY_SENT_IMAGE_CACHE_SIZE
                         (image_id image :: recentlySentIds)]>
          (recentlySentRedditImagesByChannel s)
    | None => recentlySentRedditImagesByChannel s
    end
  /\ channelMessageTrackers run.2 = channelMessageTrackers s
  /\ ((forall k ids, recentlySentRedditImagesByChannel s !! k = Some ids ->
         (length ids <= RECENTLY_SENT_IMAGE_CACHE_SIZE)%nat) ->
      forall k ids, recentlySentRedditImagesByChannel run.2 !! k = Some ids ->
        (length ids <= RECENTLY_SENT_IMAGE_CACHE_SIZE)%nat).
Proof.
  intros run recentlySentIds.
  destruct (getUnseenRandomRedditImage_lists accountConfig channelId o s)
    as (Hcache & Htrackers & _).
  fold run recentlySentIds in Hcache, Htrackers.
  split; [exact Hcache |]. split; [exact Htrackers |].
  intros Hshort k ids. rewrite Hcache. destruct run.1 as [image |]; [| apply Hshort].
  destruct (decide (k = channelId)) as [-> | Hk].
  - rewrite lookup_insert_eq. intros [= <-].
    cbn [length]. rewrite length_take. unfold RECENTLY_SENT_IMAGE_CACHE_SIZE. lia.
  - rewrite lookup_insert_ne by congruence. apply Hshort.
Qed.

(** X20.  With a configured subreddit list the function makes between one
    and six fetches and returns what the last of them gave; every fetch
    before the last failed or gave an image of the list of the channel, and
    a result that took fewer than six fetches is an image that is not in
    that list. *)
Theorem result_is_last_of_at_most_six_fetches (accountConfig : AccountConfig)
    (config : RedditImageConfig) (channelId : string) (o : Oracle) (s : State) :
  activeRedditConfig accountConfig = Some config ->
  let run := getUnseenRandomRedditImage accountConfig channelId o s in
  let recentlySentIds :=
    default [] (recentlySentRedditImagesByChannel s !! channelId) in
  exists n,
    (n <= MAX_UNIQUE_IMAGE_FETCH_ATTEMPTS)%nat
    /\ redditCalls run.2 = (S n + redditCalls s)%nat
    /\ run.1 = reddit_at o (n + redditCalls s)
    /\ (forall i, (i < n)%nat -> rejectedFetch o recentlySentIds (i + redditCalls s))
    /\ ((n < MAX_UNIQUE_IMAGE_FETCH_ATTEMPTS)%nat ->
        exists image, run.1 = Some image /\ (image_id image ∉ recentlySentIds)).
Proof.
  intros Hconfig run recentlySentIds. subst run.
  rewrite (getUnseenRandomRedditImage_unfold _ _ _ o s Hconfig).
  cbv zeta. fold recentlySentIds.
  destruct (fetchUnseenLoop_run MAX_UNIQUE_IMAGE_FETCH_ATTEMPTS config channelId
              recentlySentIds o s) as (n & Hbefore & Hloop).
  cbv zeta in Hloop.
  destruct (fetchUnseenLoop MAX_UNIQUE_IMAGE_FETCH_ATTEMPTS config channelId
              recentlySentIds o s) as [[image |] s1]; cbn [fst snd] in Hloop |- *.
  - destruct Hloop as (Hlt & Himage & Hnew & ->). exists n.
    repeat split; [lia | now rewrite Himage | exact Hbefore |].
    intros _. now exists image.
  - destruct Hloop as [-> ->]. exists MAX_UNIQUE_IMAGE_FETCH_ATTEMPTS.
    cbn [redditCalls afterFetches].
    destruct (reddit_at o (MAX_UNIQUE_IMAGE_FETCH_ATTEMPTS + redditCalls s));
      (repeat split; [lia | exact Hbefore | intros Habs; lia]).
Qed.

(* ===================================================================== *)
(** ** Properties of the configuration loader *)
(* ===================================================================== *)

(** X21.  The loader stores a lower count of at least 1, and counts in
    order exactly when one of the two numbers read is at least 1.  For
    numbers read of at most [2^31] in magnitude: when the lower one is at
    least 1, every target lies between it and one more than the larger of
    the two (the sum inside [Math.floor] can round up); when both are below
    1, every target is at most 1. *)
Theorem loaded_counts_ordered_iff_one_positive (subredditNames : list string)
    (parsedMin parsedMax : Z) (redditNSFW : bool) :
  let config := loadRedditConfig subredditNames parsedMin parsedMax redditNSFW in
  1 <= minMessages config
  /\ (minMessages config <= maxMessages config <-> 1 <= parsedMin \/ 1 <= parsedMax)
  /\ forall (o : Oracle) (s : State),
       unitDraws o ->
       Z.abs parsedMin <= 2147483648 -> Z.abs parsedMax <= 2147483648 ->
       let target := (rollTargetCount config o s).1 in
       (1 <= parsedMin -> parsedMin <= target <= Z.max parsedMin parsedMax + 1)
       /\ (parsedMin < 1 -> parsedMax < 1 -> target <= 1).
Proof.
  intros config. subst config. cbn [minMessages maxMessages loadRedditConfig].
  split; [lia |]. split; [lia |].
  intros o s Hdraws Hmin Hmax.
  cbv beta iota zeta delta [rollTargetCount bind Math_random ret fst].
  cbn [minMessages maxMessages loadRedditConfig].
  destruct (Hdraws (randomCalls s)) as [H0 H1].
  pose proof (scaled_moved_draw_barrier (random_at o (randomCalls s))
                (Z.max parsedMin parsedMax - Z.max 1 parsedMin + 1)
                (Z.max 1 parsedMin) H0 H1 ltac:(lia) ltac:(lia)) as Hroll.
  split; intros; lia.
Qed.

(* ===================================================================== *)
(** ** Further properties of the two handlers *)
(* ===================================================================== *)


Lemma keeps_bind {T A B : Type} (part : State -> T) (c : M A) (k : A -> M B) :
  keeps part c -> (forall a, keeps part (k a)) -> keeps part (bind c k).
Proof.
  intros Hc Hk o s. unfold bind.
  specialize (Hc o s). destruct (c o s) as [a s1].
  rewrite (Hk a o s1). exact Hc.
Qed.

(** Walks through a computation; its leaves read the state, consume outside
    values or write other parts of the state. *)
Ltac keeps_part :=
  repeat first
    [ solve [auto with frame]
    | progress cbv zeta
    | apply keeps_bind; [| intro]
    | match goal with
      | |- keeps _ (if ?b then _ else _) => destruct b
      | |- keeps _ (match ?x with _ => _ end) => destruct x
      | |- keeps _ (let '(_, _) := ?x in _) => destruct x
      end
    | solve [intros ? ?; reflexivity] ].

(** Computing the delay and waiting reads the ledger and consumes draws and
    clock readings; it writes none of the tables. *)
Lemma keeps_awaitResponseDelay {T : Type} (part : State -> T)
    (message : Message) (accountConfig : AccountConfig)
    (isDM isUrgent canType : bool) :
  keeps part Math_random -> keeps part Date_now ->
  keeps part (awaitResponseDelay message accountConfig isDM isUrgent canType).
Proof.
  intros Hrandom Hnow.
  assert (Hret : forall (A : Type) (a : A), keeps part (ret a))
    by (intros A a o s; reflexivity).
  assert (Hgets : forall (A : Type) (f : State -> A), keeps part (gets f))
    by (intros A f o s; reflexivity).
  unfold awaitResponseDelay, computeResponseTiming, timeSinceLastInteraction,
    calculateRealisticDelay, calculateTypingDelay, waitBeforeReply.
  repeat first
    [ assumption
    | apply Hret
    | apply Hgets
    | progress cbv zeta
    | apply keeps_bind; [| intro]
    | match goal with
      | |- keeps _ (if ?b then _ else _) => destruct b
      | |- keeps _ (match ?x with _ => _ end) => destruct x
      | |- keeps _ (let '(_, _) := ?x in _) => destruct x
      end ].
Qed.

(** X23.  [handleDirectMessage] counts the direct messages of each author
    to each account: the entry of the pair holds one more than before (1
    for the first message) and the time of the call when the waiting is
    over, and any other entry is kept as it was unless the map (with the
    pair in it) holds more than 1000 entries, in which case it is kept only
    if it is at most seven days old. *)
Theorem direct_messages_are_counted (message : Message)
    (accountConfig : AccountConfig) (o : Oracle) (s : State) :
  let dmKey := id accountConfig +:+ "-" +:+ author_id message in
  let now := now_at o (clockCalls s) in
  let before :=
    match dmConversationCounts s !! dmKey with
    | Some entry => count entry
    | None => 0
    end in
  let s' := (handleDirectMessage message accountConfig o s).2 in
  dmConversationCounts s' !! dmKey
  = Some {| count := before + 1; lastMessageTime := now |}
  /\ forall other entry,
       other <> dmKey ->
       (dmConversationCounts s' !! other = Some entry
        <-> dmConversationCounts s !! other = Some entry
            /\ ((1000 < sizeWith dmKey (dmConversationCounts s))%nat ->
                now - 7 * 24 * 60 * 60 * 1000 <= lastMessageTime entry)).
Proof.
  intros dmKey now before s'.
  assert (Hcounts :
            dmConversationCounts s'
            = if (1000 <? sizeWith dmKey (dmConversationCounts s))%nat
              then filter (fun kv => ¬ lastMessageTime kv.2
                                       < now - 7 * 24 * 60 * 60 * 1000)
                     (<[dmKey := {| count := before + 1; lastMessageTime := now |}]>
                        (dmConversationCounts s))
              else <[dmKey := {| count := before + 1; lastMessageTime := now |}]>
                     (dmConversationCounts s)).
  { subst s'. unfold handleDirectMessage.
    unfold bind at 1. unfold gets at 1. fold dmKey.
    unfold bind at 1. unfold Date_now at 1. fold now.
    unfold bind at 1. unfold modify at 1.
    unfold bind at 1. unfold gets at 1.
    cbn [dmConversationCounts set_dmConversationCounts].
    rewrite size_insert_sizeWith. unfold bind at 1.
    replace (count (default {| count := 0; lastMessageTime := 0 |}
                      (dmConversationCounts s !! dmKey))) with before
      by (subst before; now destruct (dmConversationCounts s !! dmKey)).
    destruct (1000 <? sizeWith dmKey (dmConversationCounts s))%nat;
      unfold modify, ret;
      match goal with
      | |- context [awaitResponseDelay ?m ?c ?d ?u ?t o ?s1] =>
          rewrite (keeps_awaitResponseDelay dmConversationCounts m c d u t
                     ltac:(intros ? ?; reflexivity) ltac:(intros ? ?; reflexivity)
                     o s1)
      end; reflexivity. }
  rewrite Hcounts. split.
  - destruct (_ <? _)%nat; [| apply lookup_insert_eq].
    apply map_lookup_filter_Some. split; [apply lookup_insert_eq |].
    cbn. lia.
  - intros other entry Hother.
    destruct (Nat.ltb_spec 1000 (sizeWith dmKey (dmConversationCounts s))).
    + rewrite map_lookup_filter_Some, lookup_insert_ne by congruence. cbn.
      split; intros [H1 H2]; (split; [exact H1 |]).
      * intros _. lia.
      * specialize (H2 ltac:(lia)). lia.
    + rewrite lookup_insert_ne by congruence. split; [| tauto].
      intros H1. split; [exact H1 | lia].
Qed.

(* ===================================================================== *)
(** ** Properties of the reply phase *)
(* ===================================================================== *)

(** Up to the end of the response delay the handler writes the chain map
    and the direct-message counts only. *)
Lemma keeps_mediaAndLedger_messageCreate (clientUser : option ClientUser)
    (accountConfig : AccountConfig) (message : Message) :
  keeps mediaAndLedger (messageCreate clientUser accountConfig message).
Proof.
  assert (Hwait : forall m c d u t,
            keeps mediaAndLedger (awaitResponseDelay m c d u t)).
  { intros. apply keeps_awaitResponseDelay; intros ? ?; reflexivity. }
  unfold messageCreate, handleDirectMessage, shouldAccountRespond,
    shouldLegacyUserAccountRespond, shouldAllowAccountResponse, assignChainData,
    resetChain.
  repeat first
    [ apply Hwait
    | progress cbv zeta
    | apply keeps_bind; [| intro]
    | match goal with
      | |- keeps _ (if ?b then _ else _) => destruct b
      | |- keeps _ (match ?x with _ => _ end) => destruct x
      end
    | solve [intros ? ?; reflexivity] ].
Qed.

Lemma sendCalls_nil (message : Message) (isMentioned : bool)
    (options options' : MessageOptions) :
  sendCalls message isMentioned options = [] ->
  sendCalls message isMentioned options' = [].
Proof.
  unfold sendCalls. destruct isMentioned; [discriminate |].
  destruct (_ || _); [discriminate | reflexivity].
Qed.

(** X24.  When the AI call reports a rate limit, the handler sends nothing
    and leaves the message trackers, the image lists and the interaction
    ledger as they were; on a guild channel the chain guard has nevertheless
    counted the reply: the entry of the channel names the account.  (When
    the awaited typing call of the ten-second bypass rejected, the handler
    does not get to the AI call: it then sends the error notice and
    nothing else, with the same tables.) *)
Theorem rate_limited_reply_still_counts_in_chain (accountUser : ClientUser)
    (accountConfig : AccountConfig) (message : Message) (outcomes : ReplyOutcomes)
    (o : Oracle) (s : State) :
  channel_kind (channel message) <> DMChannel ->
  channel_id (channel message) <> "" ->
  author_id message <> user_id accountUser ->
  channel_permitted (channel message) = true ->
  conversationFetched outcomes = true ->
  aiResult outcomes = Some rate_limited ->
  let result :=
    messageCreateHandler (Some accountUser) accountConfig message outcomes o s in
  mediaAndLedger result.2 = mediaAndLedger s
  /\ forall sent,
       result.1 = Some sent ->
       sent.2 = (if bool_decide (TypingFailed ∈ sent.1) then
                   sendCalls message
                     (bool_decide (user_id accountUser ∈ mentions message))
                     errorMessage
                 else [])
       /\ exists chainData,
            accountToAccountChains result.2 !! channel_id (channel message)
            = Some chainData
            /\ lastAccountId chainData = id accountConfig.
Proof.
  intros Hkind Hch Hother Hperm Hfetched Hlimited result.
  assert (Hreply : forall isMentioned s1,
            replyInChannel message accountConfig isMentioned outcomes o s1 = ([], s1)).
  { intros isMentioned s1. unfold replyInChannel.
    rewrite Hfetched, Hlimited. reflexivity. }
  assert (Hresult :
            result
            = match messageCreate (Some accountUser) accountConfig message o s with
              | (Some actions, s1) =>
                  (Some (actions,
                         if bool_decide (TypingFailed ∈ actions) then
                           sendCalls message
                             (bool_decide (user_id accountUser ∈ mentions message))
                             errorMessage
                         else []), s1)
              | (None, s1) => (None, s1)
              end).
  { subst result. unfold messageCreateHandler, bind.
    destruct (messageCreate (Some accountUser) accountConfig message o s)
      as [[actions |] s1]; [| reflexivity].
    cbv zeta. rewrite (bool_decide_eq_false_2 _ Hkind).
    destruct (bool_decide (TypingFailed ∈ actions)); [reflexivity |].
    rewrite Hreply. reflexivity. }
  pose proof (keeps_mediaAndLedger_messageCreate (Some accountUser) accountConfig
                message o s) as Hframe.
  pose proof (messageCreate_guild accountUser accountConfig message o s
                Hkind Hother Hperm) as Hrun.
  cbv zeta in Hrun.
  set (s1 := if author_bot message then s
             else (resetChain (channel_id (channel message)) o s).2) in *.
  set (responded := shouldAccountRespond message accountConfig _ _ o s1) in *.
  destruct (shouldAllowAccountResponse_spec (channel_id (channel message))
              (id accountConfig) o responded.2 Hch) as [_ Hguard].
  set (allowed := shouldAllowAccountResponse (channel_id (channel message))
                    (id accountConfig) o responded.2) in *.
  pose proof (keepsChains_awaitResponseDelay message accountConfig false
                (isMessageUrgent (content message)
                   (bool_decide (user_id accountUser ∈ mentions message)))
                (bool_decide (channel_kind (channel message) = BaseGuildTextChannel))
                o allowed.2) as Hwait.
  rewrite Hrun in Hresult, Hframe.
  destruct responded.1, allowed.1 eqn:Hallowed; rewrite Hresult;
    cbn [fst snd] in Hframe |- *; (split; [exact Hframe |]);
    intros sent [= <-]; cbn [fst snd]. split; [reflexivity |].
  destruct (chainVerdict _ _ _) as [n |]; [| rewrite Hguard in Hallowed; discriminate].
  destruct Hguard as [_ Hentry]. rewrite Hwait, Hentry. eexists. split; reflexivity.
Qed.

Lemma elem_of_sendCalls (message : Message) (isMentioned : bool)
    (options : MessageOptions) (call : SendCall) :
  call ∈ sendCalls message isMentioned options -> callOptions call = options.
Proof.
  unfold sendCalls. destruct isMentioned; [| destruct (_ || _)];
    intros Hin; try (apply list_elem_of_singleton in Hin as ->; reflexivity).
  now apply elem_of_nil in Hin.
Qed.

Lemma keeps_ledger_shouldAttachRedditImage (channelId : string)
    (accountConfig : AccountConfig) (forceImage : bool) :
  keeps lastInteractionTimes (shouldAttachRedditImage channelId accountConfig forceImage).
Proof. unfold shouldAttachRedditImage, rollTargetCount. keeps_part. Qed.

Lemma keeps_lists_updateLastInteractionTime (channelId userId botId : string) :
  keeps recentlySentRedditImagesByChannel
    (updateLastInteractionTime channelId userId botId).
Proof. unfold updateLastInteractionTime. keeps_part. Qed.

(** The attachment is an image only when the cadence said so and a fetch
    gave it; it is then the first of the list of the channel, and the
    ledger is as before in any case. *)
Lemma prepareImageAttachment_recorded (message : Message)
    (accountConfig : AccountConfig) (o : Oracle) (s : State) :
  let run := prepareImageAttachment message accountConfig o s in
  lastInteractionTimes run.2 = lastInteractionTimes s
  /\ forall image,
       run.1 = Some image ->
       is_Some (activeRedditConfig accountConfig)
       /\ exists rest,
            recentlySentRedditImagesByChannel run.2 !! channel_id (channel message)
            = Some (image_id image :: rest).
Proof.
  intros run. subst run. unfold prepareImageAttachment, bind.
  pose proof (keeps_ledger_shouldAttachRedditImage (channel_id (channel message))
                accountConfig (forceImage (checkDebugCheats (content message))) o s)
    as Hledger.
  destruct (shouldAttachRedditImage _ _ _ o s) as [attach s1].
  cbn [snd] in Hledger.
  destruct (attach && _); [| split; [exact Hledger | discriminate]].
  destruct (getUnseenRandomRedditImage_lists accountConfig
              (channel_id (channel message)) o s1) as (Hlists & _ & Hledger1).
  cbv zeta in Hlists. split; [now rewrite Hledger1 |].
  intros image Himage. rewrite Himage in Hlists. split.
  - unfold getUnseenRandomRedditImage in Himage.
    destruct (activeRedditConfig accountConfig); [eauto | discriminate].
  - rewrite Hlists, lookup_insert_eq. cbn. eauto.
Qed.

(** X25.  The interaction ledger is written by a reply phase only when the
    reply went through: the conversation was fetched, the AI gave a reply and
    the send did not throw (or, on a channel that takes neither kind of
    send, nothing was to send).  It then holds the time read after the
    attachment was prepared; in every other case it is as before, for the
    guild handler and for the direct-message handler. *)
Theorem ledger_written_only_after_reply (message : Message)
    (accountConfig : AccountConfig) (isMentioned : bool) (outcomes : ReplyOutcomes)
    (o : Oracle) (s : State) :
  let key :=
    getInteractionKey (channel_id (channel message)) (author_id message)
      (id accountConfig) in
  let prepared := (prepareImageAttachment message accountConfig o s).2 in
  let answered :=
    conversationFetched outcomes = true
    /\ exists reply, aiResult outcomes = Some (success reply) in
  let inChannel := replyInChannel message accountConfig isMentioned outcomes o s in
  let direct := replyToDirectMessage message accountConfig outcomes o s in
  let sentInChannel :=
    answered
    /\ (replyDelivered outcomes = true
        \/ sendCalls message isMentioned errorMessage = []) in
  let sentDirect :=
    answered /\ replyDelivered outcomes = true
    /\ channel_kind (channel message) = DMChannel in
  (sentInChannel ->
   lastInteractionTimes inChannel.2 !! key = Some (now_at o (clockCalls prepared)))
  /\ (~ sentInChannel -> lastInteractionTimes inChannel.2 = lastInteractionTimes s)
  /\ (sentDirect ->
      lastInteractionTimes direct.2 !! key = Some (now_at o (clockCalls prepared)))
  /\ (~ sentDirect -> lastInteractionTimes direct.2 = lastInteractionTimes s).
Proof.
  intros key prepared answered inChannel direct sentInChannel sentDirect.
  destruct (prepareImageAttachment_recorded message accountConfig o s)
    as [Hprepared _]. cbv zeta in Hprepared.
  assert (Hwritten : forall s1,
            lastInteractionTimes
              (updateLastInteractionTime (channel_id (channel message))
                 (author_id message) (id accountConfig) o s1).2 !! key
            = Some (now_at o (clockCalls s1))).
  { intros s1.
    apply (ledger_entry_written (channel_id (channel message)) (author_id message)
             (id accountConfig) o s1). }
  subst inChannel direct sentInChannel sentDirect answered.
  unfold replyInChannel, replyToDirectMessage.
  destruct (conversationFetched outcomes).
  2: { cbn. destruct (bool_decide _);
         (split; [| split; [| split]]); try reflexivity;
         intros [[Habs _] _]; discriminate Habs. }
  destruct (aiResult outcomes) as [[| reply] |].
  1, 3: cbn; destruct (bool_decide _);
    (split; [| split; [| split]]); try reflexivity;
    intros [[_ [r Habs]] _]; discriminate Habs.
  cbn [negb]. unfold bind.
  fold prepared in Hprepared.
  destruct (prepareImageAttachment message accountConfig o s)
    as [imageAttachment s1] eqn:Hrun.
  cbn [snd] in prepared, Hprepared. subst prepared.
  set (messageOptions := {| options_content := reply;
                            options_files := imageAttachment |}).
  split; [| split; [| split]].
  - intros [_ Hsent].
    destruct (decide (sendCalls message isMentioned messageOptions = []))
      as [Hnil | Hcalls].
    + rewrite (bool_decide_eq_true_2 _ Hnil). cbn [negb andb].
      destruct (updateLastInteractionTime _ _ _ o s1) eqn:Hupdate.
      cbn [snd]. specialize (Hwritten s1). now rewrite Hupdate in Hwritten.
    + destruct Hsent as [Hdelivered | Hnil];
        [| contradict Hcalls; now apply (sendCalls_nil _ _ errorMessage)].
      rewrite Hdelivered, andb_false_r.
      destruct (updateLastInteractionTime _ _ _ o s1) eqn:Hupdate.
      cbn [snd]. specialize (Hwritten s1). now rewrite Hupdate in Hwritten.
  - intros Hnot.
    destruct (decide (sendCalls message isMentioned messageOptions = []))
      as [Hnil | Hcalls].
    + contradict Hnot. split; [split; eauto |]. right.
      now apply (sendCalls_nil _ _ messageOptions).
    + rewrite (bool_decide_eq_false_2 _ Hcalls). cbn [negb andb].
      destruct (replyDelivered outcomes); [| exact Hprepared].
      contradict Hnot. split; [split; eauto | now left].
  - intros (_ & Hdelivered & Hdm).
    rewrite (bool_decide_eq_true_2 _ Hdm), Hdelivered. cbn [negb].
    rewrite Hrun.
    destruct (updateLastInteractionTime _ _ _ o s1) eqn:Hupdate.
    cbn [snd]. specialize (Hwritten s1). now rewrite Hupdate in Hwritten.
  - intros Hnot.
    destruct (decide (channel_kind (channel message) = DMChannel)) as [Hdm | Hkind].
    + rewrite (bool_decide_eq_true_2 _ Hdm). cbn [negb]. rewrite Hrun.
      destruct (replyDelivered outcomes); [| exact Hprepared].
      contradict Hnot. split; [split; eauto | now split].
    + rewrite (bool_decide_eq_false_2 _ Hkind). reflexivity.
Qed.

(** X26.  A send call of a reply phase carries an image only for an account
    with a subreddit list, and the id of that image is then the first of the
    image list of the channel when the phase is over. *)
Theorem attached_image_is_recorded (message : Message)
    (accountConfig : AccountConfig) (isMentioned : bool) (outcomes : ReplyOutcomes)
    (o : Oracle) (s : State) (call : SendCall) (image : RedditImageData) :
  options_files (callOptions call) = Some image ->
  let inChannel := replyInChannel message accountConfig isMentioned outcomes o s in
  let direct := replyToDirectMessage message accountConfig outcomes o s in
  let recorded (s' : State) :=
    is_Some (activeRedditConfig accountConfig)
    /\ exists rest,
         recentlySentRedditImagesByChannel s' !! channel_id (channel message)
         = Some (image_id image :: rest) in
  (call ∈ inChannel.1 -> recorded inChannel.2)
  /\ (call ∈ direct.1 -> recorded direct.2).
Proof.
  intros Hfiles inChannel direct recorded.
  assert (Hnotice : forall mentioned,
            ~ call ∈ sendCalls message mentioned errorMessage).
  { intros mentioned Hin. apply elem_of_sendCalls in Hin.
    rewrite Hin in Hfiles. discriminate Hfiles. }
  assert (Hnotice' : ~ call ∈ [MessageReply errorMessage]).
  { intros Hin. apply list_elem_of_singleton in Hin. subst call.
    discriminate Hfiles. }
  assert (Hnil : ~ call ∈ []) by apply not_elem_of_nil.
  destruct (prepareImageAttachment_recorded message accountConfig o s)
    as [_ Hrecorded]. cbv zeta in Hrecorded.
  destruct (prepareImageAttachment message accountConfig o s)
    as [imageAttachment s1] eqn:Hrun. cbn [fst snd] in Hrecorded.
  assert (Hattached : forall reply,
            callOptions call
            = {| options_content := reply; options_files := imageAttachment |} ->
            recorded s1).
  { intros reply Heq. rewrite Heq in Hfiles. cbn in Hfiles.
    now apply Hrecorded. }
  assert (Hupdated :
            recorded s1 ->
            recorded (updateLastInteractionTime (channel_id (channel message))
                        (author_id message) (id accountConfig) o s1).2).
  { unfold recorded.
    now rewrite (keeps_lists_updateLastInteractionTime _ _ _ o s1). }
  split.
  - subst inChannel. unfold replyInChannel.
    destruct (conversationFetched outcomes); cbn [negb];
      [| intros Hin; exfalso; eapply Hnotice; exact Hin].
    destruct (aiResult outcomes) as [[| reply] |];
      [ intros Hin; exfalso; apply Hnil; exact Hin
      | | intros Hin; exfalso; eapply Hnotice; exact Hin ].
    unfold bind. rewrite Hrun.
    destruct (negb (bool_decide _) && negb (replyDelivered outcomes)).
    + cbn [ret fst snd]. intros Hin.
      apply elem_of_app in Hin as [Hin | Hin];
        [| exfalso; eapply Hnotice; exact Hin].
      apply elem_of_sendCalls in Hin. now apply (Hattached reply).
    + destruct (updateLastInteractionTime _ _ _ o s1) eqn:Hupdate.
      cbn [ret fst snd] in Hupdated |- *.
      intros Hin. apply elem_of_sendCalls in Hin.
      apply Hupdated. now apply (Hattached reply).
  - subst direct. unfold replyToDirectMessage.
    destruct (bool_decide (channel_kind (channel message) = DMChannel));
      cbn [negb]; [| intros Hin; exfalso; apply Hnil; exact Hin].
    destruct (conversationFetched outcomes); cbn [negb];
      [| intros Hin; exfalso; apply Hnotice'; exact Hin].
    destruct (aiResult outcomes) as [[| reply] |];
      [ intros Hin; exfalso; apply Hnil; exact Hin
      | | intros Hin; exfalso; apply Hnotice'; exact Hin ].
    unfold bind. rewrite Hrun.
    destruct (replyDelivered outcomes); cbn [negb].
    + destruct (updateLastInteractionTime _ _ _ o s1) eqn:Hupdate.
      cbn [ret fst snd] in Hupdated |- *.
      intros Hin. apply list_elem_of_singleton in Hin. subst call.
      apply Hupdated. now apply (Hattached reply).
    + cbn [ret fst snd]. intros Hin.
      apply elem_of_app in Hin as [Hin | Hin];
        [| exfalso; apply Hnotice'; exact Hin].
      apply list_elem_of_singleton in Hin. subst call.
      now apply (Hattached reply).
Qed.

(* ===================================================================== *)
(** ** Properties of the retries of the Reddit requests *)
(* ===================================================================== *)

(** The waits of the rounds [attempt], ..., [attempt + k - 1]. *)
Lemma totalWait_backoff (k attempt : nat) :
  totalWait (map (fun i => Sleep (REDDIT_RETRY_DELAY_MS * 2 ^ Z.of_nat i))
               (seq attempt k))
  = REDDIT_RETRY_DELAY_MS * 2 ^ Z.of_nat attempt * (2 ^ Z.of_nat k - 1).
Proof.
  revert attempt. induction k as [| k IH]; intros attempt.
  - cbn. lia.
  - cbn [seq map totalWait]. rewrite IH.
    replace (Z.of_nat (S attempt)) with (Z.of_nat attempt + 1) by lia.
    replace (Z.of_nat (S k)) with (Z.of_nat k + 1) by lia.
    rewrite !Z.pow_add_r, !Z.pow_1_r by lia.
    assert (0 < 2 ^ Z.of_nat attempt) by (apply Z.pow_pos_nonneg; lia).
    unfold REDDIT_RETRY_DELAY_MS. nia.
Qed.

Lemma retryLoop_run {T : Type} (fn : nat -> Settled T) (remaining : nat) :
  forall (attempt : nat) (lastError : option ThrownError),
    let run := retryLoop fn remaining attempt lastError in
    exists k,
      (k <= remaining)%nat
      /\ run.2 = map (fun i => Sleep (REDDIT_RETRY_DELAY_MS * 2 ^ Z.of_nat i))
                   (seq attempt k)
      /\ (forall i, (i < k)%nat ->
            exists error, fn (attempt + i)%nat = Rejected error
                          /\ isNotFound error = false)
      /\ match run.1 with
         | inl value => (k < remaining)%nat /\ fn (attempt + k)%nat = Fulfilled value
         | inr thrown =>
             ((k < remaining)%nat
              /\ exists error, thrown = Some error
                               /\ fn (attempt + k)%nat = Rejected error
                               /\ isNotFound error = true)
             \/ (k = remaining
                 /\ thrown = match k with
                             | O => lastError
                             | S k' =>
                                 match fn (attempt + k')%nat with
                                 | Rejected error => Some error
                                 | Fulfilled _ => None
                                 end
                             end)
         end.
Proof.
  induction remaining as [| remaining IH]; intros attempt lastError run; subst run.
  - exists 0%nat. cbn. repeat split; [lia | intros i Hi; lia | right; auto].
  - cbn [retryLoop].
    destruct (fn attempt) as [value | error] eqn:Hfn.
    + exists 0%nat. cbn. rewrite Nat.add_0_r.
      repeat split; [lia | intros i Hi; lia | lia | exact Hfn].
    + destruct (isNotFound error) eqn:Hnf.
      * exists 0%nat. cbn. rewrite Nat.add_0_r.
        repeat split; [lia | intros i Hi; lia |].
        left. split; [lia |]. exists error. auto.
      * cbv zeta. cbn [fst snd].
        destruct (IH (S attempt) (Some error)) as (k & Hle & Hwaits & Hfailed & Hend).
        cbv zeta in Hwaits, Hend.
        exists (S k). split; [lia |]. split; [cbn [seq map]; now rewrite Hwaits |].
        split.
        { intros [| i] Hi.
          - rewrite Nat.add_0_r. exists error. auto.
          - destruct (Hfailed i ltac:(lia)) as (e & He & Hne).
            exists e. split; [| exact Hne].
            now replace (attempt + S i)%nat with (S attempt + i)%nat by lia. }
        destruct (retryLoop fn remaining (S attempt) (Some error)).1
          as [value | thrown].
        { destruct Hend as [Hlt Hvalue]. split; [lia |].
          now replace (attempt + S k)%nat with (S attempt + k)%nat by lia. }
        destruct Hend as [(Hlt & e & Hthrown & He & Hnf') | [Hk Hthrown]].
        { left. split; [lia |]. exists e. repeat split; [exact Hthrown | | exact Hnf'].
          now replace (attempt + S k)%nat with (S attempt + k)%nat by lia. }
        right. split; [lia |]. rewrite Hthrown.
        destruct k as [| k'].
        { rewrite Nat.add_0_r, Hfn. reflexivity. }
        now replace (attempt + S k')%nat with (S attempt + k')%nat by lia.
Qed.

(** X27.  [retryWithBackoff] calls the function until it resolves, rejects
    with a 404 or has rejected [maxRetries] times; after each other
    rejection it waits, 2 s after the first and twice as long after each
    further one, also after the last.  After [k] such rejections the waits
    add up to [2000 * (2^k - 1)] ms, and the result is what call number [k]
    gave, or the last rejection when [k = maxRetries]. *)
Theorem retry_waits_double_and_include_the_last {T : Type} (fn : nat -> Settled T)
    (maxRetries : nat) :
  let run := retryWithBackoff fn maxRetries in
  exists k,
    (k <= maxRetries)%nat
    /\ run.2 = map (fun i => Sleep (REDDIT_RETRY_DELAY_MS * 2 ^ Z.of_nat i)) (seq 0 k)
    /\ totalWait run.2 = REDDIT_RETRY_DELAY_MS * (2 ^ Z.of_nat k - 1)
    /\ (forall i, (i < k)%nat ->
          exists error, fn i = Rejected error /\ isNotFound error = false)
    /\ match run.1 with
       | inl value => (k < maxRetries)%nat /\ fn k = Fulfilled value
       | inr None => maxRetries = 0%nat
       | inr (Some error) =>
           ((k < maxRetries)%nat /\ fn k = Rejected error /\ isNotFound error = true)
           \/ (k = maxRetries /\ fn (pred k) = Rejected error
               /\ isNotFound error = false)
       end.
Proof.
  intros run. subst run. unfold retryWithBackoff.
  destruct (retryLoop_run fn maxRetries 0 None) as (k & Hle & Hwaits & Hfailed & Hend).
  cbv zeta in Hwaits, Hend. cbn [Nat.add] in Hfailed, Hend.
  exists k. split; [exact Hle |]. split; [exact Hwaits |]. split.
  { rewrite Hwaits, totalWait_backoff. cbn [Z.of_nat]. lia. }
  split; [exact Hfailed |].
  destruct (retryLoop fn maxRetries 0 None).1 as [value | thrown]; [exact Hend |].
  destruct Hend as [(Hlt & e & -> & He & Hnf) | [Hk Hthrown]].
  - left. auto.
  - destruct k as [| k'].
    + subst thrown. symmetry. exact Hk.
    + destruct (Hfailed k' ltac:(lia)) as (e & He & Hnf).
      rewrite He in Hthrown. subst thrown. right. cbn [pred]. auto.
Qed.

(** X28.  [fetchSubredditImages] never stops at a 404: the function it
    retries throws a new [Error] for whatever went wrong, so when the three
    requests fail, for a missing subreddit too, it has waited 2 + 4 + 8 s
    before it rejects; when request number [k] is the first to succeed, it
    has waited [2000 * (2^k - 1)] ms. *)
Theorem missing_subreddit_is_retried {T : Type} (subreddit : string)
    (request : nat -> Settled T) :
  let run := fetchSubredditImages subreddit request in
  ((forall i, (i < REDDIT_MAX_RETRIES)%nat -> exists error, request i = Rejected error) ->
   run.1 = inr (Some {| error_message := "Failed to fetch images from r/" +:+ subreddit;
                        isNotFound := false |})
   /\ run.2 = [Sleep 2000; Sleep 4000; Sleep 8000]
   /\ totalWait run.2 = 14000)
  /\ forall k imagePosts,
       (k < REDDIT_MAX_RETRIES)%nat ->
       (forall i, (i < k)%nat -> exists error, request i = Rejected error) ->
       request k = Fulfilled imagePosts ->
       run.1 = inl imagePosts
       /\ totalWait run.2 = REDDIT_RETRY_DELAY_MS * (2 ^ Z.of_nat k - 1).
Proof.
  intros run. subst run. unfold fetchSubredditImages, retryWithBackoff. split.
  - intros Hfail.
    destruct (Hfail 0%nat ltac:(unfold REDDIT_MAX_RETRIES; lia)) as [e0 H0].
    destruct (Hfail 1%nat ltac:(unfold REDDIT_MAX_RETRIES; lia)) as [e1 H1].
    destruct (Hfail 2%nat ltac:(unfold REDDIT_MAX_RETRIES; lia)) as [e2 H2].
    cbn. rewrite H0. cbn. rewrite H1. cbn. rewrite H2. cbn. auto.
  - intros k imagePosts Hk Hfail Hok.
    unfold REDDIT_MAX_RETRIES in Hk.
    destruct k as [| [| [| k]]]; [| | | lia].
    + cbn. rewrite Hok. cbn. auto.
    + destruct (Hfail 0%nat ltac:(lia)) as [e0 H0].
      cbn. rewrite H0. cbn. rewrite Hok. cbn. auto.
    + destruct (Hfail 0%nat ltac:(lia)) as [e0 H0].
      destruct (Hfail 1%nat ltac:(lia)) as [e1 H1].
      cbn. rewrite H0. cbn. rewrite H1. cbn. rewrite Hok. cbn. auto.
Qed.

(* ===================================================================== *)
(** ** Properties of the decoding of URLs *)
(* ===================================================================== *)

Lemma string_length_append (a b : string) :
  String.length (a +:+ b) = (String.length a + String.length b)%nat.
Proof.
  induction a as [| c a IH]; [reflexivity |].
  change (String c a +:+ b) with (String c (a +:+ b)). cbn [String.length].
  now rewrite IH.
Qed.

Lemma prefix_length (a s : string) :
  String.prefix a s = true -> (String.length a <= String.length s)%nat.
Proof.
  revert s. induction a as [| c a IH]; intros s Hprefix; [cbn; lia |].
  destruct s as [| d s]; [discriminate Hprefix |].
  cbn in Hprefix. destruct (ascii_dec c d); [| discriminate Hprefix].
  cbn [String.length]. specialize (IH s Hprefix). lia.
Qed.

(** A replacement that is not longer than its pattern does not lengthen the
    text. *)
Lemma replaceFrom_length (pattern replacement : string) :
  (String.length replacement <= String.length pattern)%nat ->
  forall (s : string) (skip : nat),
    (String.length (replaceFrom skip pattern replacement s) + Nat.min skip (String.length s)
     <= String.length s)%nat.
Proof.
  intros Hshort. induction s as [| c s IH]; intros skip; [cbn; lia |].
  cbn [replaceFrom]. destruct skip as [| skip].
  - destruct (String.prefix pattern (String c s)) eqn:Hprefix.
    + apply prefix_length in Hprefix. cbn [String.length] in Hprefix |- *.
      rewrite string_length_append.
      specialize (IH (String.length pattern - 1)%nat). lia.
    + cbn [String.length]. specialize (IH 0%nat). lia.
  - cbn [String.length]. specialize (IH skip). lia.
Qed.

Lemma replaceAll_length (pattern replacement s : string) :
  (String.length replacement <= String.length pattern)%nat ->
  (String.length (replaceAll pattern replacement s) <= String.length s)%nat.
Proof.
  intros Hshort. unfold replaceAll.
  pose proof (replaceFrom_length pattern replacement Hshort s 0). lia.
Qed.

(** A pattern that starts with a character that the text does not contain
    is not found. *)
Lemma replaceAll_absent (c : ascii) (pattern replacement s : string) :
  includes (String c "") s = false ->
  replaceAll (String c pattern) replacement s = s.
Proof.
  unfold replaceAll. induction s as [| d s IH]; intros Hfree; [reflexivity |].
  cbn [includes] in Hfree. apply orb_false_iff in Hfree as [Hhead Hrest].
  cbn [replaceFrom String.prefix]. cbn [String.prefix] in Hhead.
  destruct (ascii_dec c d) as [-> | Hcd].
  - now rewrite prefix_empty in Hhead.
  - now rewrite IH.
Qed.

(** X29.  [decodeHtmlEntities] never lengthens a text and leaves a text
    without ampersand as it is. *)
Theorem decoding_shortens_or_keeps (encodedString : string) :
  (String.length (decodeHtmlEntities encodedString) <= String.length encodedString)%nat
  /\ (includes "&" encodedString = false ->
      decodeHtmlEntities encodedString = encodedString).
Proof.
  split.
  - unfold decodeHtmlEntities.
    repeat (etransitivity; [apply replaceAll_length; cbn; lia |]).
    reflexivity.
  - intros Hfree. unfold decodeHtmlEntities.
    now repeat rewrite (replaceAll_absent "&" _ _ encodedString Hfree).
Qed.

(** The entities are decoded one kind after the other, the ampersand first:
    an ampersand that was itself encoded is decoded twice. *)
Example decoding_twice :
  decodeHtmlEntities "a.jpg?x=1&amp;lt;2" = "a.jpg?x=1<2".
Proof. reflexivity. Qed.
(* ===================================================================== *)
(** ** The model on the scenarios of the test scripts *)
(* ===================================================================== *)

(** The base ranges of [test-timing-system.js], in seconds. *)
Example delayRange_scenarios :
  delayRange (30 * 1000) false false = (3, 25)
  /\ delayRange (5 * 60 * 1000) false false = (15, 120)
  /\ delayRange (20 * 60 * 1000) false false = (30, 240)
  /\ delayRange (60 * 60 * 1000) false false = (60, 480)
  /\ delayRange (3 * 60 * 60 * 1000) false false = (180, 900)
  /\ delayRange (20 * 60 * 1000) true false = (21, 192)
  /\ delayRange (20 * 60 * 1000) false true = (24, 216)
  /\ delayRange (-1000) false false = (3, 25).
Proof. repeat split; reflexivity. Qed.

(** The probabilities of [test-interaction-rate.js] and of the end-to-end
    scenario of the specification. *)
Example accountResponseChance_scenarios :
  (accountResponseChance 50 "Hello everyone!" == 0.378
   /\ accountResponseChance 50 "Just a quick update" == 0.225
   /\ accountResponseChance 1 "hi" == 0.0025
   /\ accountResponseChance 50 "What is going on here? This is absolutely terrible!"
      == 0.567
   /\ accountResponseChance 100 "What do you think?" == 0.8)%Q.
Proof. repeat split; Qeval. Qed.

End Engine.

(* ===================================================================== *)
(** ** Instances of the statements *)
(* ===================================================================== *)

(** With the 15 minute ceiling in force and a negative elapsed time. *)
Lemma delay_within_hard_limits_witness :
  let delay :=
    (calculateRealisticDelay false 0 (-5) true false
       (steadyOracle 0.9 0 None) emptyState).1 in
  MIN_RESPONSE_DELAY_MS <= delay /\ delay <= MAX_RESPONSE_DELAY_MS.
Proof.
  assert (Hceiling : MIN_RESPONSE_DELAY_MS <= hardMaxDelay false 0)
    by now vm_compute.
  destruct (delay_within_hard_limits false 0 (-5) true false
              (steadyOracle 0.9 0 None) emptyState Hceiling) as (Hlo & Hhi & _).
  split; [exact Hlo | exact Hhi].
Defined.

(** A message that names the account, five minutes after the last answer,
    with draws of 0.9: the delay would be 110 s, and the handler waits 10 s
    instead. *)
Example emergency_bypass_fires :
  (calculateRealisticDelay false 0 301000 false false
     (steadyOracle 0.9 1300000 None) emptyState).1 = 110000
  /\ (messageCreate false 0 (Some botUser) mediaBot
        (messageIn guildChannel "hello Kira")
        (steadyOracle 0.9 1300000 None) answeredState).1
     = Some [Sleep 5600; SendTyping; Sleep 4400].
Proof. split; vm_compute; reflexivity. Qed.

(** The same message on a channel without earlier answer: the delay is
    23 s, with the typing indicator scheduled after 12.88 s. *)
Example normal_timing_flow :
  (messageCreate false 0 (Some botUser) mediaBot
     (messageIn guildChannel "hello Kira")
     (steadyOracle 0.9 1300000 None) emptyState).1
  = Some [ScheduleTyping 12880; Sleep 23000].
Proof. vm_compute; reflexivity. Qed.



(** C7 as stated fails: the bot without interaction rate, which the
    probability model never lets answer an unaddressed message, goes on to
    reply to an unaddressed direct message. *)
Lemma direct_message_answered_without_probability_check :
  ~ (forall (developmentMode : bool) (developmentMaxDelayMs : Z)
            (accountUser : ClientUser) (accountConfig : AccountConfig)
            (message : Message) (o : Oracle) (s s' : State)
            (actions : list Action),
        channel_kind (channel message) = DMChannel ->
        messageCreate developmentMode developmentMaxDelayMs (Some accountUser)
          accountConfig message o s = (Some actions, s') ->
        (shouldAccountRespond message accountConfig
           (bool_decide (user_id accountUser ∈ mentions message))
           (includes (toLowerCase (username accountUser))
              (toLowerCase (content message)))
           o s).1 = true).
Proof.
  intros H.
  pose (o := steadyOracle 0.9 0 None).
  destruct (messageCreate false 0 (Some botUser) bareBot
              (messageIn directChannel "hello") o emptyState)
    as [[actions |] s'] eqn:Hrun.
  - specialize (H false 0 botUser bareBot (messageIn directChannel "hello")
                  o emptyState s' actions eq_refl Hrun).
    vm_compute in H. discriminate H.
  - vm_compute in Hrun. discriminate Hrun.
Qed.

Lemma direct_message_always_answered_witness :
  exists actions s',
    messageCreate false 0 (Some botUser) bareBot
      (messageIn directChannel "hello") (steadyOracle 0.9 0 None) emptyState
    = (Some actions, s')
    /\ accountToAccountChains s' = accountToAccountChains emptyState.
Proof.
  assert (Hother : Some (author_id (messageIn directChannel "hello"))
                   <> user_id <$> Some botUser) by discriminate.
  destruct (direct_message_always_answered false 0 (Some botUser) bareBot
              (messageIn directChannel "hello") (steadyOracle 0.9 0 None)
              emptyState eq_refl Hother) as (Hrun & Hchains & _).
  eexists _, _. split; [exact Hrun | exact Hchains].
Defined.

(** C8 fails at the draw [1 - 2^-52], a value of [Math.random()]:
    [Math.floor(r * 1 + 3)] is 4 there, because [4 - 2^-52] is no double and
    rounds to 4.  The third message gets no attachment, the fourth does. *)
Lemma third_message_triggers_iff_target_three_witness :
  let o := steadyOracle topDraw 0 None in
  let r1 := shouldAttachRedditImage "general" mediaBot false o emptyState in
  let r2 := shouldAttachRedditImage "general" mediaBot false o r1.2 in
  let r3 := shouldAttachRedditImage "general" mediaBot false o r2.2 in
  let r4 := shouldAttachRedditImage "general" mediaBot false o r3.2 in
  (toDouble topDraw == topDraw)%Q
  /\ channelMessageTrackers r1.2 !! "general"
     = Some {| messageCount := 1; targetMessageCount := 4; lastImageTime := 0 |}
  /\ r1.1 = false /\ r2.1 = false /\ r3.1 = false /\ r4.1 = true.
Proof.
  intros o r1 r2 r3 r4.
  destruct (third_message_triggers_iff_target_three "general" mediaBot
              {| subreddits := ["aww"]; minMessages := 3; maxMessages := 3;
                 nsfw := false |}
              o emptyState eq_refl eq_refl eq_refl
              (steadyOracle_unitDraws_top 0 None) eq_refl)
    as (H1 & Htracker & _ & H2 & _ & Hfour).
  assert (Htarget :
            (rollTargetCount
               {| subreddits := ["aww"]; minMessages := 3; maxMessages := 3;
                  nsfw := false |} o (Date_now o emptyState).2).1 = 4)
    by (vm_compute; reflexivity).
  destruct (Hfour Htarget) as [H3 H4].
  rewrite Htarget in Htracker.
  split; [vm_compute; reflexivity |]. auto.
Defined.

Lemma repeated_image_still_returned_witness :
  (getUnseenRandomRedditImage mediaBot "general"
     (steadyOracle 0.9 0 (Some catImage)) seenState).1 = Some catImage.
Proof.
  destruct (repeated_image_still_returned mediaBot
              {| subreddits := ["aww"]; minMessages := 3; maxMessages := 3;
                 nsfw := false |}
              "general" (steadyOracle 0.9 0 (Some catImage)) seenState eq_refl)
    as (Hresult & _).
  - intros i _. exists catImage. split; [reflexivity |].
    vm_compute. apply list_elem_of_here.
  - exact Hresult.
Defined.

(* ===================================================================== *)
(** ** Instances of the further statements *)
(* ===================================================================== *)

Lemma chainedState_bounded : chainsBounded (accountToAccountChains chainedState).
Proof.
  intros k e Hk. unfold chainedState in Hk. simpl in Hk.
  apply lookup_singleton_Some in Hk as [_ <-].
  split; discriminate.
Qed.

Lemma allowed_reply_sweeps_stale_chains_witness :
  exists n,
    accountToAccountChains
      (shouldAllowAccountResponse "general" "user1" (steadyOracle 0 6000 None)
         chainedState).2 !! "general"
    = Some {| chainCount := n; lastAccountId := "user1"; lastActivity := 6000 |}.
Proof.
  assert (Hch : "general" <> "") by discriminate.
  exact (proj1 (allowed_reply_sweeps_stale_chains "general" "user1"
                  (steadyOracle 0 6000 None) chainedState Hch eq_refl)).
Defined.

Lemma chain_counts_stay_bounded_witness :
  chainsBounded
    (accountToAccountChains
       (messageCreate false 0 (Some botUser) mediaBot
          (messageIn guildChannel "hello Kira") (steadyOracle 0.9 6000 None)
          chainedState).2).
Proof.
  exact (chain_counts_stay_bounded false 0 (Some botUser) mediaBot
           (messageIn guildChannel "hello Kira") (steadyOracle 0.9 6000 None)
           chainedState chainedState_bounded).
Defined.



Lemma first_contact_takes_normal_flow_witness :
  (calculateRealisticDelay false 0 30000 false false
     (steadyOracle 0.9 0 None) emptyState).1 <= 25000.
Proof.
  exact (proj1 (first_contact_takes_normal_flow false 0
                  (messageIn guildChannel "hello Kira") mediaBot false false true
                  (steadyOracle 0.9 0 None) emptyState
                  (steadyOracle_unitDraws 0 None) eq_refl eq_refl)).
Defined.

(** The channel "general" when its tracker has reached the count 2 of a
    target of 3. *)
Lemma attachments_are_target_messages_apart_witness :
  let s :=
    set_channelMessageTrackers
      (fun _ => {[ "general" := {| messageCount := 2; targetMessageCount := 3;
                                   lastImageTime := 0 |} ]})
      emptyState in
  let first :=
    shouldAttachRedditImage "general" mediaBot false (steadyOracle 0.9 0 None) s in
  exists target,
    3 <= target <= 3 + 1
    /\ (attachDecisions (Z.to_nat target) "general" mediaBot
          (steadyOracle 0.9 0 None) first.2).1
       = replicate (Z.to_nat target - 1) false ++ [true].
Proof.
  intros s first.
  assert (Hbounds : 1 <= 3 <= 3) by (split; discriminate).
  assert (Hcounts : Z.abs 3 <= 2147483648 /\ Z.abs 3 <= 2147483648)
    by (split; discriminate).
  exact (attachments_are_target_messages_apart "general" mediaBot
           {| subreddits := ["aww"]; minMessages := 3; maxMessages := 3;
              nsfw := false |}
           (steadyOracle 0.9 0 None) s (steadyOracle_unitDraws 0 None)
           Hcounts Hbounds eq_refl eq_refl).
Defined.

Lemma first_attachment_on_new_channel_witness :
  exists target,
    3 <= target <= 3 + 1
    /\ (attachDecisions (Z.to_nat (Z.max 2 target)) "general" mediaBot
          (steadyOracle 0.9 0 None) emptyState).1
       = replicate (Z.to_nat (Z.max 2 target) - 1) false ++ [true].
Proof.
  assert (Hbounds : 1 <= 3 <= 3) by (split; discriminate).
  assert (Hcounts : Z.abs 3 <= 2147483648 /\ Z.abs 3 <= 2147483648)
    by (split; discriminate).
  exact (first_attachment_on_new_channel "general" mediaBot
           {| subreddits := ["aww"]; minMessages := 3; maxMessages := 3;
              nsfw := false |}
           (steadyOracle 0.9 0 None) emptyState (steadyOracle_unitDraws 0 None)
           Hcounts Hbounds eq_refl eq_refl).
Defined.

(** The first message on "lobby" arrives 40 days after the image on "000",
    with a thousand trackers in the table: the sweep deletes the tracker
    and the image list of "000" and keeps those of "001". *)
Lemma tracker_sweep_takes_image_list_along_witness :
  let o := steadyOracle 0.9 3456000000 None in
  let s' := (shouldAttachRedditImage "lobby" mediaBot false o crowdedState).2 in
  size (channelMessageTrackers crowdedState) = 1000%nat
  /\ recentlySentRedditImagesByChannel crowdedState !! "000" = Some ["1abcde"]
  /\ channelMessageTrackers s' !! "000" = None
  /\ recentlySentRedditImagesByChannel s' !! "000" = None
  /\ channelMessageTrackers s' !! "001"
     = Some {| messageCount := 1; targetMessageCount := 5; lastImageTime := 0 |}
  /\ recentlySentRedditImagesByChannel s' !! "001" = Some ["1fghij"].
Proof.
  intros o s'.
  assert (Hsize : size (channelMessageTrackers crowdedState) = 1000%nat)
    by (vm_compute; reflexivity).
  assert (Hold : channelMessageTrackers crowdedState !! "000"
                 = Some {| messageCount := 1; targetMessageCount := 5;
                           lastImageTime := 1 |})
    by (vm_compute; reflexivity).
  assert (Hkept : channelMessageTrackers crowdedState !! "001"
                  = Some {| messageCount := 1; targetMessageCount := 5;
                            lastImageTime := 0 |})
    by (vm_compute; reflexivity).
  destruct (tracker_sweep_takes_image_list_along "lobby" mediaBot
              {| subreddits := ["aww"]; minMessages := 3; maxMessages := 3;
                 nsfw := false |}
              o crowdedState eq_refl eq_refl) as [_ Hsweep].
  destruct (Hsweep "000") as [[Htracker Hlist] _]; [discriminate | |].
  { split; [rewrite Hsize; apply Nat.ltb_lt; reflexivity |].
    eexists. split; [exact Hold |]. cbn. split; reflexivity. }
  destruct (Hsweep "001") as [_ [Htracker' Hlist']]; [discriminate | |].
  { intros (_ & tracker & Hentry & Hstale & _).
    rewrite Hkept in Hentry. injection Hentry as <-. discriminate Hstale. }
  fold s' in Htracker, Hlist, Htracker', Hlist'.
  rewrite Htracker', Hlist', Hkept.
  repeat split; assumption || reflexivity.
Defined.

Lemma result_is_last_of_at_most_six_fetches_witness :
  let run :=
    getUnseenRandomRedditImage mediaBot "general"
      (steadyOracle 0.9 0 (Some catImage)) emptyState in
  exists n,
    (n <= MAX_UNIQUE_IMAGE_FETCH_ATTEMPTS)%nat
    /\ redditCalls run.2 = (S n + redditCalls emptyState)%nat.
Proof.
  intros run.
  destruct (result_is_last_of_at_most_six_fetches mediaBot
              {| subreddits := ["aww"]; minMessages := 3; maxMessages := 3;
                 nsfw := false |}
              "general" (steadyOracle 0.9 0 (Some catImage)) emptyState eq_refl)
    as (n & Hle & Hcalls & _).
  exists n. split; [exact Hle | exact Hcalls].
Defined.


Lemma rate_limited_reply_still_counts_in_chain_witness :
  let outcomes :=
    {| conversationFetched := true; aiResult := Some rate_limited;
       replyDelivered := true |} in
  let result :=
    messageCreateHandler false 0 (Some botUser) bareBot
      (messageIn guildChannel "hello Kira") outcomes (steadyOracle 0.9 6000 None)
      chainedState in
  mediaAndLedger result.2 = mediaAndLedger chainedState.
Proof.
  intros outcomes result.
  assert (Hkind : channel_kind (channel (messageIn guildChannel "hello Kira"))
                  <> DMChannel) by discriminate.
  assert (Hch : channel_id (channel (messageIn guildChannel "hello Kira")) <> "")
    by discriminate.
  assert (Hother : author_id (messageIn guildChannel "hello Kira")
                   <> user_id botUser) by discriminate.
  exact (proj1 (rate_limited_reply_still_counts_in_chain false 0 botUser bareBot
                  (messageIn guildChannel "hello Kira") outcomes
                  (steadyOracle 0.9 6000 None) chainedState
                  Hkind Hch Hother eq_refl eq_refl eq_refl)).
Defined.

(** A mention with the code that forces an image, answered with "hi". *)
Lemma attached_image_is_recorded_witness :
  let outcomes :=
    {| conversationFetched := true; aiResult := Some (success "hi");
       replyDelivered := true |} in
  let run :=
    replyInChannel (messageIn guildChannel "look ''") mediaBot true outcomes
      (steadyOracle 0.9 0 (Some catImage)) emptyState in
  exists rest,
    recentlySentRedditImagesByChannel run.2 !! "general" = Some ("1abcde" :: rest).
Proof.
  intros outcomes run.
  assert (Hin : MessageReply {| options_content := "hi";
                                options_files := Some catImage |} ∈ run.1)
    by (vm_compute; apply list_elem_of_here).
  exact (proj2 (proj1 (attached_image_is_recorded
                         (messageIn guildChannel "look ''") mediaBot true outcomes
                         (steadyOracle 0.9 0 (Some catImage)) emptyState
                         (MessageReply {| options_content := "hi";
                                          options_files := Some catImage |})
                         catImage eq_refl) Hin)).
Defined.
